(** * tools/generate-wire.py: the wire-format code generator

    A shallow embedding of the generator: the type catalogue, field-type
    inference, the schema builder ([Field], [Message], the CSV reading
    loops), the code-emitting passes, and a semantics for the C statements
    they emit.  Python strings are 8-bit character strings, Python [int]s
    are [Z], dictionaries looked up by key are [gmap]s, dictionaries that
    are iterated are association lists in insertion order, and a raised
    exception is the [Err] branch of [result]. *)

From Stdlib Require Import ZArith Lia Ascii DecimalString.
From Stdlib Require String.
From Stdlib Require Import Strings.Byte.
From stdpp Require Import base option strings list gmap.

Local Open Scope Z_scope.

(** ** Exceptions *)

(** The [ValueError]s of the script, one constructor per [raise] site
    (plus the one raised by the builtin [int]). *)
Inductive value_error :=
| Unknown_typename            (* FieldType._typesize *)
| Invalid_size                (* Field.__init__: not a multiple *)
| Unknown_size                (* Field._guess_type *)
| Non_u16_length_variable     (* Message.checkLenField *)
| Non_simple_length_variable  (* Message.checkLenField *)
| Unknown_length_variable     (* Message.checkLenField *)
| Unknown_message             (* reading loops, find_message_with_option *)
| Line_malformed              (* reading loops *)
| Invalid_literal.            (* int(str) *)

Inductive type_error :=
| Nested_TLVs                 (* print_tlv_fromwire / print_tlv_towire *)
| Optional_on_TLV             (* print_tlv_fromwire / print_tlv_towire *)
| TLV_not_variable_size.      (* print_fromwire / print_towire *)

Inductive exn :=
| ValueError (e : value_error)
| TypeError (e : type_error)
| AssertionError
| ZeroDivisionError
| OverflowError
| AttributeError
| FileNotFoundError (path : string)
| RecursionError.

Inductive result (A : Type) :=
| Ok (a : A)
| Err (e : exn).
Arguments Ok {A} a.
Arguments Err {A} e.

Global Instance result_ret : MRet result := fun A a => Ok a.
Global Instance result_bind : MBind result := fun A B k r =>
  match r with
  | Ok a => k a
  | Err e => Err e
  end.

Definition is_ok {A} (r : result A) : bool :=
  match r with Ok _ => true | Err _ => false end.

(** ** Python string and integer builtins *)

Module Py.

Definition startswith (s p : string) : bool := String.prefix p s.

Definition endswith (s p : string) : bool :=
  String.prefix (String.rev p) (String.rev s).

(** [k in s] on strings: [k] occurs in [s] as a contiguous run. *)
Fixpoint contains (k s : string) : bool :=
  String.prefix k s ||
  match s with
  | EmptyString => false
  | String _ s' => contains k s'
  end.

(** [c in s] for a one-character [c]. *)
Fixpoint has_char (c : ascii) (s : string) : bool :=
  match s with
  | EmptyString => false
  | String d s' => if Ascii.eqb c d then true else has_char c s'
  end.

(** [s.split(sep)] for a one-character separator: never the empty list. *)
Fixpoint split (sep : ascii) (s : string) : list string :=
  match s with
  | EmptyString => [EmptyString]
  | String c s' =>
      if Ascii.eqb c sep then EmptyString :: split sep s'
      else match split sep s' with
           | w :: ws => String c w :: ws
           | [] => [String c EmptyString]
           end
  end.

(** [sep.join(l)]. *)
Fixpoint join (sep : string) (l : list string) : string :=
  match l with
  | [] => ""
  | [w] => w
  | w :: ws => w +:+ sep +:+ join sep ws
  end.

(** [s[n:]] and [s[:-1]]. *)
Fixpoint drop (n : nat) (s : string) : string :=
  match n, s with
  | S n', String _ s' => drop n' s'
  | _, _ => s
  end.

Fixpoint drop_last (s : string) : string :=
  match s with
  | EmptyString => EmptyString
  | String _ EmptyString => EmptyString
  | String c s' => String c (drop_last s')
  end.

(** The ASCII characters for which [str.isspace] holds. *)
Definition isspace (c : ascii) : bool :=
  let n := N_of_ascii c in
  ((9 <=? n) && (n <=? 13) || (28 <=? n) && (n <=? 32))%N.

Fixpoint lstrip (s : string) : string :=
  match s with
  | String c s' => if isspace c then lstrip s' else s
  | EmptyString => EmptyString
  end.

Definition rstrip (s : string) : string :=
  String.rev (lstrip (String.rev s)).

Definition upper_char (c : ascii) : ascii :=
  let n := N_of_ascii c in
  if ((97 <=? n) && (n <=? 122))%N then ascii_of_N (n - 32) else c.

Fixpoint map_chars (f : ascii -> ascii) (s : string) : string :=
  match s with
  | EmptyString => EmptyString
  | String c s' => String (f c) (map_chars f s')
  end.

Definition upper : string -> string := map_chars upper_char.

(** [s.replace(a, b)] for one-character [a] and [b]. *)
Definition replace (a b : ascii) : string -> string :=
  map_chars (fun c => if Ascii.eqb c a then b else c).

Definition digit (c : ascii) : option Z :=
  let n := N_of_ascii c in
  if ((48 <=? n) && (n <=? 57))%N then Some (Z.of_N n - 48) else None.

(** Decimal digits with single underscores between digits;
    [acc] is the value read so far, [after_digit] whether the last
    character was a digit. *)
Fixpoint digits (acc : Z) (after_digit : bool) (s : string) : option Z :=
  match s with
  | EmptyString => if after_digit then Some acc else None
  | String c s' =>
      match digit c with
      | Some d => digits (10 * acc + d) true s'
      | None =>
          if Ascii.eqb c "_"%char && after_digit then
            match s' with
            | EmptyString => None
            | String c' _ => if digit c' is Some _ then digits acc false s' else None
            end
          else None
      end
  end.

(** The whitespace [int] skips around the number in an ASCII string:
    tab to carriage return and the space.  The separators 0x1c to 0x1f,
    which [str.strip] removes, are no whitespace here. *)
Definition isspace_int (c : ascii) : bool :=
  let n := N_of_ascii c in
  ((9 <=? n) && (n <=? 13) || (n =? 32))%N.

Fixpoint lskip (s : string) : string :=
  match s with
  | String c s' => if isspace_int c then lskip s' else s
  | EmptyString => EmptyString
  end.

(** [int(s)] on ASCII input: surrounding whitespace, an optional sign,
    decimal digits.  [None] is [ValueError]. *)
Definition int (s : string) : option Z :=
  match String.rev (lskip (String.rev (lskip s))) with
  | String "-"%char s' => Z.opp <$> digits 0 false s'
  | String "+"%char s' => digits 0 false s'
  | s' => digits 0 false s'
  end.

(** [str(n)] / [{}.format(n)] for an integer. *)
Definition str (n : Z) : string := NilZero.string_of_int (Z.to_int n).

(** [int(a / b)]: Python 3 true division of two integers gives the
    binary64 float nearest to the exact quotient (ties to even,
    [OverflowError] beyond the float range); [int] truncates that float
    towards zero.  The quotient [|a|/|b|] is scaled by [2^e] so that its
    integer part has 53 bits, rounded there, and scaled back. *)
Definition truediv_int (a b : Z) : result Z :=
  if b =? 0 then Err ZeroDivisionError
  else if a =? 0 then Ok 0
  else
    let A := Z.abs a in
    let B := Z.abs b in
    let d := Z.log2 A - Z.log2 B in
    let l := if (if 0 <=? d then B * 2 ^ d <=? A else B <=? A * 2 ^ (- d))
             then d else d - 1 in
    let e := l - 52 in
    let N := if 0 <=? e then A else A * 2 ^ (- e) in
    let D := if 0 <=? e then B * 2 ^ e else B in
    let m := N / D in
    let r := N mod D in
    let m' := if (D <? 2 * r) || ((D =? 2 * r) && Z.odd m) then m + 1 else m in
    if 2 ^ 1024 <=? (if 0 <=? e then m' * 2 ^ e else 0) then Err OverflowError
    else
      Ok (Z.sgn a * Z.sgn b * (if 0 <=? e then m' * 2 ^ e else m' / 2 ^ (- e))).

End Py.

Definition in_list (x : string) (l : list string) : bool :=
  existsb (String.eqb x) l.

(** ** The type catalogue *)

Definition type2size : gmap string Z := list_to_map [
    ("pad", 1);
    ("struct channel_id", 32);
    ("struct short_channel_id", 8);
    ("struct ipv6", 16);
    ("secp256k1_ecdsa_signature", 64);
    ("struct preimage", 32);
    ("struct pubkey", 33);
    ("struct sha256", 32);
    ("struct bitcoin_blkid", 32);
    ("struct bitcoin_txid", 32);
    ("struct secret", 32);
    ("struct amount_msat", 8);
    ("struct amount_sat", 8);
    ("u64", 8);
    ("u32", 4);
    ("u16", 2);
    ("u8", 1);
    ("bool", 1)
  ].

(** These struct array helpers require a context to allocate from. *)
Definition varlen_structs : list string := [
    "peer_features";
    "gossip_getnodes_entry";
    "failed_htlc";
    "utxo";
    "bitcoin_tx";
    "wirestring"
  ].

Module FieldType.

Record t := mk { name : string }.

Definition is_assignable (self : t) : bool :=
  in_list (name self)
    ["u8"; "u16"; "u32"; "u64"; "bool"; "struct amount_msat"; "struct amount_sat"]
  || Py.startswith (name self) "enum ".

(** We only accelerate the u8 case. *)
Definition has_array_helper (self : t) : bool :=
  in_list (name self) ["u8"].

Definition base (self : t) : string :=
  let basetype := name self in
  if Py.startswith basetype "struct " then Py.drop 7 basetype
  else if Py.startswith basetype "enum " then Py.drop 5 basetype
  else basetype.

(** Returns base size. *)
Definition _typesize (typename : string) : result Z :=
  match type2size !! typename with
  | Some n => Ok n
  | None =>
      if Py.startswith typename "struct " || Py.startswith typename "enum "
      then Ok 0
      else Err (ValueError Unknown_typename)
  end.

End FieldType.

Abbreviation FieldType := FieldType.mk.

(** Full (message, fieldname)-mappings *)
Definition typemap : gmap (string * string) FieldType.t := list_to_map [
    (("update_fail_htlc", "reason"), FieldType "u8");
    (("node_announcement", "alias"), FieldType "u8");
    (("update_add_htlc", "onion_routing_packet"), FieldType "u8");
    (("update_fulfill_htlc", "payment_preimage"), FieldType "struct preimage");
    (("error", "data"), FieldType "u8");
    (("shutdown", "scriptpubkey"), FieldType "u8");
    (("node_announcement", "rgb_color"), FieldType "u8");
    (("node_announcement", "addresses"), FieldType "u8");
    (("node_announcement", "ipv6"), FieldType "struct ipv6");
    (("announcement_signatures", "short_channel_id"), FieldType "struct short_channel_id");
    (("channel_announcement", "short_channel_id"), FieldType "struct short_channel_id");
    (("channel_update", "short_channel_id"), FieldType "struct short_channel_id");
    (("revoke_and_ack", "per_commitment_secret"), FieldType "struct secret");
    (("channel_reestablish_option_data_loss_protect", "your_last_per_commitment_secret"),
       FieldType "struct secret");
    (("channel_update", "fee_base_msat"), FieldType "u32");
    (("final_incorrect_htlc_amount", "incoming_htlc_amt"), FieldType "struct amount_msat")
  ].

(** Partial names that map to a datatype; iterated in insertion order. *)
Definition partialtypemap : list (string * FieldType.t) := [
    ("signature", FieldType "secp256k1_ecdsa_signature");
    ("features", FieldType "u8");
    ("channel_id", FieldType "struct channel_id");
    ("chain_hash", FieldType "struct bitcoin_blkid");
    ("funding_txid", FieldType "struct bitcoin_txid");
    ("pad", FieldType "pad");
    ("msat", FieldType "struct amount_msat");
    ("satoshis", FieldType "struct amount_sat")
  ].

(** Size to typename match *)
Definition sizetypemap : gmap Z FieldType.t := list_to_map [
    (33, FieldType "struct pubkey");
    (32, FieldType "struct sha256");
    (8, FieldType "u64");
    (4, FieldType "u32");
    (2, FieldType "u16");
    (1, FieldType "u8")
  ].

(** ** Type inference: [Field._guess_type] *)

Section GuessType.

(** The three lookup tables; the script fixes them to the globals above. *)
Variable full : gmap (string * string) FieldType.t.
Variable partial : list (string * FieldType.t).
Variable bysize : gmap Z FieldType.t.

(** [for k, v in partial.items(): if k in fieldname: return v] *)
Fixpoint first_partial (items : list (string * FieldType.t)) (fieldname : string)
  : option FieldType.t :=
  match items with
  | [] => None
  | (k, v) :: items' =>
      if Py.contains k fieldname then Some v else first_partial items' fieldname
  end.

Definition guess_type_in (message fieldname : string) (base_size : Z)
  : result FieldType.t :=
  (* Check for full (message, fieldname)-matches *)
  match full !! (message, fieldname) with
  | Some t => Ok t
  | None =>
      (* Check for partial field names *)
      match first_partial partial fieldname with
      | Some v => Ok v
      | None =>
          (* Check for size matches *)
          match bysize !! base_size with
          | Some t => Ok t
          | None => Err (ValueError Unknown_size)
          end
      end
  end.

End GuessType.

Definition _guess_type : string -> string -> Z -> result FieldType.t :=
  guess_type_in typemap partialtypemap sizetypemap.

(** ** Fields *)

Record Enumtype := { enum_name : string; enum_value : string }.

Module Field.

(** [lenvar_for] is the attribute [checkLenField] adds to a length
    field: a reference to the field it gives the length of.  Only the
    [name] and [is_tlv] of that field are ever read through it, and that
    field is never changed after it was built, so the pair of the two is
    kept. *)
Record t := mk {
  message : string;
  comments : list string;
  name : string;
  is_len_var : bool;
  lenvar : option string;
  num_elems : Z;
  optional : bool;
  is_tlv : bool;
  fieldtype : FieldType.t;
  lenvar_for : option (string * bool)
}.

(** [name.endswith('+')]: the field contains a tlv, and its name is
    [name[:-1]]. *)
Definition tlv_name (name : string) : bool * string :=
  if Py.endswith name "+" then (true, Py.drop_last name) else (false, name).

(** The size token: [(optional, lenvar, num_elems, size)] after the
    [?], [*] and bare-length-variable cases. *)
Definition parse_size (bolt : bool) (size : string) (prevname : option string)
  : result (bool * option string * Z * string) :=
  (* ? means optional field (not supported for arrays) *)
  if Py.startswith size "?" then
    Ok (true, None, 1, Py.drop 1 size)
  (* If it's an arraysize, swallow prefix. *)
  else if Py.has_char "*" size then
    let number := default "" (Py.split "*" size !! 0%nat) in
    let size' := default "" (Py.split "*" size !! 1%nat) in
    if bool_decide (prevname = Some number) then
      Ok (false, Some number, 1, size')
    else
      match Py.int number with
      | Some n => Ok (false, None, n, size')
      | None => Err (ValueError Invalid_literal)
      end
  else if bolt && bool_decide (prevname = Some size) then
    (* Raw length field, implies u8. *)
    Ok (false, Some size, 1, "1")
  else
    Ok (false, None, 1, size).

(** [Field.__init__] after the tlv file of a [name+] field was loaded:
    [name] is the name without its [+]. *)
Definition init_body (bolt : bool) (message name : string) (is_tlv : bool)
    (size : string) (comments : list string) (prevname : option string)
  : result t :=
  '(optional, lenvar, num_elems, size) ← parse_size bolt size prevname;
  if bolt then
    (* Bolts use just a number: Guess type based on size. *)
    base_size ← (if Py.int size is Some n then Ok n
                 else Err (ValueError Invalid_literal));
    fieldtype ← _guess_type message name base_size;
    (* There are some arrays which we have to guess, based on sizes. *)
    tsize ← FieldType._typesize (FieldType.name fieldtype);
    if tsize =? 0 then Err ZeroDivisionError
    else if negb (base_size mod tsize =? 0) then Err (ValueError Invalid_size)
    else
      num_elems ← Py.truediv_int base_size tsize;
      Ok (mk message comments name false lenvar num_elems optional is_tlv
            fieldtype None)
  else
    (* Real typename. *)
    Ok (mk message comments name false lenvar num_elems optional is_tlv
          (FieldType size) None).

Definition is_padding (self : t) : bool := Py.startswith (name self) "pad".

(** Padding is always treated as an array. *)
Definition is_array (self : t) : bool :=
  (1 <? num_elems self) || is_padding self.

Definition is_variable_size (self : t) : bool :=
  bool_decide (lenvar self ≠ None).

Definition needs_ptr_to_ptr (self : t) : bool :=
  is_variable_size self || optional self.

Definition is_assignable (self : t) : bool :=
  if is_array self || needs_ptr_to_ptr self then false
  else FieldType.is_assignable (fieldtype self).

Definition has_array_helper (self : t) : bool :=
  FieldType.has_array_helper (fieldtype self).

(** [f.is_len_var = True; f.lenvar_for = field] *)
Definition mark_len_var (f field : t) : t :=
  mk (message f) (comments f) (name f) true (lenvar f) (num_elems f)
     (optional f) (is_tlv f) (fieldtype f) (Some (name field, is_tlv field)).

End Field.

(** ** The emitted C code *)

Definition nl : string := String (ascii_of_N 10) "".
Definition tab : string := String (ascii_of_N 9) "".

(** An element count in emitted code: the literal [f.num_elems] or the
    name of the length variable [f.lenvar]. *)
Inductive count :=
| Num (n : Z)
| Len (lenvar : string).

(** The C expressions the passes build from names. *)
Inductive cexpr :=
| EVar (n : string)              (* n *)
| EDeref (e : cexpr)             (* *e *)
| EArrow (r n : string).         (* r->n *)

(** One constructor per line (or group of lines) a pass appends to its
    [CCode]; [render] below gives the text. *)
Inductive cstmt :=
| Comment (c : string)
| For (n : count) (body : cstmt)
(* fromwire *)
| Fromwire_pad (n : Z)
| Fromwire_array (basetype : string) (name : cexpr) (n : count)
| Fromwire_elem_assign (name : cexpr) (basetype : string)
| Fromwire_elem_alloc (name : cexpr) (basetype : string) (ctx : cexpr)
| Fromwire_elem_into (basetype : string) (name : cexpr)
| Fromwire_tlv (tlv_name tlv_len : string)
| Second_case (spaced : bool) (name : string)
| Tal_arr (lhs : cexpr) (lenvar typename : string)
| Fromwire_assign (lhs : cexpr) (basetype : string)
| Fromwire_assign_alloc (lhs : cexpr) (basetype : string)
| Fromwire_into (basetype : string) (dst : cexpr)
| Fromwire_optional (name typename : string) (s : cstmt)
(* towire *)
| Towire_pad (p : string) (n : Z)
| Towire_array (basetype p_ref : string) (src : cexpr) (n : count)
| Towire_elem (basetype p_ref : string) (src : cexpr)
| Towire_elem_ptr (basetype p_ref : string) (src : cexpr)
| Towire_tlv (tlv_name : string)
| Towire_optional (name basetype : string) (deref : bool)
| Towire (basetype p : string) (src : cexpr)
(* struct members *)
| Member_ptr (typename name : string)
| Member_array (typename name : string) (n : Z)
| Member (typename name : string).

Definition render_count (c : count) : string :=
  match c with
  | Num n => Py.str n
  | Len v => v
  end.

Fixpoint render_expr (e : cexpr) : string :=
  match e with
  | EVar n => n
  | EDeref e => "*" +:+ render_expr e
  | EArrow r n => r +:+ "->" +:+ n
  end.

Fixpoint render (s : cstmt) : string :=
  match s with
  | Comment c => "/*" +:+ c +:+ " */"
  | For n body =>
      "for (size_t i = 0; i < " +:+ render_count n +:+ "; i++)" +:+ nl +:+ render body
  | Fromwire_pad n => "fromwire_pad(&cursor, &plen, " +:+ Py.str n +:+ ");"
  | Fromwire_array basetype name n =>
      "fromwire_" +:+ basetype +:+ "_array(&cursor, &plen, " +:+ render_expr name
      +:+ ", " +:+ render_count n +:+ ");"
  | Fromwire_elem_assign name basetype =>
      "(" +:+ render_expr name +:+ ")[i] = fromwire_" +:+ basetype
      +:+ "(&cursor, &plen);"
  | Fromwire_elem_alloc name basetype ctx =>
      "(" +:+ render_expr name +:+ ")[i] = fromwire_" +:+ basetype +:+ "("
      +:+ render_expr ctx +:+ ", &cursor, &plen);"
  | Fromwire_elem_into basetype name =>
      "fromwire_" +:+ basetype +:+ "(&cursor, &plen, " +:+ render_expr name +:+ " + i);"
  | Fromwire_tlv tlv_name tlv_len =>
      "if (!fromwire__" +:+ tlv_name +:+ "(ctx, &cursor, &" +:+ tlv_len +:+ ", "
      +:+ tlv_name +:+ "))" +:+ nl +:+ "return false;"
  | Second_case spaced name =>
      (if spaced then "// 2nd case " else "//2nd case ") +:+ name
  | Tal_arr lhs lenvar typename =>
      render_expr lhs +:+ " = " +:+ lenvar +:+ " ? tal_arr(ctx, " +:+ typename
      +:+ ", " +:+ lenvar +:+ ") : NULL;"
  | Fromwire_assign lhs basetype =>
      render_expr lhs +:+ " = fromwire_" +:+ basetype +:+ "(&cursor, &plen);"
  | Fromwire_assign_alloc lhs basetype =>
      render_expr lhs +:+ " = fromwire_" +:+ basetype +:+ "(ctx, &cursor, &plen);"
  | Fromwire_into basetype dst =>
      "fromwire_" +:+ basetype +:+ "(&cursor, &plen, " +:+ render_expr dst +:+ ");"
  | Fromwire_optional name typename s =>
      "if (!fromwire_bool(&cursor, &plen))" +:+ nl +:+
      "*" +:+ name +:+ " = NULL;" +:+ nl +:+
      "else {" +:+ nl +:+
      "*" +:+ name +:+ " = tal(ctx, " +:+ typename +:+ ");" +:+ nl +:+
      render s +:+ nl +:+
      "}"
  | Towire_pad p n => "towire_pad(" +:+ p +:+ ", " +:+ Py.str n +:+ ");"
  | Towire_array basetype p_ref src n =>
      "towire_" +:+ basetype +:+ "_array(" +:+ p_ref +:+ "p, " +:+ render_expr src
      +:+ ", " +:+ render_count n +:+ ");"
  | Towire_elem basetype p_ref src =>
      "towire_" +:+ basetype +:+ "(" +:+ p_ref +:+ "p, " +:+ render_expr src +:+ "[i]);"
  | Towire_elem_ptr basetype p_ref src =>
      "towire_" +:+ basetype +:+ "(" +:+ p_ref +:+ "p, " +:+ render_expr src +:+ " + i);"
  | Towire_tlv tlv_name =>
      "towire__" +:+ tlv_name +:+ "(&p, " +:+ tlv_name +:+ ");"
  | Towire_optional name basetype deref =>
      "if (!" +:+ name +:+ ")" +:+ nl +:+
      "towire_bool(&p, false);" +:+ nl +:+
      "else {" +:+ nl +:+
      "towire_bool(&p, true);" +:+ nl +:+
      "towire_" +:+ basetype +:+ "(&p, " +:+ (if deref then "*" else "") +:+ name
      +:+ ");" +:+ nl +:+
      "}"
  | Towire basetype p src =>
      "towire_" +:+ basetype +:+ "(" +:+ p +:+ ", " +:+ render_expr src +:+ ");"
  | Member_ptr typename name => typename +:+ " *" +:+ name +:+ ";"
  | Member_array typename name n =>
      typename +:+ " " +:+ name +:+ "[" +:+ Py.str n +:+ "];"
  | Member typename name => typename +:+ " " +:+ name +:+ ";"
  end.

(** [class CCode]: simple class to create indented C code.  [code] is the
    list of lines; [stmts] records, next to them, the statements that
    were appended. *)
Module CCode.

Record t := mk {
  indent : Z;
  single_indent : bool;
  code : list string;
  stmts : list cstmt
}.

Definition init : t := mk 1 false [] [].

(** ["\t" * n] *)
Definition tabs (n : Z) : string :=
  Py.join "" (replicate (Z.to_nat n) tab).

(** The body of the loop of [append], for one line. *)
Definition append_line (self : t) (line : string) : result t :=
  (* Let us to the indenting please! *)
  if Py.contains tab line then Err AssertionError
  (* Special case: } by itself is pre-unindented. *)
  else if String.eqb line "}" then
    let indent := indent self - 1 in
    Ok (mk indent (single_indent self) (code self ++ [tabs indent +:+ line])
          (stmts self))
  else
    let code := code self ++ [tabs (indent self) +:+ line] in
    let indent := if single_indent self then indent self - 1 else indent self in
    if Py.endswith line "{" then Ok (mk (indent + 1) false code (stmts self))
    else if Py.endswith line "}" then Ok (mk (indent - 1) false code (stmts self))
    else if Py.startswith line "for" || Py.startswith line "if" then
      Ok (mk (indent + 1) true code (stmts self))
    else Ok (mk indent false code (stmts self)).

Fixpoint append_lines (self : t) (lines : list string) : result t :=
  match lines with
  | [] => Ok self
  | line :: lines' =>
      self ← append_line self line;
      append_lines self lines'
  end.

(** [subcalls.append(lines)] where [lines] is the text of [s]. *)
Definition append (self : t) (s : cstmt) : result t :=
  self ← append_lines self (Py.split (ascii_of_N 10) (render s));
  Ok (mk (indent self) (single_indent self) (code self) (stmts self ++ [s])).

Fixpoint append_all (self : t) (ss : list cstmt) : result t :=
  match ss with
  | [] => Ok self
  | s :: ss' =>
      self ← append self s;
      append_all self ss'
  end.

(** [__str__] *)
Definition str (self : t) : result string :=
  if negb (indent self =? 1) then Err AssertionError
  else if single_indent self then Err AssertionError
  else Ok (Py.join nl (code self)).

End CCode.

(** Parameters of the generated entry points. *)
Inductive carg :=
| Arg_array (const : bool) (typename name : string) (n : Z)
| Arg_tlv (const : bool) (name : string)
| Arg_ptr (const : bool) (typename : string) (stars : nat) (name : string)
| Arg_value (typename name : string).

Definition render_arg (a : carg) : string :=
  let c (const : bool) := if const then "const " else "" in
  match a with
  | Arg_array const typename name n =>
      ", " +:+ c const +:+ typename +:+ " " +:+ name +:+ "[" +:+ Py.str n +:+ "]"
  | Arg_tlv const name =>
      ", " +:+ c const +:+ "struct _" +:+ name +:+ " *" +:+ name
  | Arg_ptr const typename stars name =>
      ", " +:+ c const +:+ typename +:+ " " +:+ Py.join "" (replicate stars "*")
      +:+ name
  | Arg_value typename name => ", " +:+ typename +:+ " " +:+ name
  end.

(** Declarations of the length variables: the local of a decoder, and
    the initialised local of an encoder. *)
Inductive cdecl :=
| Local (typename name : string)                   (* T n; *)
| Local_sizeof (typename name target : string)     (* T n = sizeof(target); *)
| Local_tal_count (typename name target : string)  (* T n = tal_count(target); *)
| Local_tal_count_addr (typename name rec target : string).
                                                   (* T n = tal_count(&rec->target); *)

Definition render_decl (d : cdecl) : string :=
  match d with
  | Local typename name => tab +:+ typename +:+ " " +:+ name +:+ ";" +:+ nl
  | Local_sizeof typename name target =>
      tab +:+ typename +:+ " " +:+ name +:+ " = sizeof(" +:+ target +:+ ");"
  | Local_tal_count typename name target =>
      tab +:+ typename +:+ " " +:+ name +:+ " = tal_count(" +:+ target +:+ ");"
  | Local_tal_count_addr typename name rec target =>
      tab +:+ typename +:+ " " +:+ name +:+ " = tal_count(&" +:+ rec +:+ "->"
      +:+ target +:+ ");"
  end.

(** *** The templates *)

Definition fromwire_impl_templ (name ctx args fields enum_name subcalls : string)
  : string :=
  "bool fromwire_" +:+ name +:+ "(" +:+ ctx +:+ "const void *p" +:+ args +:+ ")" +:+ nl +:+
  "{" +:+ nl +:+
  fields +:+ nl +:+
  tab +:+ "const u8 *cursor = p;" +:+ nl +:+
  tab +:+ "size_t plen = tal_count(p);" +:+ nl +:+
  nl +:+
  tab +:+ "if (fromwire_u16(&cursor, &plen) != " +:+ enum_name +:+ ")" +:+ nl +:+
  tab +:+ tab +:+ "return false;" +:+ nl +:+
  subcalls +:+ nl +:+
  tab +:+ "return cursor != NULL;" +:+ nl +:+
  "}" +:+ nl.

Definition fromwire_tlv_impl_templ (tlv_name name ctx args fields subcalls : string)
  : string :=
  "static bool _fromwire_" +:+ tlv_name +:+ "_" +:+ name +:+ "(" +:+ ctx +:+ args
    +:+ ")" +:+ nl +:+
  "{" +:+ nl +:+
  nl +:+
  tab +:+ "size_t start_len, plen;" +:+ nl +:+
  fields +:+ nl +:+
  tab +:+ "const u8 *cursor = p;" +:+ nl +:+
  tab +:+ "plen = tal_count(p);" +:+ nl +:+
  tab +:+ "if (plen < len)" +:+ nl +:+
  tab +:+ tab +:+ "return false;" +:+ nl +:+
  tab +:+ "start_len = plen;" +:+ nl +:+
  subcalls +:+ nl +:+
  tab +:+ "return cursor != NULL && (start_len - plen == len);" +:+ nl +:+
  "}" +:+ nl.

Definition fromwire_header_templ (name ctx args : string) : string :=
  "bool fromwire_" +:+ name +:+ "(" +:+ ctx +:+ "const void *p" +:+ args +:+ ");" +:+ nl.

Definition towire_header_templ (name args : string) : string :=
  "u8 *towire_" +:+ name +:+ "(const tal_t *ctx" +:+ args +:+ ");" +:+ nl.

Definition towire_impl_templ (name args field_decls enumname subcalls : string)
  : string :=
  "u8 *towire_" +:+ name +:+ "(const tal_t *ctx" +:+ args +:+ ")" +:+ nl +:+
  "{" +:+ nl +:+
  field_decls +:+ nl +:+
  tab +:+ "u8 *p = tal_arr(ctx, u8, 0);" +:+ nl +:+
  tab +:+ "towire_u16(&p, " +:+ enumname +:+ ");" +:+ nl +:+
  subcalls +:+ nl +:+
  nl +:+
  tab +:+ "return memcheck(p, tal_count(p));" +:+ nl +:+
  "}" +:+ nl.

Definition tlv_message_towire_stub (tlv_name name field_decls subcalls : string)
  : string :=
  "static void _towire_" +:+ tlv_name +:+ "_" +:+ name +:+ "(u8 **p, struct _tlv_msg_"
    +:+ name +:+ " *" +:+ name +:+ ") {" +:+ nl +:+
  field_decls +:+ nl +:+
  subcalls +:+ nl +:+
  "}" +:+ nl.

Definition tlv_msg_struct_template (msg_name fields : string) : string :=
  nl +:+
  "struct _tlv_msg_" +:+ msg_name +:+ " {" +:+ nl +:+
  fields +:+ nl +:+
  "};" +:+ nl.

Definition tlv_struct_template (tlv_name msg_type_structs : string) : string :=
  nl +:+
  "struct _" +:+ tlv_name +:+ " {" +:+ nl +:+
  msg_type_structs +:+ nl +:+
  "};" +:+ nl.

Definition tlv__type_impl_towire_fields (tlv_name enum name : string) : string :=
  tab +:+ "if (" +:+ tlv_name +:+ "->" +:+ name +:+ ") {" +:+ nl +:+
  tab +:+ tab +:+ "towire_u16(p, " +:+ enum +:+ ");" +:+ nl +:+
  tab +:+ tab +:+ "towire_u16(p, sizeof(*" +:+ tlv_name +:+ "->" +:+ name +:+ "));" +:+ nl +:+
  tab +:+ tab +:+ "_towire_" +:+ tlv_name +:+ "_" +:+ name +:+ "(p, " +:+ tlv_name
    +:+ "->" +:+ name +:+ ");" +:+ nl +:+
  tab +:+ "}" +:+ nl.

Definition tlv__type_impl_towire_template (tlv_name fields : string) : string :=
  "static void towire__" +:+ tlv_name +:+ "(u8 **p, const struct _" +:+ tlv_name
    +:+ " *" +:+ tlv_name +:+ ") {" +:+ nl +:+
  fields +:+ "}" +:+ nl.

Definition tlv__type_impl_fromwire_template (tlv_name cases : string) : string :=
  "static bool fromwire__" +:+ tlv_name +:+ "(const tal_t *ctx, const u8 **p, const u16 *len, struct _"
    +:+ tlv_name +:+ " *" +:+ tlv_name +:+ ") {" +:+ nl +:+
  tab +:+ "u16 msg_type, msg_len;" +:+ nl +:+
  tab +:+ "const u8 *cursor = *p;" +:+ nl +:+
  tab +:+ "size_t plen = tal_count(p);" +:+ nl +:+
  tab +:+ "if (plen != *len)" +:+ nl +:+
  tab +:+ tab +:+ "return false;" +:+ nl +:+
  nl +:+
  tab +:+ "while (cursor && plen) {" +:+ nl +:+
  tab +:+ tab +:+ "msg_type = fromwire_u16(&cursor, &plen);" +:+ nl +:+
  tab +:+ tab +:+ "msg_len = fromwire_u16(&cursor, &plen);" +:+ nl +:+
  tab +:+ tab +:+ "if (plen < msg_len) {" +:+ nl +:+
  tab +:+ tab +:+ tab +:+ "fromwire_fail(&cursor, &plen);" +:+ nl +:+
  tab +:+ tab +:+ tab +:+ "break;" +:+ nl +:+
  tab +:+ tab +:+ "}" +:+ nl +:+
  tab +:+ tab +:+ "switch((enum " +:+ tlv_name +:+ "_type)msg_type) {" +:+ nl +:+
  cases +:+ tab +:+ tab +:+ "default:" +:+ nl +:+
  tab +:+ tab +:+ tab +:+ "// FIXME: print a warning / message?" +:+ nl +:+
  tab +:+ tab +:+ tab +:+ "cursor += msg_len;" +:+ nl +:+
  tab +:+ tab +:+ tab +:+ "plen -= msg_len;" +:+ nl +:+
  tab +:+ tab +:+ "}" +:+ nl +:+
  tab +:+ "}" +:+ nl +:+
  tab +:+ "return cursor != NULL;" +:+ nl +:+
  "}" +:+ nl.

Definition case_tmpl (tlv_msg_enum tlv_name tlv_msg_name ctx_arg : string) : string :=
  tab +:+ tab +:+ "case " +:+ tlv_msg_enum +:+ ":" +:+ nl +:+
  tab +:+ tab +:+ tab +:+ "if (!_fromwire_" +:+ tlv_name +:+ "_" +:+ tlv_msg_name +:+ "("
    +:+ ctx_arg +:+ "cursor, msg_len, " +:+ tlv_name +:+ "->" +:+ tlv_msg_name +:+ "))" +:+ nl +:+
  tab +:+ tab +:+ tab +:+ tab +:+ "return false;" +:+ nl +:+
  tab +:+ tab +:+ tab +:+ "break;" +:+ nl.

(** ** Messages *)

Module Message.

Record t := mk {
  name : string;
  enum : Enumtype;
  comments : list string;
  fields : list Field.t;
  has_variable_fields : bool;
  is_tlv : bool
}.

Definition init (name : string) (enum : Enumtype) (comments : list string)
    (is_tlv : bool) : t :=
  mk name enum comments [] false is_tlv.

Definition set_fields (self : t) (fs : list Field.t) : t :=
  mk (name self) (enum self) (comments self) fs (has_variable_fields self)
     (is_tlv self).

Definition set_has_variable_fields (self : t) : t :=
  mk (name self) (enum self) (comments self) (fields self) true (is_tlv self).

Definition set_name (self : t) (n : string) : t :=
  mk n (enum self) (comments self) (fields self) (has_variable_fields self)
     (is_tlv self).

(** The loop of [checkLenField] over [self.fields]: the first field
    named [field.lenvar] is checked and marked in place. *)
Fixpoint check_fields (bolt : bool) (field : Field.t) (fs : list Field.t)
  : result (list Field.t) :=
  match fs with
  | [] => Err (ValueError Unknown_length_variable)
  | f :: fs' =>
      if bool_decide (Some (Field.name f) = Field.lenvar field) then
        if negb (String.eqb (FieldType.name (Field.fieldtype f)) "u16") && bolt
        then Err (ValueError Non_u16_length_variable)
        else if Field.is_array f || Field.needs_ptr_to_ptr f
        then Err (ValueError Non_simple_length_variable)
        else Ok (Field.mark_len_var f field :: fs')
      else
        fs'' ← check_fields bolt field fs';
        Ok (f :: fs'')
  end.

Definition checkLenField (bolt : bool) (self : t) (field : Field.t) : result t :=
  (* Optional fields don't have a len. *)
  if Field.optional field then Ok self
  else
    fs ← check_fields bolt field (fields self);
    Ok (set_fields self fs).

Definition addField (bolt : bool) (self : t) (field : Field.t) : result t :=
  (* We assume field lengths are 16 bit, to avoid overflow issues and
     massive allocations. *)
  self ←
    (if Field.is_variable_size field then
       self ← checkLenField bolt self field;
       Ok (set_has_variable_fields self)
     else if in_list (FieldType.base (Field.fieldtype field)) varlen_structs
             || Field.optional field then
       Ok (set_has_variable_fields self)
     else Ok self);
  Ok (set_fields self (fields self ++ [field])).

(** *** Decoders *)

Definition print_fromwire_array (ctx : cexpr) (subcalls : CCode.t)
    (basetype : string) (f : Field.t) (name : cexpr) (num_elems : count)
  : result CCode.t :=
  if Field.has_array_helper f then
    CCode.append subcalls (Fromwire_array basetype name num_elems)
  else
    CCode.append subcalls
      (For num_elems
         (if FieldType.is_assignable (Field.fieldtype f) then
            Fromwire_elem_assign name basetype
          else if in_list basetype varlen_structs then
            Fromwire_elem_alloc name basetype ctx
          else Fromwire_elem_into basetype name)).

Definition ctx_arg (self : t) : string :=
  if has_variable_fields self then "const tal_t *ctx, " else "".

(** [fields]: the locals that receive the length variables. *)
Definition len_locals (self : t) : list cdecl :=
  omap (fun f => if Field.is_len_var f
                 then Some (Local (FieldType.name (Field.fieldtype f)) (Field.name f))
                 else None) (fields self).

(** If structs are varlen, need array of ptrs to them. *)
Definition array_typename (f : Field.t) : string :=
  if in_list (FieldType.base (Field.fieldtype f)) varlen_structs
  then FieldType.name (Field.fieldtype f) +:+ " *"
  else FieldType.name (Field.fieldtype f).

(** The body of the loop of [print_tlv_fromwire] over [self.fields]. *)
Definition tlv_fromwire_field (self : t) (subcalls : CCode.t) (f : Field.t)
  : result CCode.t :=
  let basetype := FieldType.base (Field.fieldtype f) in
  if Field.is_tlv f then Err (TypeError Nested_TLVs)
  else if Field.optional f then Err (TypeError Optional_on_TLV)
  else
    subcalls ← CCode.append_all subcalls (Comment <$> Field.comments f);
    if Field.is_padding f then
      CCode.append subcalls (Fromwire_pad (Field.num_elems f))
    else if Field.is_array f then
      let name := EDeref (EArrow (name self) (Field.name f)) in
      print_fromwire_array (EVar "ctx") subcalls basetype f name
        (Num (Field.num_elems f))
    else if Field.is_variable_size f then
      let lenvar := default "None" (Field.lenvar f) in
      subcalls ← CCode.append subcalls (Second_case true (Field.name f));
      subcalls ← CCode.append subcalls
        (Tal_arr (EArrow (name self) (Field.name f)) lenvar (array_typename f));
      let name := EArrow (name self) (Field.name f) in
      (* Allocate these off the array itself, if they need alloc. *)
      print_fromwire_array (EDeref (EVar (Field.name f))) subcalls basetype f
        name (Len lenvar)
    else
      CCode.append subcalls
        (if Field.is_assignable f then
           if Field.is_len_var f then Fromwire_assign (EVar (Field.name f)) basetype
           else Fromwire_assign (EArrow (name self) (Field.name f)) basetype
         else
           Fromwire_into basetype (EDeref (EArrow (name self) (Field.name f)))).

Fixpoint fold_fields (step : CCode.t -> Field.t -> result CCode.t)
    (subcalls : CCode.t) (fs : list Field.t) : result CCode.t :=
  match fs with
  | [] => Ok subcalls
  | f :: fs' =>
      subcalls ← step subcalls f;
      fold_fields step subcalls fs'
  end.

Definition tlv_fromwire_subcalls (self : t) : result CCode.t :=
  fold_fields (tlv_fromwire_field self) CCode.init (fields self).

(** Prints fromwire function definition for a TLV message.  These are
    significantly different in that they take in a struct to populate,
    instead of fields, as well as a length to read in. *)
Definition print_tlv_fromwire (self : t) (tlv_name : string) : result string :=
  let args := "const void *p, const u16 len, struct _tlv_msg_" +:+ name self
              +:+ " *" +:+ name self in
  let fields := Py.join "" (render_decl <$> len_locals self) in
  subcalls ← tlv_fromwire_subcalls self;
  subcalls ← CCode.str subcalls;
  Ok (fromwire_tlv_impl_templ tlv_name (name self) (ctx_arg self) args fields
        subcalls).

(** The argument a field contributes to [fromwire_<name>]. *)
Definition fromwire_arg (f : Field.t) : list carg :=
  if Field.is_len_var f || Field.is_padding f then []
  else if Field.is_array f then
    [Arg_array false (FieldType.name (Field.fieldtype f)) (Field.name f)
       (Field.num_elems f)]
  else if Field.is_tlv f then [Arg_tlv false (Field.name f)]
  else
    (* If we're handing a variable array, we need a ptr-to-ptr.
       If each type is a variable length, we need a ptr to that. *)
    let stars :=
      (1 + (if Field.needs_ptr_to_ptr f then 1 else 0)
         + (if in_list (FieldType.base (Field.fieldtype f)) varlen_structs
            then 1 else 0))%nat in
    [Arg_ptr false (FieldType.name (Field.fieldtype f)) stars (Field.name f)].

Definition fromwire_args (self : t) : list carg :=
  fields self ≫= fromwire_arg.

(** The body of the second loop of [print_fromwire]. *)
Definition fromwire_field (subcalls : CCode.t) (f : Field.t) : result CCode.t :=
  let basetype := FieldType.base (Field.fieldtype f) in
  subcalls ← CCode.append_all subcalls (Comment <$> Field.comments f);
  if Field.is_padding f then
    CCode.append subcalls (Fromwire_pad (Field.num_elems f))
  else if Field.is_array f then
    print_fromwire_array (EVar "ctx") subcalls basetype f (EVar (Field.name f))
      (Num (Field.num_elems f))
  else if Field.is_tlv f then
    if negb (Field.is_variable_size f) then Err (TypeError TLV_not_variable_size)
    else
      CCode.append subcalls
        (Fromwire_tlv (Field.name f) (default "None" (Field.lenvar f)))
  else if Field.is_variable_size f then
    let lenvar := default "None" (Field.lenvar f) in
    subcalls ← CCode.append subcalls (Second_case false (Field.name f));
    subcalls ← CCode.append subcalls
      (Tal_arr (EDeref (EVar (Field.name f))) lenvar (array_typename f));
    (* Allocate these off the array itself, if they need alloc. *)
    print_fromwire_array (EDeref (EVar (Field.name f))) subcalls basetype f
      (EDeref (EVar (Field.name f))) (Len lenvar)
  else
    let assignable :=
      if Field.optional f then FieldType.is_assignable (Field.fieldtype f)
      else Field.is_assignable f in
    let target := if Field.optional f then EDeref (EVar (Field.name f))
                  else EVar (Field.name f) in
    let s :=
      if assignable then
        if Field.is_len_var f then Fromwire_assign (EVar (Field.name f)) basetype
        else Fromwire_assign (EDeref target) basetype
      else if in_list basetype varlen_structs then
        Fromwire_assign_alloc (EDeref target) basetype
      else Fromwire_into basetype target in
    if Field.optional f then
      CCode.append subcalls
        (Fromwire_optional (Field.name f) (FieldType.name (Field.fieldtype f)) s)
    else CCode.append subcalls s.

Definition fromwire_subcalls (self : t) : result CCode.t :=
  fold_fields fromwire_field CCode.init (fields self).

Definition print_fromwire (self : t) (is_header : bool) (tlv_name : string)
  : result string :=
  if is_tlv self then
    if is_header then Ok ""
    else print_tlv_fromwire self tlv_name
  else
    let args := Py.join "" (render_arg <$> fromwire_args self) in
    let fields := Py.join "" (render_decl <$> len_locals self) in
    subcalls ← fromwire_subcalls self;
    subcalls ← CCode.str subcalls;
    Ok (if is_header then fromwire_header_templ (name self) (ctx_arg self) args
        else fromwire_impl_templ (name self) (ctx_arg self) args fields
               (enum_name (enum self)) subcalls).

(** *** Encoders *)

Definition print_towire_array (self : t) (subcalls : CCode.t) (basetype : string)
    (f : Field.t) (num_elems : count) (is_tlv : bool) : result CCode.t :=
  let p_ref := if is_tlv then "" else "&" in
  let src := if is_tlv then EArrow (name self) (Field.name f)
             else EVar (Field.name f) in
  if Field.has_array_helper f then
    CCode.append subcalls (Towire_array basetype p_ref src num_elems)
  else
    CCode.append subcalls
      (For num_elems
         (if FieldType.is_assignable (Field.fieldtype f)
             || in_list basetype varlen_structs
          then Towire_elem basetype p_ref src
          else Towire_elem_ptr basetype p_ref src)).

(** The first loop of [print_tlv_towire]: the checks, and the
    declarations of the length variables. *)
Fixpoint tlv_towire_decls (self : t) (fs : list Field.t) : result (list cdecl) :=
  match fs with
  | [] => Ok []
  | f :: fs' =>
      if Field.is_tlv f then Err (TypeError Nested_TLVs)
      else if Field.optional f then Err (TypeError Optional_on_TLV)
      else
        ds ← tlv_towire_decls self fs';
        Ok ((if Field.is_len_var f then
               [Local_tal_count_addr (FieldType.name (Field.fieldtype f))
                  (Field.name f) (name self)
                  (default "" (fst <$> Field.lenvar_for f))]
             else []) ++ ds)
  end.

(** The body of the second loop of [print_tlv_towire]. *)
Definition tlv_towire_field (self : t) (subcalls : CCode.t) (f : Field.t)
  : result CCode.t :=
  let basetype := FieldType.base (Field.fieldtype f) in
  subcalls ← CCode.append_all subcalls (Comment <$> Field.comments f);
  if Field.is_padding f then
    CCode.append subcalls (Towire_pad "p" (Field.num_elems f))
  else if Field.is_array f then
    print_towire_array self subcalls basetype f (Num (Field.num_elems f)) true
  else if Field.is_variable_size f then
    print_towire_array self subcalls basetype f
      (Len (default "None" (Field.lenvar f))) true
  else if Field.is_len_var f then
    CCode.append subcalls (Towire basetype "p" (EVar (Field.name f)))
  else
    CCode.append subcalls
      (Towire basetype "p" (EArrow (name self) (Field.name f))).

Definition tlv_towire_subcalls (self : t) : result CCode.t :=
  fold_fields (tlv_towire_field self) CCode.init (fields self).

(** Prints towire function definition for a TLV message. *)
Definition print_tlv_towire (self : t) (tlv_name : string) : result string :=
  field_decls ← tlv_towire_decls self (fields self);
  subcalls ← tlv_towire_subcalls self;
  subcalls ← CCode.str subcalls;
  Ok (tlv_message_towire_stub tlv_name (name self)
        (Py.join nl (render_decl <$> field_decls)) subcalls).

(** The argument a field contributes to [towire_<name>]. *)
Definition towire_arg (f : Field.t) : list carg :=
  if Field.is_padding f || Field.is_len_var f then []
  else if Field.is_array f then
    [Arg_array true (FieldType.name (Field.fieldtype f)) (Field.name f)
       (Field.num_elems f)]
  else if Field.is_tlv f then [Arg_tlv true (Field.name f)]
  else if Field.is_assignable f then
    [Arg_value (FieldType.name (Field.fieldtype f)) (Field.name f)]
  else if Field.is_variable_size f
          && in_list (FieldType.base (Field.fieldtype f)) varlen_structs then
    [Arg_ptr true (FieldType.name (Field.fieldtype f)) 2 (Field.name f)]
  else
    [Arg_ptr true (FieldType.name (Field.fieldtype f)) 1 (Field.name f)].

Definition towire_args (self : t) : list carg :=
  fields self ≫= towire_arg.

(** [field_decls]: each length variable is computed from the field it
    describes. *)
Definition towire_decls (self : t) : list cdecl :=
  omap (fun f =>
          if Field.is_len_var f then
            let typename := FieldType.name (Field.fieldtype f) in
            let target := default "" (fst <$> Field.lenvar_for f) in
            Some (if default false (snd <$> Field.lenvar_for f)
                  then Local_sizeof typename (Field.name f) target
                  else Local_tal_count typename (Field.name f) target)
          else None) (fields self).

(** The body of the third loop of [print_towire]. *)
Definition towire_field (self : t) (subcalls : CCode.t) (f : Field.t)
  : result CCode.t :=
  let basetype := FieldType.base (Field.fieldtype f) in
  subcalls ← CCode.append_all subcalls (Comment <$> Field.comments f);
  if Field.is_padding f then
    CCode.append subcalls (Towire_pad "&p" (Field.num_elems f))
  else if Field.is_array f then
    print_towire_array self subcalls basetype f (Num (Field.num_elems f)) false
  else if Field.is_tlv f then
    if negb (Field.is_variable_size f) then Err (TypeError TLV_not_variable_size)
    else CCode.append subcalls (Towire_tlv (Field.name f))
  else if Field.is_variable_size f then
    print_towire_array self subcalls basetype f
      (Len (default "None" (Field.lenvar f))) false
  else if Field.optional f then
    CCode.append subcalls
      (Towire_optional (Field.name f) basetype
         (FieldType.is_assignable (Field.fieldtype f)))
  else
    CCode.append subcalls (Towire basetype "&p" (EVar (Field.name f))).

Definition towire_subcalls (self : t) : result CCode.t :=
  fold_fields (towire_field self) CCode.init (fields self).

Definition print_towire (self : t) (is_header : bool) (tlv_name : string)
  : result string :=
  if is_tlv self then
    if is_header then Ok ""
    else print_tlv_towire self tlv_name
  else
    let args := Py.join "" (render_arg <$> towire_args self) in
    let field_decls := Py.join nl (render_decl <$> towire_decls self) in
    subcalls ← towire_subcalls self;
    subcalls ← CCode.str subcalls;
    Ok (if is_header then towire_header_templ (name self) args
        else towire_impl_templ (name self) args field_decls
               (enum_name (enum self)) subcalls).

(** *** The struct of a TLV message *)

Definition struct_member (f : Field.t) : list cstmt :=
  if Field.is_len_var f || Field.is_padding f then
    (* there is no ethical padding under TLVs *)
    []
  else if Field.is_variable_size f then
    [Member_ptr (FieldType.name (Field.fieldtype f)) (Field.name f)]
  else if Field.is_array f then
    [Member_array (FieldType.name (Field.fieldtype f)) (Field.name f)
       (Field.num_elems f)]
  else [Member (FieldType.name (Field.fieldtype f)) (Field.name f)].

Definition struct_members (self : t) : list cstmt :=
  fields self ≫= struct_member.

(** Returns a string representation of this message as a struct. *)
Definition print_struct (self : t) : result string :=
  if negb (is_tlv self) then Err AttributeError
  else
    fmt_fields ← CCode.append_all CCode.init (struct_members self);
    fmt_fields ← CCode.str fmt_fields;
    Ok (tlv_msg_struct_template (name self) fmt_fields).

End Message.

(** ** Reading the CSV records *)

(** The globals shared by the module-level loop and [parse_tlv_file]:
    [tlv_fields] is iterated by the printing passes, so it keeps its
    insertion order. *)
Record shared := {
  tlv_fields : list (string * list Message.t);
  messages_with_option : list Message.t
}.

(** The variables of one reading loop: [includes], [messages], [comments]
    and [prevfield] at module level, [tlv_includes], [tlv_messages],
    [tlv_comments] and [tlv_prevfield] in [parse_tlv_file]. *)
Record reader := {
  includes : list string;
  messages : list Message.t;
  comments : list string;
  prevfield : option string
}.

(** [d[k] = v] on an insertion-ordered dictionary. *)
Fixpoint dict_set {V} (d : list (string * V)) (k : string) (v : V)
  : list (string * V) :=
  match d with
  | [] => [(k, v)]
  | (k', v') :: d' =>
      if String.eqb k' k then (k', v) :: d' else (k', v') :: dict_set d' k v
  end.

Definition dict_has {V} (d : list (string * V)) (k : string) : bool :=
  existsb (fun kv => String.eqb kv.1 k) d.

(** [find_message]: the position and value of the first message of that
    name. *)
Definition find_message (messages : list Message.t) (name : string)
  : option (nat * Message.t) :=
  list_find (fun m => Message.name m = name) messages.

(** Where the message [m] of a field record lives: the record is changed
    in place by [m.addField(f)]. *)
Inductive msg_loc :=
| InMessages (i : nat)
| InOptional (i : nat).

(** [find_message_with_option]: the updated [optional_messages] and the
    position of the message in it. *)
Definition find_message_with_option (messages optional_messages : list Message.t)
    (name option : string) : result (list Message.t * nat) :=
  let fullname := name +:+ "_" +:+ Py.replace "-" "_" option in
  match find_message messages name with
  | None => Err (ValueError Unknown_message)
  | Some (_, base) =>
      match find_message optional_messages fullname with
      | Some (i, _) => Ok (optional_messages, i)
      | None =>
          (* Add a new option. *)
          Ok (optional_messages ++ [Message.set_name base fullname],
              length optional_messages)
      end
  end.

Definition get_directory_prefix : string := "wire/".

Definition get_tlv_filename (field_name : string) : string :=
  "gen_" +:+ field_name +:+ "_csv".

Section Reading.

(** [options.bolt] *)
Variable bolt : bool.

(** [parse_tlv_file] as [Field.__init__] calls it: the shared globals go
    in and come out, with the [tlv_messages] of the file. *)
Variable load : string -> shared -> result (shared * list Message.t).

(** [Field(message, name, size, comments, prevname)] *)
Definition Field_init (message name size : string) (comments : list string)
    (prevname : option string) (sh : shared) : result (shared * Field.t) :=
  let '(is_tlv, name') := Field.tlv_name name in
  sh ← (if is_tlv && negb (dict_has (tlv_fields sh) name') then
          (* FIXME: use the rest of this *)
          '(sh, tlv_messages) ← load name' sh;
          Ok {| tlv_fields := dict_set (tlv_fields sh) name' tlv_messages;
                messages_with_option := messages_with_option sh |}
        else Ok sh);
  f ← Field.init_body bolt message name' is_tlv size comments prevname;
  Ok (sh, f).

Definition get_message (rd : reader) (sh : shared) (l : msg_loc)
  : option Message.t :=
  match l with
  | InMessages i => messages rd !! i
  | InOptional i => messages_with_option sh !! i
  end.

Definition put_message (rd : reader) (sh : shared) (l : msg_loc)
    (m : Message.t) : reader * shared :=
  match l with
  | InMessages i =>
      ({| includes := includes rd; messages := <[i := m]> (messages rd);
          comments := comments rd; prevfield := prevfield rd |}, sh)
  | InOptional i =>
      (rd, {| tlv_fields := tlv_fields sh;
              messages_with_option := <[i := m]> (messages_with_option sh) |})
  end.

(** The field-record branch: [m] is located, the field is built with
    the comments read so far and the remembered previous field name,
    and added to [m]. *)
Definition read_field (parts : list string) (rd : reader) (sh : shared)
  : result (reader * shared) :=
  let part i := default "" (parts !! i) in
  '(sh, l) ←
    (if (length parts =? 4)%nat then
       (* eg commit_sig,0,channel-id,8 OR commit_sig,0,channel-id,u64 *)
       match find_message (messages rd) (part 0%nat) with
       | None => Err (ValueError Unknown_message)
       | Some (i, _) => Ok (sh, InMessages i)
       end
     else if (length parts =? 5)%nat then
       (* eg. channel_reestablish,48,your_last_per_commitment_secret,32,option209 *)
       '(opts, i) ← find_message_with_option (messages rd)
                      (messages_with_option sh) (part 0%nat) (part 4%nat);
       Ok ({| tlv_fields := tlv_fields sh; messages_with_option := opts |},
           InOptional i)
     else Err (ValueError Line_malformed));
  (* [m] is where it was just found, so both lookups below succeed *)
  match get_message rd sh l with
  | None => Err AssertionError
  | Some m0 =>
      '(sh, f) ← Field_init (Message.name m0) (part 2%nat) (part 3%nat)
                   (comments rd) (prevfield rd) sh;
      match get_message rd sh l with
      | None => Err AssertionError
      | Some m =>
          m ← Message.addField bolt m f;
          let '(rd, sh) := put_message rd sh l m in
          (* If it used prevfield as lenvar, keep that for next time
             (multiple fields can use the same lenvar). *)
          let prev :=
            match Field.lenvar f with
            | Some (String _ _) => prevfield rd
            | _ => Some (part 2%nat)
            end in
          Ok ({| includes := includes rd; messages := messages rd;
                 comments := []; prevfield := prev |}, sh)
      end
  end.

(** One turn of the reading loop.  [prefix] is ["WIRE_"] at module
    level and ["TLV_"] in [parse_tlv_file], where the messages are
    created with [is_tlv = True]; apart from that and the names of their
    variables the two loops are the same text. *)
Definition read_line (prefix : string) (is_tlv : bool) (line : string)
    (st : reader * shared) : result (reader * shared) :=
  let '(rd, sh) := st in
  (* #include gets inserted into header *)
  if Py.startswith line "#include " then
    Ok ({| includes := includes rd ++ [line]; messages := messages rd;
           comments := comments rd; prevfield := prevfield rd |}, sh)
  else
    let by_comments := Py.split "#" (Py.rstrip line) in
    (* Emit a comment if they included one *)
    let comments' :=
      match tail by_comments with
      | [] => comments rd
      | rest => comments rd ++ [Py.join " " rest]
      end in
    let rd := {| includes := includes rd; messages := messages rd;
                 comments := comments'; prevfield := prevfield rd |} in
    let parts := Py.split "," (default "" (head by_comments)) in
    match parts with
    | [""] => Ok (rd, sh)
    | [p0; p1] =>
        (* eg commit_sig,132 *)
        let m := Message.init p0 {| enum_name := prefix +:+ Py.upper p0;
                                    enum_value := p1 |} (comments rd) is_tlv in
        Ok ({| includes := includes rd; messages := messages rd ++ [m];
               comments := []; prevfield := None |}, sh)
    | _ => read_field parts rd sh
    end.

Fixpoint read_lines (prefix : string) (is_tlv : bool) (lines : list string)
    (st : reader * shared) : result (reader * shared) :=
  match lines with
  | [] => Ok st
  | line :: lines' =>
      st ← read_line prefix is_tlv line st;
      read_lines prefix is_tlv lines' st
  end.

End Reading.

Definition empty_reader : reader :=
  {| includes := []; messages := []; comments := []; prevfield := None |}.

Definition empty_shared : shared :=
  {| tlv_fields := []; messages_with_option := [] |}.

Section Files.

Variable bolt : bool.

(** The files under [wire/]: the lines of a file, or [None] when [open]
    fails. *)
Variable fs : string -> option (list string).

(** [parse_tlv_file]; [depth] bounds the nesting of tlv files within
    tlv files (Python's recursion limit). *)
Fixpoint parse_tlv_file (depth : nat) (tlv_field_name : string) (sh : shared)
  : result (shared * (list string * list Message.t * list string)) :=
  match depth with
  | O => Err RecursionError
  | S depth' =>
      let path := get_directory_prefix +:+ get_tlv_filename tlv_field_name in
      match fs path with
      | None => Err (FileNotFoundError path)
      | Some lines =>
          let load name sh :=
            '(sh, (_, tlv_messages, _)) ← parse_tlv_file depth' name sh;
            Ok (sh, tlv_messages) in
          '(rd, sh) ← read_lines bolt load "TLV_" true lines (empty_reader, sh);
          Ok (sh, (includes rd, messages rd, comments rd))
      end
  end.

Definition load_tlv (depth : nat) (name : string) (sh : shared)
  : result (shared * list Message.t) :=
  '(sh, (_, tlv_messages, _)) ← parse_tlv_file depth name sh;
  Ok (sh, tlv_messages).

(** The module-level loop over the lines of the input files. *)
Definition read_csv (depth : nat) (lines : list string)
  : result (reader * shared) :=
  read_lines bolt (load_tlv depth) "WIRE_" false lines
    (empty_reader, empty_shared).

End Files.

(** ** The TLV container passes *)

(** One [if] block per candidate record of the container. *)
Definition print_tlv_towire (tlv_field_name : string) (messages : list Message.t)
  : string :=
  let fields :=
    Py.join "" ((fun m => tlv__type_impl_towire_fields tlv_field_name
                            (enum_name (Message.enum m)) (Message.name m))
                <$> messages) in
  tlv__type_impl_towire_template tlv_field_name fields.

(** One [case] per candidate record of the container. *)
Definition print_tlv_fromwire (tlv_field_name : string) (messages : list Message.t)
  : string :=
  let cases :=
    Py.join "" ((fun m =>
                   let ctx_arg := if Message.has_variable_fields m then "ctx, " else "" in
                   case_tmpl (enum_name (Message.enum m)) tlv_field_name
                     (Message.name m) ctx_arg)
                <$> messages) in
  tlv__type_impl_fromwire_template tlv_field_name cases.

Definition build_tlv_fromwires (tlv_fields : list (string * list Message.t))
  : list string :=
  (fun '(field_name, messages) => print_tlv_fromwire field_name messages)
  <$> tlv_fields.

Definition build_tlv_towires (tlv_fields : list (string * list Message.t))
  : list string :=
  (fun '(field_name, messages) => print_tlv_towire field_name messages)
  <$> tlv_fields.

Definition build_tlv_type_struct (name : string) (messages : list Message.t)
  : result string :=
  inner_structs ← CCode.append_all CCode.init
    ((fun m => Member_ptr ("struct _tlv_msg_" +:+ Message.name m) (Message.name m))
     <$> messages);
  inner_structs ← CCode.str inner_structs;
  Ok (tlv_struct_template name inner_structs).

(** [mapM] in [result]: the exceptions of a loop or comprehension, in
    order. *)
Fixpoint traverse {A B} (f : A -> result B) (l : list A) : result (list B) :=
  match l with
  | [] => Ok []
  | a :: l' =>
      b ← f a;
      bs ← traverse f l';
      Ok (b :: bs)
  end.

(** The [decls] of a run without [--printwire]: the TLV records first,
    then (when printing definitions) the containers, then the messages. *)
Definition decls (header : bool) (messages : list Message.t) (sh : shared)
  : result (list string) :=
  tlv_decls ←
    traverse (fun '(tlv_field, m) =>
                t ← Message.print_towire m header tlv_field;
                f ← Message.print_fromwire m header tlv_field;
                Ok (t, f))
      (tlv_fields sh ≫= (fun '(tlv_field, tlv_messages) =>
                            (fun m => (tlv_field, m)) <$> tlv_messages));
  let towire_decls := fst <$> tlv_decls in
  let fromwire_decls := snd <$> tlv_decls in
  let towire_decls :=
    if header then towire_decls else towire_decls ++ build_tlv_towires (tlv_fields sh) in
  let fromwire_decls :=
    if header then fromwire_decls
    else fromwire_decls ++ build_tlv_fromwires (tlv_fields sh) in
  let all := messages ++ messages_with_option sh in
  top_towire ← traverse (fun m => Message.print_towire m header "") all;
  top_fromwire ← traverse (fun m => Message.print_fromwire m header "") all;
  Ok ((fromwire_decls ++ top_fromwire) ++ (towire_decls ++ top_towire)).

(** ** The emitted code at run time

    The emitted functions call the helpers of [wire/] ([towire_u16],
    [fromwire_pad], ...), which are C code outside this script.  Their
    behaviour is taken from the specification: big-endian unsigned
    integers of 1, 2, 4 and 8 bytes, a cursor with a remaining-length
    counter that every read moves in lock-step, and a failed read that
    leaves the cursor exhausted ([NULL], nothing remaining).  A [None]
    result of a function below is a run the C standard gives no meaning to
    (a read outside the buffer, [tal_count] of an address that is not the
    start of an allocation, an ill-typed call), or a function that is not
    compiled as it was meant because its names clash. *)

Definition byte_of_Z (z : Z) : byte :=
  default Byte.x00 (Byte.of_N (Z.to_N (z mod 256))).

Definition Z_of_byte (b : byte) : Z := Z.of_N (Byte.to_N b).

(** Modelled from the spec: the byte order of the integer helpers of
    [wire/], which are not part of this script: the big-endian image of
    [v] on [w] bytes, and the value of such an image. *)
Fixpoint be_bytes (w : nat) (v : Z) : list byte :=
  match w with
  | O => []
  | S w' => byte_of_Z (v / 256 ^ Z.of_nat w') :: be_bytes w' v
  end.

Definition be_value (bs : list byte) : Z :=
  fold_left (fun acc b => acc * 256 + Z_of_byte b) bs 0.

(** The width of the integer types that have a helper of their own. *)
Definition int_width (basetype : string) : option nat :=
  if String.eqb basetype "u8" then Some 1%nat
  else if String.eqb basetype "u16" then Some 2%nat
  else if String.eqb basetype "u32" then Some 4%nat
  else if String.eqb basetype "u64" then Some 8%nat
  else None.

(** The decoding position: [cursor] is [None] for the exhausted (NULL)
    cursor, and otherwise the bytes of the buffer from the cursor on;
    [plen] is the remaining-length counter. *)
Record cur := { cursor : option (list byte); plen : Z }.

Definition is_null (c : cur) : bool :=
  if cursor c is None then true else false.

(** Modelled from the spec: [fromwire_fail] of [wire/fromwire.c], which
    is not part of this script; it marks the cursor exhausted. *)
Definition fromwire_fail : cur := {| cursor := None; plen := 0 |}.

(** Modelled from the spec: the primitive read [fromwire] of
    [wire/fromwire.c], which is not part of this script.  When fewer than
    [n] bytes remain the cursor becomes exhausted and nothing is read;
    otherwise cursor and counter move by [n] together. *)
Definition fromwire (n : Z) (c : cur) : option (cur * option (list byte)) :=
  if (n <? 0) || (plen c <? n) then Some (fromwire_fail, None)
  else
    match cursor c with
    | None => if n =? 0 then Some (c, Some []) else None
    | Some bs =>
        if Z.of_nat (length bs) <? n then None
        else Some ({| cursor := Some (drop (Z.to_nat n) bs); plen := plen c - n |},
                   Some (take (Z.to_nat n) bs))
    end.

(** Modelled from the spec: [fromwire_u8] .. [fromwire_u64] of
    [wire/fromwire.c], which are not part of this script; a failed read
    returns 0. *)
Definition fromwire_int (w : nat) (c : cur) : option (cur * Z) :=
  '(c, r) ← fromwire (Z.of_nat w) c;
  Some (c, match r with Some bs => be_value bs | None => 0 end).

(** Modelled from the spec: [fromwire_bool] of [wire/fromwire.c], which
    is not part of this script; it reads the presence byte, and a byte
    other than 0 and 1 exhausts the cursor. *)
Definition fromwire_bool (c : cur) : option (cur * Z) :=
  '(c, v) ← fromwire_int 1 c;
  Some (if (v =? 0) || (v =? 1) then c else fromwire_fail, v).

(** Modelled from the spec: [fromwire_pad] of [wire/fromwire.c], which is
    not part of this script; it skips [n] bytes. *)
Definition fromwire_pad (n : Z) (c : cur) : option cur :=
  fst <$> fromwire n c.

(** Modelled from the spec: [towire_pad] of [wire/towire.c], which is not
    part of this script; it writes [n] zero bytes. *)
Definition towire_pad (n : Z) (p : list byte) : option (list byte) :=
  if n <? 0 then None else Some (p ++ replicate (Z.to_nat n) Byte.x00).

#[local] Set Warnings "-register-all".

(** Run-time values: integers, objects of the other types, [NULL],
    a pointer to one object, an array, and a struct by its members. *)
Inductive value :=
| VInt (n : Z)
| VOther (bs : list byte)
| VNull
| VPtr (v : value)
| VArr (vs : list value)
| VRec (members : list (string * value)).

Definition member (n : string) (members : list (string * value)) : option value :=
  (fun r => r.2.2) <$> list_find (fun kv => kv.1 = n) members.

(** C integer conversion to the type of a length variable. *)
Definition convert (typename : string) (z : Z) : option Z :=
  match int_width typename with
  | Some w => Some (z mod 256 ^ Z.of_nat w)
  | None => if String.eqb typename "bool" then Some (if z =? 0 then 0 else 1)
            else None
  end.

(** [tal_count] of a [tal] array, or of [NULL]. *)
Definition tal_count (v : value) : option Z :=
  match v with
  | VArr vs => Some (Z.of_nat (length vs))
  | VNull => Some 0
  | _ => None
  end.

Definition elements (v : value) : list value :=
  match v with
  | VArr vs => vs
  | _ => []
  end.

Fixpoint foldM {S A} (f : S -> A -> option S) (s : S) (l : list A) : option S :=
  match l with
  | [] => Some s
  | a :: l' =>
      s ← f s a;
      foldM f s l'
  end.

(** What a statement of a decoder leaves: the position and the
    variables, or the function has returned [false]. *)
Inductive flow :=
| Next (c : cur) (env : gmap string value)
| Return_false.

(** A record handed to its decoder by the loop of a TLV container: the
    name of the record, the bytes at the cursor, and [msg_len]. *)
Definition dispatch : Type := string * option (list byte) * Z.

(** The C translation unit around the emitted code. *)
Record c_unit := {
  (** the value of an enum constant, by its name *)
  enum_value_of : string -> Z;
  (** [sizeof] of a pointer, and of the struct with the given members *)
  sizeof_ptr : Z;
  sizeof_struct : list cstmt -> Z;
  (** what [tal_count(p)] yields in [fromwire__<tlv>], where [p] is the
      address of the caller's cursor *)
  tal_count_ref : Z;
  (** the helpers of the types other than the integers and [bool] *)
  towire_other : string -> value -> option (list byte);
  fromwire_other : string -> cur -> option (cur * value);
  (** [_fromwire_<tlv>_<name>(cursor, msg_len, ...)], the decoder of one
      record: it is handed the cursor by value *)
  record_fromwire : string -> string -> option (list byte) -> Z -> option bool
}.

(** *** The names of an emitted function

    The functions below keep the variables of an emitted function by
    name.  That is the C function only when its names can be told apart:
    every parameter and every local that stands for a field is an
    identifier of C and no keyword, no two of them have the same name,
    and none has a name the function uses for something else: an
    identifier of its template ([ctx], [p], [cursor], [plen], ...), a
    helper it calls, a word of a type or of the enum constant it
    mentions, the counter [i] of its loops.  A comment of a field must
    not close itself early.  A function whose names clash is not
    compiled, or means something else; it gets no run. *)

Definition ident_char (c : ascii) : bool :=
  let n := N_of_ascii c in
  ((48 <=? n) && (n <=? 57) || (65 <=? n) && (n <=? 90)
   || (97 <=? n) && (n <=? 122) || (n =? 95))%N.

Fixpoint all_ident_chars (s : string) : bool :=
  match s with
  | EmptyString => true
  | String c s' => ident_char c && all_ident_chars s'
  end.

(** An identifier of C: letters, digits and [_], no digit first. *)
Definition c_identifier (s : string) : bool :=
  match s with
  | EmptyString => false
  | String c _ =>
      (if Py.digit c is Some _ then false else true) && all_ident_chars s
  end.

Definition c_keywords : list string :=
  ["auto"; "break"; "case"; "char"; "const"; "continue"; "default"; "do";
   "double"; "else"; "enum"; "extern"; "float"; "for"; "goto"; "if"; "inline";
   "int"; "long"; "register"; "restrict"; "return"; "short"; "signed"; "sizeof";
   "static"; "struct"; "switch"; "typedef"; "union"; "unsigned"; "void";
   "volatile"; "while"; "_Alignas"; "_Alignof"; "_Atomic"; "_Bool"; "_Complex";
   "_Generic"; "_Imaginary"; "_Noreturn"; "_Static_assert"; "_Thread_local"].

(** The words of a text: its maximal runs of identifier characters;
    [word] is the run that is being read, last character first. *)
Fixpoint words_from (word : string) (s : string) : list string :=
  match s with
  | EmptyString => if word is EmptyString then [] else [String.rev word]
  | String c s' =>
      if ident_char c then words_from (String c word) s'
      else (if word is EmptyString then [] else [String.rev word])
           ++ words_from EmptyString s'
  end.

Definition words : string -> list string := words_from EmptyString.

(** What a statement names beside its operands: the helpers it calls,
    the words of the types it mentions, and the variables of the
    template it uses. *)
Fixpoint mentions (s : cstmt) : list string :=
  match s with
  | Comment _ | Second_case _ _ => []
  | For _ body => ["size_t"; "i"] ++ mentions body
  | Fromwire_pad _ => ["fromwire_pad"; "cursor"; "plen"]
  | Fromwire_array basetype _ _ =>
      words ("fromwire_" +:+ basetype +:+ "_array") ++ ["cursor"; "plen"]
  | Fromwire_elem_assign _ basetype =>
      ["i"] ++ words ("fromwire_" +:+ basetype) ++ ["cursor"; "plen"]
  | Fromwire_elem_alloc _ basetype ctx =>
      ["i"] ++ words ("fromwire_" +:+ basetype) ++ words (render_expr ctx)
      ++ ["cursor"; "plen"]
  | Fromwire_elem_into basetype _ =>
      words ("fromwire_" +:+ basetype) ++ ["cursor"; "plen"; "i"]
  | Fromwire_tlv tlv_name _ =>
      words ("fromwire__" +:+ tlv_name) ++ ["ctx"; "cursor"; "false"]
  | Tal_arr _ _ typename => ["tal_arr"; "ctx"] ++ words typename ++ ["NULL"]
  | Fromwire_assign _ basetype =>
      words ("fromwire_" +:+ basetype) ++ ["cursor"; "plen"]
  | Fromwire_assign_alloc _ basetype =>
      words ("fromwire_" +:+ basetype) ++ ["ctx"; "cursor"; "plen"]
  | Fromwire_into basetype _ =>
      words ("fromwire_" +:+ basetype) ++ ["cursor"; "plen"]
  | Fromwire_optional _ typename s =>
      ["fromwire_bool"; "cursor"; "plen"; "NULL"; "tal"; "ctx"] ++ words typename
      ++ mentions s
  | Towire_pad p _ => ["towire_pad"] ++ words p
  | Towire_array basetype _ _ _ =>
      words ("towire_" +:+ basetype +:+ "_array") ++ ["p"]
  | Towire_elem basetype _ _ | Towire_elem_ptr basetype _ _ =>
      words ("towire_" +:+ basetype) ++ ["p"; "i"]
  | Towire_tlv tlv_name => words ("towire__" +:+ tlv_name) ++ ["p"]
  | Towire_optional _ basetype _ =>
      ["towire_bool"; "p"; "false"; "true"] ++ words ("towire_" +:+ basetype)
  | Towire basetype p _ => words ("towire_" +:+ basetype) ++ words p
  | Member_ptr typename _ | Member_array typename _ _ | Member typename _ =>
      words typename
  end.

(** The comment of a statement, if it is one. *)
Definition comment_text (s : cstmt) : option string :=
  if s is Comment c then Some c else None.

(** The name a parameter declares, and the words of its type. *)
Definition arg_name (a : carg) : string :=
  match a with
  | Arg_array _ _ n _ | Arg_tlv _ n | Arg_ptr _ _ _ n | Arg_value _ n => n
  end.

Definition arg_type (a : carg) : string :=
  match a with
  | Arg_array _ typename _ _ | Arg_ptr _ typename _ _ | Arg_value typename _ =>
      typename
  | Arg_tlv _ name => "struct _" +:+ name
  end.

(** The name a local declares, and the words of its type and of its
    initialiser (the operand apart). *)
Definition decl_name (d : cdecl) : string :=
  match d with
  | Local _ n | Local_sizeof _ n _ | Local_tal_count _ n _
  | Local_tal_count_addr _ n _ _ => n
  end.

Definition decl_mentions (d : cdecl) : list string :=
  match d with
  | Local typename _ | Local_sizeof typename _ _ => words typename
  | Local_tal_count typename _ _ | Local_tal_count_addr typename _ _ _ =>
      words typename ++ ["tal_count"]
  end.

Fixpoint distinct (l : list string) : bool :=
  match l with
  | [] => true
  | x :: l' => negb (in_list x l') && distinct l'
  end.

(** The names [declared] for the fields are identifiers, no keywords,
    distinct, and none of them is among the words [mentioned]; no
    comment among [stmts] holds the end of a comment. *)
Definition names_apart (declared mentioned : list string) (stmts : list cstmt)
  : bool :=
  forallb c_identifier declared
  && forallb (fun n => negb (in_list n c_keywords)) declared
  && distinct declared
  && forallb (fun n => negb (in_list n mentioned)) declared
  && forallb (fun c => negb (Py.contains "*/" c)) (omap comment_text stmts).

(** The names of [towire_<name>]: the parameters and the initialised
    length variables, against the words of the template (with [ctx] and
    [p]), of the types and of the statements. *)
Definition towire_names_apart (m : Message.t) : bool :=
  match Message.towire_subcalls m with
  | Ok subcalls =>
      names_apart
        ((arg_name <$> Message.towire_args m)
         ++ (decl_name <$> Message.towire_decls m))
        (words (towire_impl_templ (Message.name m) "" ""
                  (enum_name (Message.enum m)) "")
         ++ ((arg_type <$> Message.towire_args m) ≫= words)
         ++ (Message.towire_decls m ≫= decl_mentions)
         ++ (CCode.stmts subcalls ≫= mentions))
        (CCode.stmts subcalls)
  | Err _ => false
  end.

(** The names of [fromwire_<name>]: the parameters and the locals of the
    length variables, against the words of the template (with [p],
    [cursor], [plen], and [ctx] when it is a parameter), of the types
    and of the statements. *)
Definition fromwire_names_apart (m : Message.t) : bool :=
  match Message.fromwire_subcalls m with
  | Ok subcalls =>
      names_apart
        ((arg_name <$> Message.fromwire_args m)
         ++ (decl_name <$> Message.len_locals m))
        (words (fromwire_impl_templ (Message.name m) (Message.ctx_arg m) "" ""
                  (enum_name (Message.enum m)) "")
         ++ ((arg_type <$> Message.fromwire_args m) ≫= words)
         ++ (Message.len_locals m ≫= decl_mentions)
         ++ (CCode.stmts subcalls ≫= mentions))
        (CCode.stmts subcalls)
  | Err _ => false
  end.

Section Runtime.

Variable U : c_unit.

(** *** Encoding *)

Definition eval_count (env : gmap string value) (n : count) : option Z :=
  match n with
  | Num k => Some k
  | Len l => if env !! l is Some (VInt k) then Some k else None
  end.

Definition eval_expr (env : gmap string value) (e : cexpr) : option value :=
  match e with
  | EVar n => env !! n
  | EArrow r n => if env !! r is Some (VRec ms) then member n ms else None
  | EDeref (EVar n) => if env !! n is Some (VPtr v) then Some v else None
  | EDeref _ => None
  end.

(** [towire_<basetype>(&p, v)] *)
Definition towire_value (basetype : string) (v : value) : option (list byte) :=
  match int_width basetype with
  | Some w => if v is VInt n then Some (be_bytes w n) else None
  | None =>
      if String.eqb basetype "bool" then
        if v is VInt n then Some [byte_of_Z (if n =? 0 then 0 else 1)] else None
      else towire_other U basetype v
  end.

(** The first [k] elements of the array [v], one after the other. *)
Definition towire_elems (basetype : string) (v : value) (k : Z)
  : option (list byte) :=
  if (k <? 0) || (Z.of_nat (length (elements v)) <? k) then None
  else
    bss ← mapM (towire_value basetype) (take (Z.to_nat k) (elements v));
    Some (mjoin bss).

(** One statement of an encoder: [p] grows.  [call_tlv] is the encoder
    of a TLV container, [towire__<tlv>]. *)
Definition exec_towire (call_tlv : string -> value -> option (list byte))
    (env : gmap string value) (p : list byte) (s : cstmt) : option (list byte) :=
  match s with
  | Comment _ => Some p
  | Towire_pad _ n => towire_pad n p
  | Towire_array basetype _ src n
  | For n (Towire_elem basetype _ src)
  | For n (Towire_elem_ptr basetype _ src) =>
      v ← eval_expr env src;
      k ← eval_count env n;
      bs ← towire_elems basetype v k;
      Some (p ++ bs)
  | Towire_tlv tlv_name =>
      v ← env !! tlv_name;
      bs ← call_tlv tlv_name v;
      Some (p ++ bs)
  | Towire_optional name basetype _ =>
      v ← env !! name;
      match v with
      | VNull => Some (p ++ [Byte.x00])
      | VPtr v =>
          bs ← towire_value basetype v;
          Some (p ++ [Byte.x01] ++ bs)
      | _ => None
      end
  | Towire basetype _ src =>
      v ← eval_expr env src;
      bs ← towire_value basetype v;
      Some (p ++ bs)
  | _ => None
  end.

(** The initialised length variables of an encoder. *)
Definition exec_decl (env : gmap string value) (d : cdecl)
  : option (gmap string value) :=
  match d with
  | Local typename name => Some env
  | Local_sizeof typename name _ =>
      n ← convert typename (sizeof_ptr U);
      Some (<[name := VInt n]> env)
  | Local_tal_count typename name target =>
      v ← env !! target;
      k ← tal_count v;
      n ← convert typename k;
      Some (<[name := VInt n]> env)
  | Local_tal_count_addr _ _ _ _ => None
  end.

(** [_towire_<tlv>_<name>(p, record)]: the bytes it appends. *)
Definition run_tlv_record_towire (m : Message.t) (record : value)
  : option (list byte) :=
  match Message.tlv_towire_decls m (Message.fields m),
        Message.tlv_towire_subcalls m with
  | Ok field_decls, Ok subcalls =>
      env ← foldM exec_decl {[ Message.name m := record ]} field_decls;
      foldM (exec_towire (fun _ _ => None) env) [] (CCode.stmts subcalls)
  | _, _ => None
  end.

(** One [if] block of [towire__<tlv>(p, tlv)]: what it appends for the
    candidate record [m]. *)
Definition tlv_towire_entry (m : Message.t) (tlv : value) : option (list byte) :=
  match tlv with
  | VRec records =>
      r ← member (Message.name m) records;
      match r with
      | VNull => Some []
      | VPtr record =>
          bs ← run_tlv_record_towire m record;
          Some (be_bytes 2 (enum_value_of U (enum_name (Message.enum m)))
                  ++ be_bytes 2 (sizeof_struct U (Message.struct_members m))
                  ++ bs)
      | _ => None
      end
  | _ => None
  end.

(** [towire__<tlv>(p, tlv)]: one [if] block per candidate record. *)
Definition run_tlv_towire (messages : list Message.t) (tlv : value)
  : option (list byte) :=
  foldM (fun p m => entry ← tlv_towire_entry m tlv; Some (p ++ entry))
    [] messages.

(** [towire_<name>(ctx, args)], for a message whose names can be told
    apart. *)
Definition run_towire (tlvs : list (string * list Message.t)) (m : Message.t)
    (args : gmap string value) : option (list byte) :=
  match Message.towire_subcalls m with
  | Ok subcalls =>
      if negb (towire_names_apart m) then None
      else
        env ← foldM exec_decl args (Message.towire_decls m);
        let call_tlv name v :=
          messages ← (fun r => r.2.2) <$> list_find (fun kv => kv.1 = name) tlvs;
          run_tlv_towire messages v in
        foldM (exec_towire call_tlv env)
          (be_bytes 2 (enum_value_of U (enum_name (Message.enum m))))
          (CCode.stmts subcalls)
  | Err _ => None
  end.

(** *** Decoding *)

(** [fromwire_<basetype>(&cursor, &plen)] *)
Definition fromwire_value (basetype : string) (c : cur) : option (cur * value) :=
  match int_width basetype with
  | Some w => '(c, n) ← fromwire_int w c; Some (c, VInt n)
  | None =>
      if String.eqb basetype "bool" then
        '(c, n) ← fromwire_bool c; Some (c, VInt n)
      else fromwire_other U basetype c
  end.

Fixpoint read_elems (basetype : string) (k : nat) (c : cur)
  : option (cur * list value) :=
  match k with
  | O => Some (c, [])
  | S k' =>
      '(c, v) ← fromwire_value basetype c;
      '(c, vs) ← read_elems basetype k' c;
      Some (c, v :: vs)
  end.

(** [lhs = v;] for the left-hand sides of a message decoder: a local,
    the target of an output pointer, or the object an optional output
    points to. *)
Definition store (lhs : cexpr) (v : value) (env : gmap string value)
  : option (gmap string value) :=
  match lhs with
  | EVar n | EDeref (EVar n) => Some (<[n := v]> env)
  | EDeref (EDeref (EVar n)) => Some (<[n := VPtr v]> env)
  | _ => None
  end.

(** [fromwire_<basetype>(&cursor, &plen, dst)]: the object [dst] points
    to is written. *)
Definition store_into (dst : cexpr) (v : value) (env : gmap string value)
  : option (gmap string value) :=
  match dst with
  | EVar n => Some (<[n := v]> env)
  | EDeref (EVar n) => Some (<[n := VPtr v]> env)
  | _ => None
  end.

(** The array an element loop or the array helper fills; with no
    element to write, the variable keeps what it has. *)
Definition store_elems (name : cexpr) (vs : list value) (env : gmap string value)
  : option (gmap string value) :=
  match name, vs with
  | (EVar n | EDeref (EVar n)), [] => Some env
  | (EVar n | EDeref (EVar n)), _ => Some (<[n := VArr vs]> env)
  | _, _ => None
  end.

(** The [while] loop of [fromwire__<tlv>].  Every turn that does not
    leave the loop reads four bytes, so [fuel] above [plen] is never
    used up.  The result is the value returned and the records handed
    to their decoders, in order. *)
Fixpoint tlv_loop (fuel : nat) (tlv_name : string) (messages : list Message.t)
    (c : cur) : option (bool * list dispatch) :=
  match fuel with
  | O => None
  | S fuel' =>
      if is_null c || (plen c =? 0) then Some (negb (is_null c), [])
      else
        '(c, msg_type) ← fromwire_int 2 c;
        '(c, msg_len) ← fromwire_int 2 c;
        if plen c <? msg_len then Some (false, [])
        else
          match list_find (fun m => enum_value_of U (enum_name (Message.enum m))
                                    = msg_type) messages with
          | Some (_, m) =>
              ok ← record_fromwire U tlv_name (Message.name m) (cursor c) msg_len;
              if ok : bool then
                '(r, ds) ← tlv_loop fuel' tlv_name messages c;
                Some (r, (Message.name m, cursor c, msg_len) :: ds)
              else Some (false, [(Message.name m, cursor c, msg_len)])
          | None =>
              match cursor c with
              | Some bs =>
                  if Z.of_nat (length bs) <? msg_len then None
                  else tlv_loop fuel' tlv_name messages
                         {| cursor := Some (drop (Z.to_nat msg_len) bs);
                            plen := plen c - msg_len |}
              | None => tlv_loop fuel' tlv_name messages c
              end
          end
  end.

(** [fromwire__<tlv>(ctx, &cursor, &len, tlv)]: it works on its own
    copy of the cursor, and takes the remaining length from
    [tal_count(p)]. *)
Definition run_tlv_fromwire (tlv_name : string) (messages : list Message.t)
    (cursor : option (list byte)) (len : Z) : option (bool * list dispatch) :=
  let plen := tal_count_ref U in
  if negb (plen =? len) then Some (false, [])
  else tlv_loop (S (Z.to_nat plen)) tlv_name messages
         {| cursor := cursor; plen := plen |}.

(** One statement of a message decoder. *)
Fixpoint exec_fromwire (tlvs : list (string * list Message.t))
    (c : cur) (env : gmap string value) (s : cstmt) : option flow :=
  match s with
  | Comment _ | Second_case _ _ => Some (Next c env)
  | Fromwire_pad n =>
      c ← fromwire_pad n c;
      Some (Next c env)
  | Fromwire_array basetype name n =>
      k ← eval_count env n;
      '(c, r) ← fromwire k c;
      let bs := default (replicate (Z.to_nat k) Byte.x00) r in
      env ← store_elems name ((fun b => VInt (Z_of_byte b)) <$> bs) env;
      Some (Next c env)
  | For n (Fromwire_elem_assign name basetype)
  | For n (Fromwire_elem_alloc name basetype _)
  | For n (Fromwire_elem_into basetype name) =>
      k ← eval_count env n;
      '(c, vs) ← read_elems basetype (Z.to_nat k) c;
      env ← store_elems name vs env;
      Some (Next c env)
  | Fromwire_tlv tlv_name tlv_len =>
      len ← eval_count env (Len tlv_len);
      messages ← (fun r => r.2.2) <$> list_find (fun kv => kv.1 = tlv_name) tlvs;
      '(ok, _) ← run_tlv_fromwire tlv_name messages (cursor c) len;
      Some (if ok : bool then Next c env else Return_false)
  | Tal_arr lhs lenvar _ =>
      k ← eval_count env (Len lenvar);
      env ← store lhs (if k =? 0 then VNull
                       else VArr (replicate (Z.to_nat k) VNull)) env;
      Some (Next c env)
  | Fromwire_assign lhs basetype
  | Fromwire_assign_alloc lhs basetype =>
      '(c, v) ← fromwire_value basetype c;
      env ← store lhs v env;
      Some (Next c env)
  | Fromwire_into basetype dst =>
      '(c, v) ← fromwire_value basetype c;
      env ← store_into dst v env;
      Some (Next c env)
  | Fromwire_optional name _ s =>
      '(c, present) ← fromwire_bool c;
      if present =? 0 then Some (Next c (<[name := VNull]> env))
      else exec_fromwire tlvs c (<[name := VPtr VNull]> env) s
  | _ => None
  end.

Fixpoint exec_fromwires (tlvs : list (string * list Message.t))
    (c : cur) (env : gmap string value) (ss : list cstmt) : option flow :=
  match ss with
  | [] => Some (Next c env)
  | s :: ss' =>
      r ← exec_fromwire tlvs c env s;
      match r with
      | Next c env => exec_fromwires tlvs c env ss'
      | Return_false => Some Return_false
      end
  end.

(** [fromwire_<name>(ctx, p, outputs)], for a message whose names can
    be told apart: the value returned, and what the outputs and the
    length variables hold. *)
Definition run_fromwire (tlvs : list (string * list Message.t)) (m : Message.t)
    (p : list byte) : option (bool * gmap string value) :=
  match Message.fromwire_subcalls m with
  | Ok subcalls =>
      if negb (fromwire_names_apart m) then None
      else
        '(c, type) ← fromwire_int 2 {| cursor := Some p; plen := Z.of_nat (length p) |};
        if negb (type =? enum_value_of U (enum_name (Message.enum m))) then
          Some (false, ∅)
        else
          r ← exec_fromwires tlvs c ∅ (CCode.stmts subcalls);
          match r with
          | Next c env => Some (negb (is_null c), env)
          | Return_false => Some (false, ∅)
          end
  | Err _ => None
  end.

End Runtime.

(** [construct_hdr_enums]: the members of the enum of a list of messages. *)
Definition construct_hdr_enums (msgs : list Message.t) : string :=
  Py.join ""
    ((fun m =>
        Py.join "" ((fun c => tab +:+ "/*" +:+ c +:+ " */" +:+ nl) <$> Message.comments m)
        +:+ tab +:+ enum_name (Message.enum m) +:+ " = " +:+ enum_value (Message.enum m)
        +:+ "," +:+ nl)
     <$> msgs).

(** The value C gives to the constant [n] of that enum, when the values
    of the CSV are decimal numbers. *)
Definition enum_constant (msgs : list Message.t) (n : string) : Z :=
  default 0 (r ← list_find (fun m => enum_name (Message.enum m) = n) msgs;
             Py.int (enum_value (Message.enum r.2))).

(** ** Notions used in the statements *)

(** [k] occurs in [s]: what [k in s] decides. *)
Definition occurs_in (k s : string) : Prop :=
  exists a b, s = a +:+ k +:+ b.

(** The name and the length variable of every field of every message a
    reading loop has built. *)
Definition lenvars (r : result (reader * shared))
  : option (list (list (string * option string))) :=
  match r with
  | Ok (rd, _) =>
      Some ((fun m => (fun f => (Field.name f, Field.lenvar f)) <$> Message.fields m)
            <$> messages rd)
  | Err _ => None
  end.

(** A text line of a file. *)
Definition line (s : string) : string := s +:+ nl.

(** The files under [wire/], given by name and lines. *)
Definition files (l : list (string * list string)) (path : string)
  : option (list string) :=
  (fun r => r.2.2) <$> list_find (fun kv => kv.1 = path) l.

(** Every type the tables can infer has a positive width. *)
Definition has_width (t : FieldType.t) : bool :=
  match FieldType._typesize (FieldType.name t) with
  | Ok n => 0 <? n
  | Err _ => false
  end.

(** The unit [U] with the enum constants of the messages [msgs], as the
    emitted header declares them. *)
Definition with_enums (msgs : list Message.t) (U : c_unit) : c_unit :=
  {| enum_value_of := enum_constant msgs;
     sizeof_ptr := sizeof_ptr U;
     sizeof_struct := sizeof_struct U;
     tal_count_ref := tal_count_ref U;
     towire_other := towire_other U;
     fromwire_other := fromwire_other U;
     record_fromwire := record_fromwire U |}.

(** A unit for examples: pointers of 8 bytes, structs laid out without
    padding, no helper beyond the integer ones, record decoders that
    accept, and [tal_count] of a cursor address giving [count]. *)
Definition example_unit (count : Z) : c_unit :=
  {| enum_value_of := fun _ => 0;
     sizeof_ptr := 8;
     sizeof_struct := fun members =>
       foldr (fun s acc =>
                acc + match s with
                      | Member_ptr _ _ => 8
                      | Member_array t _ n =>
                          n * (if FieldType._typesize t is Ok w then w else 0)
                      | Member t _ => if FieldType._typesize t is Ok w then w else 0
                      | _ => 0
                      end) 0 members;
     tal_count_ref := count;
     towire_other := fun _ _ => None;
     fromwire_other := fun _ _ => None;
     record_fromwire := fun _ _ _ _ => Some true |}.

(** ** Notions used in the further statements *)

(** The fields for which [addField] sets [has_variable_fields]. *)
Definition needs_context (f : Field.t) : bool :=
  Field.is_variable_size f
  || in_list (FieldType.base (Field.fieldtype f)) varlen_structs
  || Field.optional f.

(** Every length variable a field of [m] names is declared before that
    field: the first field of that name comes earlier, is marked as a
    length variable, is neither an array nor variable-size nor optional,
    and in bolt mode has type [u16]. *)
Definition length_sources_declared (bolt : bool) (m : Message.t) : Prop :=
  forall i f lv,
    Message.fields m !! i = Some f -> Field.lenvar f = Some lv ->
    exists j g,
      (j < i)%nat /\ Message.fields m !! j = Some g /\ Field.name g = lv /\
      (forall k h, (k < j)%nat -> Message.fields m !! k = Some h ->
                   Field.name h ≠ lv) /\
      Field.is_len_var g = true /\ Field.is_array g = false /\
      Field.needs_ptr_to_ptr g = false /\
      (bolt = true -> FieldType.name (Field.fieldtype g) = "u16").

(** The messages a run holds: the top-level ones, the variants with an
    option, and the records of the TLV containers. *)
Definition all_messages (rd : reader) (sh : shared) : list Message.t :=
  messages rd ++ messages_with_option sh ++ (tlv_fields sh ≫= snd).

(** A field of a message after [addField(field)]: it stays what it was,
    or it has just been marked as the length source of [field]. *)
Definition kept_or_marked (field g g' : Field.t) : Prop :=
  g' = g \/ g' = Field.mark_len_var g field.



(** [P] holds of every message the shared globals hold. *)
Definition all_shared (P : Message.t -> Prop) (sh : shared) : Prop :=
  Forall P (messages_with_option sh) /\ Forall (Forall P) (tlv_fields sh).*2.

(** Loading a tlv file keeps [P] in the shared globals and yields records
    that satisfy [P]. *)
Definition load_keeps (P : Message.t -> Prop)
    (load : string -> shared -> result (shared * list Message.t)) : Prop :=
  forall name sh sh' ms,
    all_shared P sh -> load name sh = Ok (sh', ms) ->
    all_shared P sh' /\ Forall P ms.

(** The context flag of [m] says whether one of its fields needs a
    context. *)
Definition context_flag_exact (m : Message.t) : Prop :=
  Message.has_variable_fields m = existsb needs_context (Message.fields m).

(** The name a member of a struct declares. *)
Definition member_name (s : cstmt) : option string :=
  match s with
  | Member_ptr _ n | Member_array _ n _ | Member _ n => Some n
  | _ => None
  end.

(** The fields a caller passes: all but the length variables and the
    padding. *)
Definition is_passed (f : Field.t) : bool :=
  negb (Field.is_len_var f || Field.is_padding f).

(** A text without tab and newline, as the parts of a CSV record that
    was read from a line are when the line has no tab. *)
Definition clean (s : string) : bool :=
  negb (Py.has_char "009" s) && negb (Py.has_char "010" s).

(** A name that, besides, does not end in a brace. *)
Definition clean_name (s : string) : bool :=
  clean s && negb (Py.endswith s "{") && negb (Py.endswith s "}").

(** A text that does not begin like a [for] or an [if]. *)
Definition no_keyword (s : string) : bool :=
  negb (Py.startswith s "for") && negb (Py.startswith s "if").

(** A line that [CCode.append] puts at the current indentation and that
    leaves the indentation as it is. *)
Definition ordinary (line : string) : bool :=
  clean line && negb (String.eqb line "}")
  && negb (Py.endswith line "{") && negb (Py.endswith line "}")
  && no_keyword line.

(** A field whose name, type, comments and length variable are clean. *)
Definition clean_field (f : Field.t) : bool :=
  clean_name (Field.name f) && clean (FieldType.name (Field.fieldtype f))
  && forallb clean (Field.comments f)
  && clean (default "" (Field.lenvar f)).

(** A statement that [CCode.append] accepts at any indentation, and
    after which the indentation is what it was. *)
Definition keeps_indentation (s : cstmt) : Prop :=
  forall self,
    CCode.single_indent self = false ->
    exists code,
      CCode.append self s
      = Ok (CCode.mk (CCode.indent self) false code (CCode.stmts self ++ [s])).

(** A pass over a field that appends statements and leaves the
    indentation as it was. *)
Definition step_keeps_indentation (step : CCode.t -> result CCode.t) : Prop :=
  forall self,
    CCode.single_indent self = false ->
    exists code ss,
      step self
      = Ok (CCode.mk (CCode.indent self) false code (CCode.stmts self ++ ss)).

(** A field that holds a TLV container is length-prefixed (or is handled
    as padding or as an array before the container is looked at). *)
Definition tlv_field_sized (f : Field.t) : bool :=
  negb (Field.is_tlv f) || Field.is_padding f || Field.is_array f
  || Field.is_variable_size f.

(** The name of a length variable is no keyword. *)
Definition length_name_plain (f : Field.t) : bool :=
  negb (Field.is_len_var f) || no_keyword (Field.name f).

(** A field the printing passes accept. *)
Definition printable_field (f : Field.t) : bool :=
  clean_field f && length_name_plain f && tlv_field_sized f.

(** A field a TLV record may have: neither a TLV container nor optional,
    and of a type whose name is no keyword. *)
Definition record_field (f : Field.t) : bool :=
  negb (Field.is_tlv f) && negb (Field.optional f)
  && no_keyword (FieldType.name (Field.fieldtype f)).

(** A message the printing passes accept: its fields are printable, and
    when it is a TLV record its name is clean and no keyword and its
    fields are fields of a record. *)
Definition printable_message (m : Message.t) : bool :=
  forallb printable_field (Message.fields m)
  && (negb (Message.is_tlv m)
      || clean (Message.name m) && no_keyword (Message.name m)
         && forallb record_field (Message.fields m)).

(** ** The print routines ([--printwire]) *)

(** The double quote. *)
Definition dq : string := String (ascii_of_N 34) "".

Definition printwire_header_templ (name : string) : string :=
  "void printwire_" +:+ name +:+ "(const char *fieldname, const u8 *cursor);" +:+ nl.

Definition printwire_impl_templ (name enum_name subcalls : string) : string :=
  "void printwire_" +:+ name +:+ "(const char *fieldname, const u8 *cursor)" +:+ nl +:+
  "{" +:+ nl +:+
  tab +:+ "size_t plen = tal_count(cursor);" +:+ nl +:+
  nl +:+
  tab +:+ "if (fromwire_u16(&cursor, &plen) != " +:+ enum_name +:+ ") {" +:+ nl +:+
  tab +:+ tab +:+ "printf(" +:+ dq +:+ "WRONG TYPE?!\n" +:+ dq +:+ ");" +:+ nl +:+
  tab +:+ tab +:+ "return;" +:+ nl +:+
  tab +:+ "}" +:+ nl +:+
  nl +:+
  subcalls +:+ nl +:+
  nl +:+
  tab +:+ "if (plen != 0)" +:+ nl +:+
  tab +:+ tab +:+ "printf(" +:+ dq +:+ "EXTRA: %s\n" +:+ dq
    +:+ ", tal_hexstr(NULL, cursor, plen));" +:+ nl +:+
  "}" +:+ nl.

(** [subcalls.append(lines)] for the lines of a print routine. *)
Definition append_text (self : CCode.t) (lines : string) : result CCode.t :=
  CCode.append_lines self (Py.split (ascii_of_N 10) lines).

(** Report if truncated, otherwise print. *)
Definition add_truncate_check (subcalls : CCode.t) : result CCode.t :=
  append_text subcalls
    ("if (!cursor) {" +:+ nl +:+
     "printf(" +:+ dq +:+ "**TRUNCATED**\n" +:+ dq +:+ ");" +:+ nl +:+
     "return;" +:+ nl +:+
     "}").

(** The first argument of the print calls: [tal_fmt(NULL, "%s.<name>",
    fieldname)]. *)
Definition tal_fmt_field (name : string) : string :=
  "tal_fmt(NULL, " +:+ dq +:+ "%s." +:+ name +:+ dq +:+ ", fieldname)".

Definition print_printwire_array (subcalls : CCode.t) (basetype : string)
    (f : Field.t) (num_elems : count) : result CCode.t :=
  if Field.has_array_helper f then
    append_text subcalls
      ("printwire_" +:+ basetype +:+ "_array(" +:+ tal_fmt_field (Field.name f)
       +:+ ", &cursor, &plen, " +:+ render_count num_elems +:+ ");")
  else
    subcalls ← append_text subcalls ("printf(" +:+ dq +:+ "[" +:+ dq +:+ ");");
    subcalls ← append_text subcalls
      ("for (size_t i = 0; i < " +:+ render_count num_elems +:+ "; i++) {");
    subcalls ← append_text subcalls (FieldType.name (Field.fieldtype f) +:+ " v;");
    subcalls ←
      (if FieldType.is_assignable (Field.fieldtype f) then
         append_text subcalls
           ("v = fromwire_" +:+ FieldType.name (Field.fieldtype f) +:+ "(&cursor, plen);")
       else
         (* We don't handle this yet! *)
         if in_list basetype varlen_structs then Err AssertionError
         else append_text subcalls ("fromwire_" +:+ basetype +:+ "(&cursor, &plen, &v);"));
    subcalls ← add_truncate_check subcalls;
    subcalls ← append_text subcalls
      ("printwire_" +:+ basetype +:+ "(" +:+ tal_fmt_field (Field.name f) +:+ ", &v);");
    subcalls ← append_text subcalls "}";
    append_text subcalls ("printf(" +:+ dq +:+ "]" +:+ dq +:+ ");").

Fixpoint append_texts (self : CCode.t) (texts : list string) : result CCode.t :=
  match texts with
  | [] => Ok self
  | text :: texts' =>
      self ← append_text self text;
      append_texts self texts'
  end.

(** The body of the loop of [print_printwire] over [self.fields]. *)
Definition printwire_field (subcalls : CCode.t) (f : Field.t) : result CCode.t :=
  let basetype := FieldType.base (Field.fieldtype f) in
  let typename := FieldType.name (Field.fieldtype f) in
  let name := Field.name f in
  subcalls ← append_texts subcalls
    ((fun c => "/*" +:+ c +:+ " */") <$> Field.comments f);
  if Field.is_len_var f then
    subcalls ← append_text subcalls
      (typename +:+ " " +:+ name +:+ " = fromwire_" +:+ basetype
       +:+ "(&cursor, &plen);");
    add_truncate_check subcalls
  else
    subcalls ← append_text subcalls ("printf(" +:+ dq +:+ name +:+ "=" +:+ dq +:+ ");");
    if Field.is_padding f then
      subcalls ← append_text subcalls
        ("printwire_pad(" +:+ tal_fmt_field name +:+ ", &cursor, &plen, "
         +:+ Py.str (Field.num_elems f) +:+ ");");
      add_truncate_check subcalls
    else if Field.is_array f then
      subcalls ← print_printwire_array subcalls basetype f (Num (Field.num_elems f));
      add_truncate_check subcalls
    else if Field.is_variable_size f then
      subcalls ← print_printwire_array subcalls basetype f
                   (Len (default "None" (Field.lenvar f)));
      add_truncate_check subcalls
    else
      subcalls ← (if Field.optional f
                  then append_text subcalls "if (fromwire_bool(&cursor, &plen)) {"
                  else Ok subcalls);
      subcalls ←
        (if Field.is_assignable f then
           append_text subcalls
             (typename +:+ " " +:+ name +:+ " = fromwire_" +:+ basetype
              +:+ "(&cursor, &plen);")
         else
           (* Don't handle these yet. *)
           if in_list basetype varlen_structs then Err AssertionError
           else
             subcalls ← append_text subcalls (typename +:+ " " +:+ name +:+ ";");
             append_text subcalls
               ("fromwire_" +:+ basetype +:+ "(&cursor, &plen, &" +:+ name +:+ ");"));
      subcalls ← add_truncate_check subcalls;
      subcalls ← append_text subcalls
        ("printwire_" +:+ basetype +:+ "(" +:+ tal_fmt_field name +:+ ", &" +:+ name
         +:+ ");");
      if Field.optional f then
        subcalls ← append_text subcalls "} else {";
        subcalls ← add_truncate_check subcalls;
        append_text subcalls "}"
      else Ok subcalls.

Definition print_printwire (self : Message.t) (is_header : bool) : result string :=
  subcalls ← Message.fold_fields printwire_field CCode.init (Message.fields self);
  subcalls ← CCode.str subcalls;
  Ok (if is_header then printwire_header_templ (Message.name self)
      else printwire_impl_templ (Message.name self) (enum_name (Message.enum self))
             subcalls).

(** The fields the print routines cannot handle.  Length variables and
    padding apart: a field printed as an array (an array, or a
    length-prefixed field) whose elements would be read into a variable
    of a varlen struct type; and, outside the array branches, an
    optional field and a field that is not assignable and of a varlen
    struct type. *)
Definition printwire_unsupported (f : Field.t) : bool :=
  negb (Field.is_len_var f) && negb (Field.is_padding f)
  && (if Field.is_array f || Field.is_variable_size f then
        negb (Field.has_array_helper f)
        && negb (FieldType.is_assignable (Field.fieldtype f))
        && in_list (FieldType.base (Field.fieldtype f)) varlen_structs
      else
        negb (Field.is_assignable f)
        && in_list (FieldType.base (Field.fieldtype f)) varlen_structs
        || Field.optional f).

(** A step on [CCode] that moves the indentation by [k]. *)
Definition shifts_indentation (k : Z) (step : CCode.t -> result CCode.t) : Prop :=
  forall self,
    CCode.single_indent self = false ->
    exists code ss,
      step self = Ok (CCode.mk (CCode.indent self + k) false code ss).

(** A field the print routines can put into lines: clean, and of a type
    whose name is no keyword. *)
Definition printwire_clean (f : Field.t) : bool :=
  clean_field f && no_keyword (FieldType.name (Field.fieldtype f)).

(** What the pass of a print routine over a field does: it raises
    [AssertionError], which only happens for an unsupported field, or
    it leaves the indentation one deeper for an unsupported field and as
    it was otherwise. *)
Definition printwire_outcome (unsupported : bool)
    (step : CCode.t -> result CCode.t) : Prop :=
  forall self,
    CCode.single_indent self = false ->
    step self = Err AssertionError /\ unsupported = true \/
    exists code ss,
      step self
      = Ok (CCode.mk (CCode.indent self + (if unsupported then 1 else 0)) false code ss).

(** ** Messages of integers and padding *)







(** * Properties *)

(** ** Strings *)

Lemma append_cons (c : ascii) (a b : string) :
  String c a +:+ b = String c (a +:+ b).
Proof. reflexivity. Qed.

Lemma prefix_spec (k s : string) :
  String.prefix k s = true <-> exists b, s = k +:+ b.
Proof.
  revert k. induction s as [|c s IH]; intros [|d k]; simpl.
  - split; [by exists "" | done].
  - split; [done | by intros [b Hb]].
  - split; [by eexists | done].
  - destruct (ascii_dec d c) as [->|Hne].
    + rewrite IH. split; intros [b Hb]; exists b; rewrite append_cons in *; congruence.
    + split; [done | intros [b Hb]; rewrite append_cons in Hb; congruence].
Qed.

Lemma contains_spec (k s : string) : Py.contains k s = true <-> occurs_in k s.
Proof.
  unfold occurs_in. induction s as [|c s IH]; cbn [Py.contains].
  - rewrite orb_false_r, prefix_spec. split.
    + intros [b Hb]. by exists "", b.
    + intros ([|x a] & b & Hab); [by exists b | by rewrite append_cons in Hab].
  - rewrite orb_true_iff, prefix_spec, IH. split.
    + intros [[b Hb] | (a & b & Hab)].
      * by exists "", b.
      * exists (String c a), b. by rewrite append_cons, Hab.
    + intros ([|x a] & b & Hab).
      * left. by exists b.
      * right. exists a, b. rewrite append_cons in Hab. congruence.
Qed.

Lemma contains_false (k s : string) : Py.contains k s = false <-> ¬ occurs_in k s.
Proof. rewrite <- contains_spec. by destruct (Py.contains k s). Qed.

(** ** Type inference *)

Section GuessTypeFacts.

Variable full : gmap (string * string) FieldType.t.
Variable partial : list (string * FieldType.t).
Variable bysize : gmap Z FieldType.t.

Lemma first_partial_match (before after : list (string * FieldType.t))
    (k : string) (v : FieldType.t) (fieldname : string) :
  (forall k' v', (k', v') ∈ before -> ¬ occurs_in k' fieldname) ->
  occurs_in k fieldname ->
  first_partial (before ++ (k, v) :: after) fieldname = Some v.
Proof.
  intros Hbefore Hk. induction before as [|[k' v'] before IH]; simpl.
  - apply contains_spec in Hk. by rewrite Hk.
  - assert (Py.contains k' fieldname = false) as ->.
    { apply contains_false. eapply Hbefore. left. }
    apply IH. intros k'' v'' Hin. eapply Hbefore. right. exact Hin.
Qed.

Lemma first_partial_none (items : list (string * FieldType.t)) (fieldname : string) :
  (forall k v, (k, v) ∈ items -> ¬ occurs_in k fieldname) ->
  first_partial items fieldname = None.
Proof.
  intros Hnone. induction items as [|[k v] items IH]; simpl; [done|].
  assert (Py.contains k fieldname = false) as ->.
  { apply contains_false. eapply Hnone. left. }
  apply IH. intros k' v' Hin. eapply Hnone. right. exact Hin.
Qed.

(** C1: inference is a function of (message, field name, size) and the
    three tables, and tries them in strict order: an entry of the
    override table for (message, field name) is the answer whatever the
    other tables hold; without one, the first entry of the partial-name
    table, in its order, whose key occurs in the field name; without
    one, the entry of the size table for the byte size; and with none
    of the three the unknown-size error. *)
Theorem C1_guess_type_tiers (message fieldname : string) (base_size : Z) :
  (forall t, full !! (message, fieldname) = Some t ->
     guess_type_in full partial bysize message fieldname base_size = Ok t) /\
  (full !! (message, fieldname) = None ->
     forall before k v after,
       partial = before ++ (k, v) :: after ->
       occurs_in k fieldname ->
       (forall k' v', (k', v') ∈ before -> ¬ occurs_in k' fieldname) ->
       guess_type_in full partial bysize message fieldname base_size = Ok v) /\
  (full !! (message, fieldname) = None ->
     (forall k v, (k, v) ∈ partial -> ¬ occurs_in k fieldname) ->
     forall t, bysize !! base_size = Some t ->
       guess_type_in full partial bysize message fieldname base_size = Ok t) /\
  (full !! (message, fieldname) = None ->
     (forall k v, (k, v) ∈ partial -> ¬ occurs_in k fieldname) ->
     bysize !! base_size = None ->
     guess_type_in full partial bysize message fieldname base_size
     = Err (ValueError Unknown_size)).
Proof.
  unfold guess_type_in. repeat split.
  - by intros t ->.
  - intros -> before k v after -> Hk Hbefore.
    by rewrite (first_partial_match before after k v fieldname Hbefore Hk).
  - intros -> Hnone t ->. by rewrite (first_partial_none partial fieldname Hnone).
  - intros -> Hnone ->. by rewrite (first_partial_none partial fieldname Hnone).
Qed.

End GuessTypeFacts.

Lemma occurs_in_dec (k s : string) : Decision (occurs_in k s).
Proof.
  destruct (Py.contains k s) eqn:E.
  - left. by apply contains_spec.
  - right. by apply contains_false.
Defined.

(** The override for [channel_update.fee_base_msat] beats the [msat]
    naming convention, [htlc_minimum_msat] follows the convention, a
    plain name falls back on its size, and a size of 3 is unknown. *)
Lemma C1_guess_type_tiers_witness :
  _guess_type "channel_update" "fee_base_msat" 8 = Ok (FieldType "u32") /\
  _guess_type "channel_update" "htlc_minimum_msat" 4 = Ok (FieldType "struct amount_msat") /\
  _guess_type "ping" "byteslen" 2 = Ok (FieldType "u16") /\
  _guess_type "ping" "byteslen" 3 = Err (ValueError Unknown_size).
Proof.
  assert (Hnone : forall k v, (k, v) ∈ partialtypemap -> ¬ occurs_in k "byteslen").
  { intros k v Hin. apply contains_false.
    repeat (apply elem_of_cons in Hin as [[= -> ->] | Hin]; [reflexivity|]).
    by apply elem_of_nil in Hin. }
  split; [|split; [|split]].
  - apply (proj1 (C1_guess_type_tiers typemap partialtypemap sizetypemap
             "channel_update" "fee_base_msat" 8)).
    reflexivity.
  - apply (proj1 (proj2 (C1_guess_type_tiers typemap partialtypemap sizetypemap
             "channel_update" "htlc_minimum_msat" 4)) eq_refl
             (take 6 partialtypemap) "msat" (FieldType "struct amount_msat")
             (drop 7 partialtypemap) eq_refl).
    + apply contains_spec. reflexivity.
    + intros k v Hin. apply contains_false.
      repeat (apply elem_of_cons in Hin as [[= -> ->] | Hin]; [reflexivity|]).
      by apply elem_of_nil in Hin.
  - apply (proj1 (proj2 (proj2 (C1_guess_type_tiers typemap partialtypemap sizetypemap
             "ping" "byteslen" 2))) eq_refl Hnone).
    reflexivity.
  - apply (proj2 (proj2 (proj2 (C1_guess_type_tiers typemap partialtypemap sizetypemap
             "ping" "byteslen" 3))) eq_refl Hnone).
    reflexivity.
Defined.

(** ** The field constructor *)

Lemma bind_Ok {A B} (r : result A) (k : A -> result B) (b : B) :
  r ≫= k = Ok b <-> exists a, r = Ok a /\ k a = Ok b.
Proof.
  destruct r as [a|e]; simpl.
  - split; [by exists a | by intros (a' & [= ->] & H)].
  - split; [done | by intros (a' & [=] & _)].
Qed.

(** What a successful [Field.__init__] has done, branch by branch. *)
Lemma init_body_Ok (bolt : bool) (message name : string) (is_tlv : bool)
    (size : string) (comments : list string) (prevname : option string)
    (f : Field.t) :
  Field.init_body bolt message name is_tlv size comments prevname = Ok f <->
  exists optional lenvar n size',
    Field.parse_size bolt size prevname = Ok (optional, lenvar, n, size') /\
    if bolt then
      exists base_size tsize fieldtype num_elems,
        Py.int size' = Some base_size /\
        _guess_type message name base_size = Ok fieldtype /\
        FieldType._typesize (FieldType.name fieldtype) = Ok tsize /\
        tsize ≠ 0 /\ base_size mod tsize = 0 /\
        Py.truediv_int base_size tsize = Ok num_elems /\
        f = Field.mk message comments name false lenvar num_elems optional is_tlv
              fieldtype None
    else
      f = Field.mk message comments name false lenvar n optional is_tlv
            (FieldType size') None.
Proof.
  unfold Field.init_body. rewrite bind_Ok. split.
  - intros ([[[optional lenvar] n] size'] & Hparse & H).
    exists optional, lenvar, n, size'. split; [exact Hparse|].
    destruct bolt; [|injection H as <-; reflexivity].
    apply bind_Ok in H as (base_size & Hint & H).
    apply bind_Ok in H as (fieldtype & Hguess & H).
    apply bind_Ok in H as (tsize & Hsize & H).
    destruct (Z.eqb_spec tsize 0) as [|Hnz]; [discriminate H|].
    destruct (Z.eqb_spec (base_size mod tsize) 0) as [Hmod|]; [|discriminate H].
    apply bind_Ok in H as (num_elems & Hdiv & H). injection H as <-.
    exists base_size, tsize, fieldtype, num_elems.
    destruct (Py.int size') as [z|]; [|discriminate Hint].
    injection Hint as ->. auto 10.
  - intros (optional & lenvar & n & size' & Hparse & H).
    exists (optional, lenvar, n, size'). split; [exact Hparse|].
    destruct bolt; [|rewrite H; reflexivity].
    destruct H as (base_size & tsize & fieldtype & num_elems
                   & -> & Hguess & Hsize & Hnz & Hmod & Hdiv & ->).
    apply bind_Ok. exists base_size. split; [reflexivity|].
    apply bind_Ok. exists fieldtype. split; [exact Hguess|].
    apply bind_Ok. exists tsize. split; [exact Hsize|].
    destruct (Z.eqb_spec tsize 0) as [|_]; [contradiction|].
    destruct (Z.eqb_spec (base_size mod tsize) 0) as [_|]; [|contradiction].
    apply bind_Ok. exists num_elems. split; [exact Hdiv | reflexivity].
Qed.

(** The cases of the size token. *)
Lemma parse_size_lenvar (bolt : bool) (size : string) (prevname : option string)
    (optional : bool) (lenvar : option string) (n : Z) (size' : string) :
  Field.parse_size bolt size prevname = Ok (optional, lenvar, n, size') ->
  forall lv, lenvar = Some lv -> optional = false /\ prevname = Some lv.
Proof.
  unfold Field.parse_size. intros H lv ->.
  destruct (Py.startswith size "?"); [done|].
  destruct (Py.has_char "*" size).
  - case_bool_decide as Hprev.
    + by injection H as <- <- _ _.
    + by destruct (Py.int _).
  - destruct (bolt && _) eqn:Hb; [|done].
    injection H as <- <- _ _.
    apply andb_prop in Hb as [_ Hb]. by apply bool_decide_eq_true_1 in Hb.
Qed.

(** The constructor never gives a field both a length variable and the
    optional flag; a length variable is always the remembered previous
    field name. *)
Lemma init_body_lenvar (bolt : bool) (message name : string)
    (is_tlv : bool) (size : string) (comments : list string)
    (prevname : option string) (f : Field.t) (lv : string) :
  Field.init_body bolt message name is_tlv size comments prevname = Ok f ->
  Field.lenvar f = Some lv -> Field.optional f = false /\ prevname = Some lv.
Proof.
  intros H Hlv.
  apply init_body_Ok in H as (optional & lenvar & n & size' & Hparse & H).
  assert (Hf : Field.lenvar f = lenvar /\ Field.optional f = optional).
  { destruct bolt.
    - by destruct H as (? & ? & ? & ? & _ & _ & _ & _ & _ & _ & ->).
    - by rewrite H. }
  destruct Hf as [Hl ->]. rewrite Hl in Hlv.
  exact (parse_size_lenvar bolt size prevname optional lenvar n size' Hparse lv Hlv).
Qed.

(** ** Length variables *)

Lemma check_fields_unknown (bolt : bool) (field : Field.t) (fs : list Field.t) :
  (forall f, f ∈ fs -> Some (Field.name f) ≠ Field.lenvar field) ->
  Message.check_fields bolt field fs = Err (ValueError Unknown_length_variable).
Proof.
  induction fs as [|f fs IH]; intros Hno; simpl; [done|].
  rewrite bool_decide_eq_false_2 by (apply Hno; left).
  rewrite IH; [done|]. intros g Hg. apply Hno. by right.
Qed.

Lemma check_fields_first (bolt : bool) (field : Field.t)
    (before : list Field.t) (f : Field.t) (after : list Field.t) :
  (forall g, g ∈ before -> Some (Field.name g) ≠ Field.lenvar field) ->
  Some (Field.name f) = Field.lenvar field ->
  Message.check_fields bolt field (before ++ f :: after) =
    if negb (String.eqb (FieldType.name (Field.fieldtype f)) "u16") && bolt
    then Err (ValueError Non_u16_length_variable)
    else if Field.is_array f || Field.needs_ptr_to_ptr f
    then Err (ValueError Non_simple_length_variable)
    else Ok (before ++ Field.mark_len_var f field :: after).
Proof.
  intros Hno Hf. induction before as [|g before IH]; simpl.
  - rewrite bool_decide_eq_true_2 by done.
    by repeat case_match.
  - rewrite bool_decide_eq_false_2 by (apply Hno; left).
    rewrite IH by (intros h Hh; apply Hno; by right).
    by repeat case_match.
Qed.

(** C3: adding a length-prefixed field (one with a length variable [lv],
    which is never an optional one).  With no field of that name in the
    message the build fails; otherwise the first field [f] of that name
    decides: in strict (bolt) mode a type other than u16 is fatal; an
    array or a field that needs a pointer to a pointer (variable-size or
    optional) is fatal; and in the remaining case [f] is marked as the
    length source of the new field: in its place stands the field with
    [is_len_var] set and [lenvar_for] the new field (its name, and
    whether it is a TLV container), and with everything else as [f] has
    it; the fields before and after [f] stay, the new field is appended,
    and the message has variable fields. *)
Theorem C3_addField_length_prefixed (bolt : bool) (self : Message.t)
    (field : Field.t) (lv : string) :
  Field.lenvar field = Some lv ->
  Field.optional field = false ->
  ((forall f, f ∈ Message.fields self -> Field.name f ≠ lv) ->
     Message.addField bolt self field = Err (ValueError Unknown_length_variable)) /\
  (forall before f after,
     Message.fields self = before ++ f :: after ->
     (forall g, g ∈ before -> Field.name g ≠ lv) ->
     Field.name f = lv ->
     (bolt = true -> FieldType.name (Field.fieldtype f) ≠ "u16" ->
        Message.addField bolt self field = Err (ValueError Non_u16_length_variable)) /\
     (bolt = false \/ FieldType.name (Field.fieldtype f) = "u16" ->
        Field.is_array f = true \/ Field.needs_ptr_to_ptr f = true ->
        Message.addField bolt self field
        = Err (ValueError Non_simple_length_variable)) /\
     (bolt = false \/ FieldType.name (Field.fieldtype f) = "u16" ->
        Field.is_array f = false -> Field.needs_ptr_to_ptr f = false ->
        Message.addField bolt self field
        = Ok (Message.mk (Message.name self) (Message.enum self)
                (Message.comments self)
                ((before
                  ++ Field.mk (Field.message f) (Field.comments f) (Field.name f)
                       true (Field.lenvar f) (Field.num_elems f)
                       (Field.optional f) (Field.is_tlv f) (Field.fieldtype f)
                       (Some (Field.name field, Field.is_tlv field))
                  :: after) ++ [field])
                true (Message.is_tlv self)))).
Proof.
  intros Hlv Hopt.
  assert (Hvar : Field.is_variable_size field = true).
  { unfold Field.is_variable_size. rewrite Hlv. by apply bool_decide_eq_true_2. }
  unfold Message.addField, Message.checkLenField. rewrite Hvar, Hopt.
  split.
  - intros Hno. rewrite check_fields_unknown; [done|].
    intros f Hf. rewrite Hlv. intros [= E]. by apply (Hno f).
  - intros before f after Hfields Hbefore Hname.
    rewrite Hfields, check_fields_first; cycle 1.
    { intros g Hg. rewrite Hlv. intros [= E]. by apply (Hbefore g). }
    { by rewrite Hlv, Hname. }
    assert (Hu16 : String.eqb (FieldType.name (Field.fieldtype f)) "u16" = true
                   <-> FieldType.name (Field.fieldtype f) = "u16")
      by apply String.eqb_eq.
    repeat split.
    + intros -> Hne.
      destruct (String.eqb _ "u16"); [by destruct Hne; apply Hu16 | done].
    + intros Hmode Hsimple.
      assert (negb (String.eqb (FieldType.name (Field.fieldtype f)) "u16") && bolt
              = false) as ->.
      { destruct Hmode as [-> | Ht]; [apply andb_false_r|].
        apply Hu16 in Ht. by rewrite Ht. }
      assert (Field.is_array f || Field.needs_ptr_to_ptr f = true) as ->; [|done].
      destruct Hsimple as [-> | ->]; [done | apply orb_true_r].
    + intros Hmode Harr Hptr.
      assert (negb (String.eqb (FieldType.name (Field.fieldtype f)) "u16") && bolt
              = false) as ->.
      { destruct Hmode as [-> | Ht]; [apply andb_false_r|].
        apply Hu16 in Ht. by rewrite Ht. }
      by rewrite Harr, Hptr.
Qed.

(** In bolt mode, the message [ping] with the u16 field [len]: adding the
    field [data] with length variable [len] marks [len] as the length
    source of [data] and appends [data]. *)
Lemma C3_addField_length_prefixed_witness :
  let len := Field.mk "ping" [] "len" false None 1 false false
               (FieldType "u16") None in
  let data := Field.mk "ping" [] "data" false (Some "len") 1 false false
                (FieldType "u8") None in
  let ping := Message.mk "ping" (Build_Enumtype "WIRE_PING" "18") [] [len]
                false false in
  Message.addField true ping data
  = Ok (Message.mk "ping" (Build_Enumtype "WIRE_PING" "18") []
          [Field.mk "ping" [] "len" true None 1 false false (FieldType "u16")
             (Some ("data", false));
           data] true false).
Proof.
  intros len data ping.
  destruct (C3_addField_length_prefixed true ping data "len" eq_refl eq_refl)
    as [_ Hfirst].
  destruct (Hfirst [] len [] eq_refl) as (_ & _ & Hsimple).
  - intros g Hg. inversion Hg.
  - reflexivity.
  - apply Hsimple.
    + right. reflexivity.
    + reflexivity.
    + reflexivity.
Defined.

(** ** Element counts *)

(** Below [2^53] the float quotient of an exact division is the integer
    quotient. *)
Lemma truediv_int_exact (a b : Z) :
  0 < b -> a mod b = 0 -> Z.abs (a / b) < 2 ^ 53 ->
  Py.truediv_int a b = Ok (a / b).
Proof.
  intros Hb Hmod Hq. unfold Py.truediv_int.
  destruct (Z.eqb_spec b 0) as [|_]; [lia|].
  destruct (Z.eqb_spec a 0) as [->|Ha]; [by rewrite Z.div_0_l by lia|].
  set (q := a / b) in *.
  assert (Haq : a = b * q) by (apply Z.div_exact; [lia | done]).
  assert (Hq0 : q ≠ 0) by nia.
  set (A := Z.abs a). set (B := Z.abs b).
  assert (HB : B = b) by (unfold B; lia).
  assert (HA : A = B * Z.abs q) by (unfold A; rewrite Haq, Z.abs_mul; lia).
  set (d := Z.log2 A - Z.log2 B).
  set (l := if (if 0 <=? d then B * 2 ^ d <=? A else B <=? A * 2 ^ (- d))
            then d else d - 1).
  assert (Hl : l <= 52).
  { assert (Z.log2 (Z.abs q) <= 52).
    { assert (Z.log2 (Z.abs q) < 53); [|lia]. apply Z.log2_lt_pow2; lia. }
    assert (Z.log2 A <= Z.log2 B + Z.log2 (Z.abs q) + 1).
    { rewrite HA. apply Z.log2_mul_above; lia. }
    assert (d <= 53) by (unfold d; lia).
    unfold l. destruct (Z.leb_spec 0 d) as [Hd|Hd]; [|case_match; lia].
    destruct (Z.leb_spec (B * 2 ^ d) A) as [Hle|]; [|lia].
    destruct (Z.eq_dec d 53) as [->|]; [|lia].
    rewrite HA in Hle. nia. }
  set (e := l - 52). assert (He : e <= 0) by (unfold e; lia).
  assert (Hsgn : Z.sgn a * Z.sgn b * Z.abs q = q).
  { rewrite Haq, Z.sgn_mul. rewrite (Z.sgn_pos b) by lia.
    replace (1 * Z.sgn q * 1 * Z.abs q) with (Z.sgn q * Z.abs q) by lia.
    rewrite Z.mul_comm. apply Z.abs_sgn. }
  destruct (Z.leb_spec 0 e) as [He0|He0].
  - assert (e = 0) as -> by lia. rewrite Z.pow_0_r, !Z.mul_1_r.
    assert (A / B = Z.abs q) as -> by (rewrite HA, Z.mul_comm; apply Z.div_mul; lia).
    assert (A mod B = 0) as -> by (rewrite HA, Z.mul_comm; apply Z.mod_mul; lia).
    destruct (Z.ltb_spec B (2 * 0)) as [|_]; [lia|].
    destruct (Z.eqb_spec B (2 * 0)) as [|_]; [lia|]. simpl.
    destruct (Z.leb_spec (2 ^ 1024) (Z.abs q)) as [Hbig|_].
    + assert (2 ^ 53 < 2 ^ 1024) by (apply Z.pow_lt_mono_r; lia). lia.
    + by rewrite Hsgn.
  - set (k := 2 ^ (- e)). assert (Hk : 0 < k) by (apply Z.pow_pos_nonneg; lia).
    assert (A * k / B = Z.abs q * k) as ->.
    { rewrite HA. replace (B * Z.abs q * k) with (Z.abs q * k * B) by lia.
      apply Z.div_mul. lia. }
    assert ((A * k) mod B = 0) as ->.
    { rewrite HA. replace (B * Z.abs q * k) with (Z.abs q * k * B) by lia.
      apply Z.mod_mul. lia. }
    destruct (Z.ltb_spec B (2 * 0)) as [|_]; [lia|].
    destruct (Z.eqb_spec B (2 * 0)) as [|_]; [lia|]. simpl.
    rewrite Z.div_mul by lia. by rewrite Hsgn.
Qed.

Lemma forallb_elem_of {A} (f : A -> bool) (l : list A) (x : A) :
  forallb f l = true -> x ∈ l -> f x = true.
Proof.
  intros Hall Hx. apply list_elem_of_In in Hx.
  exact (proj1 (forallb_forall f l) Hall x Hx).
Qed.

Lemma guessed_type_has_width (message fieldname : string) (base_size : Z)
    (t : FieldType.t) :
  _guess_type message fieldname base_size = Ok t -> has_width t = true.
Proof.
  unfold _guess_type, guess_type_in.
  assert (Hpartial : forall items,
            forallb (fun kv => has_width kv.2) items = true ->
            forall v, first_partial items fieldname = Some v -> has_width v = true).
  { induction items as [|[k v] items IH]; cbn [forallb first_partial];
      [intros _ v [=]|].
    intros [Hv Hitems]%andb_prop v'.
    destruct (Py.contains k fieldname); [intros [= <-]; exact Hv | apply IH, Hitems]. }
  destruct (typemap !! (message, fieldname)) as [t'|] eqn:E.
  { intros [= <-]. apply elem_of_map_to_list in E.
    refine (forallb_elem_of (fun kv => has_width kv.2) _ _ _ E).
    vm_compute. reflexivity. }
  destruct (first_partial partialtypemap fieldname) as [v|] eqn:E'.
  { intros [= <-]. apply (Hpartial partialtypemap); [|exact E'].
    vm_compute. reflexivity. }
  destruct (sizetypemap !! base_size) as [t'|] eqn:E''; [|intros [=]].
  intros [= <-]. apply elem_of_map_to_list in E''.
  refine (forallb_elem_of (fun kv => has_width kv.2) _ _ _ E'').
  vm_compute. reflexivity.
Qed.

(** In bolt mode a bare byte count is checked against the width of the
    inferred type, and up to [2^53] elements the count is the quotient. *)
Lemma init_body_bolt_byte_count (message name : string) (is_tlv : bool)
    (size : string) (comments : list string) (prevname : option string)
    (base_size : Z) (t : FieldType.t) (tsize : Z) :
  Py.startswith size "?" = false ->
  Py.has_char "*" size = false ->
  prevname ≠ Some size ->
  Py.int size = Some base_size ->
  _guess_type message name base_size = Ok t ->
  FieldType._typesize (FieldType.name t) = Ok tsize ->
  (base_size mod tsize ≠ 0 ->
     Field.init_body true message name is_tlv size comments prevname
     = Err (ValueError Invalid_size)) /\
  (base_size mod tsize = 0 -> Z.abs (base_size / tsize) < 2 ^ 53 ->
     Field.init_body true message name is_tlv size comments prevname
     = Ok (Field.mk message comments name false None (base_size / tsize) false
             is_tlv t None)).
Proof.
  intros Hq Hstar Hprev Hint Hguess Hsize.
  assert (Hpos : 0 < tsize).
  { pose proof (guessed_type_has_width _ _ _ _ Hguess) as Hw.
    unfold has_width in Hw. rewrite Hsize in Hw. lia. }
  assert (Hparse : Field.parse_size true size prevname = Ok (false, None, 1, size)).
  { unfold Field.parse_size.
    rewrite Hq, Hstar, (bool_decide_eq_false_2 _ Hprev). reflexivity. }
  unfold Field.init_body. rewrite Hparse. cbn [mbind result_bind].
  rewrite Hint. cbn [mbind result_bind]. rewrite Hguess. cbn [mbind result_bind].
  rewrite Hsize. cbn [mbind result_bind].
  destruct (Z.eqb_spec tsize 0) as [|_]; [lia|].
  split.
  - intros Hmod.
    destruct (Z.eqb_spec (base_size mod tsize) 0); [contradiction | reflexivity].
  - intros Hmod Hbound.
    destruct (Z.eqb_spec (base_size mod tsize) 0); [|contradiction].
    cbn [negb]. rewrite (truediv_int_exact _ _ Hpos Hmod Hbound). reflexivity.
Qed.

(** C4, at a byte count the float quotient cannot represent: in bolt
    mode the field [features] of 9007199254740993 bytes is inferred as u8,
    of width 1, which divides the byte count; the element count of the
    field is 9007199254740992, not the byte count divided by the width. *)
Theorem C4_element_count_is_float_quotient :
  exists f,
    Field.init_body true "init" "features" false "9007199254740993" [] None = Ok f /\
    Field.fieldtype f = FieldType "u8" /\
    FieldType._typesize "u8" = Ok 1 /\
    9007199254740993 mod 1 = 0 /\
    Field.num_elems f = 9007199254740992 /\
    Field.num_elems f ≠ 9007199254740993 / 1.
Proof.
  eexists. split; [vm_compute; reflexivity|].
  vm_compute. repeat split; congruence.
Qed.

(** ** Size tokens *)

Lemma split_without (sep : ascii) (s : string) :
  Py.has_char sep s = false -> Py.split sep s = [s].
Proof.
  induction s as [|c s IH]; cbn [Py.has_char Py.split]; [done|].
  rewrite (Ascii.eqb_sym c sep). destruct (Ascii.eqb sep c); [done|].
  intros H. by rewrite (IH H).
Qed.

Lemma split_at_first (sep : ascii) (a b : string) :
  Py.has_char sep a = false ->
  Py.split sep (a +:+ String sep b) = a :: Py.split sep b.
Proof.
  induction a as [|c a IH]; cbn [Py.has_char]; intros H.
  - change ("" +:+ String sep b) with (String sep b).
    cbn [Py.split]. by rewrite Ascii.eqb_refl.
  - rewrite append_cons. cbn [Py.split].
    rewrite (Ascii.eqb_sym c sep). destruct (Ascii.eqb sep c); [done|].
    by rewrite (IH H).
Qed.

Lemma has_char_at (sep : ascii) (a b : string) :
  Py.has_char sep (a +:+ String sep b) = true.
Proof.
  induction a as [|c a IH].
  - change ("" +:+ String sep b) with (String sep b).
    cbn [Py.has_char]. by rewrite Ascii.eqb_refl.
  - rewrite append_cons. cbn [Py.has_char]. by destruct (Ascii.eqb sep c).
Qed.


(** The size token [count*type], in the constructor. *)
Lemma parse_size_array (bolt : bool) (count ty : string) (prevname : option string) :
  Py.startswith (count +:+ "*" +:+ ty) "?" = false ->
  Py.has_char "*" count = false -> Py.has_char "*" ty = false ->
  Field.parse_size bolt (count +:+ "*" +:+ ty) prevname =
    if bool_decide (prevname = Some count) then Ok (false, Some count, 1, ty)
    else match Py.int count with
         | Some n => Ok (false, None, n, ty)
         | None => Err (ValueError Invalid_literal)
         end.
Proof.
  intros Hq Hcount Hty. unfold Field.parse_size.
  rewrite Hq. change ("*" +:+ ty) with (String "*" ty).
  rewrite has_char_at, (split_at_first _ _ _ Hcount), (split_without _ _ Hty).
  reflexivity.
Qed.

(** ** The remembered previous field *)

Section ReadingFacts.

Variable bolt : bool.
Variable load : string -> shared -> result (shared * list Message.t).






End ReadingFacts.




(** ** The bare length variable *)




(** ** TLV records with optional or nested TLV fields *)

Lemma bind_not_ok {A B} (r : result A) (k : A -> result B) :
  is_ok r = false -> is_ok (r ≫= k) = false.
Proof. by destruct r. Qed.

(** The checking loop of [print_tlv_towire] raises at the first field
    that is a TLV or optional. *)
Lemma tlv_towire_decls_rejects (self : Message.t) (fs : list Field.t) (f : Field.t) :
  f ∈ fs -> Field.is_tlv f = true \/ Field.optional f = true ->
  exists e, Message.tlv_towire_decls self fs = Err (TypeError e) /\
            (e = Nested_TLVs \/ e = Optional_on_TLV).
Proof.
  intros Hin Hf. induction fs as [|g fs IH]; [by apply elem_of_nil in Hin|].
  cbn [Message.tlv_towire_decls].
  destruct (Field.is_tlv g) eqn:Htlv; [by eauto|].
  destruct (Field.optional g) eqn:Hopt; [by eauto|].
  apply elem_of_cons in Hin as [-> | Hin].
  { destruct Hf; congruence. }
  destruct (IH Hin) as (e & -> & He). by eauto.
Qed.

(** A loop over the fields fails when its body fails at some field. *)
Lemma fold_fields_rejects (step : CCode.t -> Field.t -> result CCode.t)
    (fs : list Field.t) (f : Field.t) :
  f ∈ fs -> (forall c, is_ok (step c f) = false) ->
  forall c, is_ok (Message.fold_fields step c fs) = false.
Proof.
  intros Hin Hf. induction fs as [|g fs IH]; [by apply elem_of_nil in Hin|].
  intros c. cbn [Message.fold_fields].
  apply elem_of_cons in Hin as [<- | Hin].
  - apply bind_not_ok, Hf.
  - destruct (step c g) as [c'|e]; [|done]. apply (IH Hin).
Qed.

Lemma traverse_rejects {A B} (f : A -> result B) (l : list A) (a : A) :
  a ∈ l -> is_ok (f a) = false -> is_ok (traverse f l) = false.
Proof.
  intros Hin Ha. induction l as [|b l IH]; [by apply elem_of_nil in Hin|].
  cbn [traverse]. apply elem_of_cons in Hin as [<- | Hin].
  - by apply bind_not_ok.
  - destruct (f b); [|done]. cbn [mbind result_bind].
    by apply bind_not_ok, IH.
Qed.

(** C6, as the code has it: a TLV record with a field that is optional
    or itself a TLV is rejected when its functions are printed, not when
    the container is built: printing the definition of its encoder
    raises the TypeError for nested TLVs or for optional fields, printing
    the definition of its decoder raises too, and so the definitions pass
    of a run over a container holding the record fails. *)
Theorem C6_tlv_record_rejected_when_printed (self : Message.t) (tlv_name : string)
    (f : Field.t) :
  Message.is_tlv self = true ->
  f ∈ Message.fields self ->
  Field.is_tlv f = true \/ Field.optional f = true ->
  (exists e, Message.print_towire self false tlv_name = Err (TypeError e) /\
             (e = Nested_TLVs \/ e = Optional_on_TLV)) /\
  is_ok (Message.print_fromwire self false tlv_name) = false /\
  (forall messages sh tlv_messages,
     (tlv_name, tlv_messages) ∈ tlv_fields sh -> self ∈ tlv_messages ->
     is_ok (decls false messages sh) = false).
Proof.
  intros Htlv Hin Hf.
  destruct (tlv_towire_decls_rejects self _ f Hin Hf) as (e & He & Hkind).
  assert (Hto : Message.print_towire self false tlv_name = Err (TypeError e)).
  { unfold Message.print_towire, Message.print_tlv_towire. by rewrite Htlv, He. }
  split; [by eauto|]. split.
  - unfold Message.print_fromwire, Message.print_tlv_fromwire. rewrite Htlv.
    apply bind_not_ok. unfold Message.tlv_fromwire_subcalls.
    apply (fold_fields_rejects _ _ f Hin).
    intros c. unfold Message.tlv_fromwire_field.
    destruct Hf as [-> | Hopt]; [done|]. rewrite Hopt. by destruct (Field.is_tlv f).
  - intros messages sh tlv_messages Hcont Hself. unfold decls.
    apply bind_not_ok.
    apply (traverse_rejects _ _ (tlv_name, self)).
    + apply list_elem_of_bind. exists (tlv_name, tlv_messages). split; [|done].
      apply list_elem_of_fmap. by exists self.
    + cbn beta iota. by rewrite Hto.
Qed.

(** A TLV record [r] with the optional field [v]. *)
Lemma C6_tlv_record_rejected_when_printed_witness :
  is_ok (Message.print_fromwire
           (Message.mk "r" {| enum_name := "TLV_R"; enum_value := "1" |} []
              [Field.mk "r" [] "v" false None 1 true false (FieldType "u32") None]
              true true)
           false "ext") = false.
Proof.
  apply (proj1 (proj2 (C6_tlv_record_rejected_when_printed
           (Message.mk "r" {| enum_name := "TLV_R"; enum_value := "1" |} []
              [Field.mk "r" [] "v" false None 1 true false (FieldType "u32") None]
              true true)
           "ext"
           (Field.mk "r" [] "v" false None 1 true false (FieldType "u32") None)
           eq_refl (list_elem_of_here _ _) (or_intror eq_refl)))).
Defined.

(** C6 as stated fails: building the container [ext], whose record [r]
    has an optional field, succeeds, and so does building the container
    [out], whose record has the nested TLV field [inner]; a whole header
    run over a message with the field [ext+] builds the container and
    prints its declarations without an error. *)
Lemma C6_counterexample :
  (exists sh m f,
     parse_tlv_file false
       (files [("wire/gen_ext_csv", [line "r,1"; line "r,0,v,?u32"])])
       1 "ext" empty_shared = Ok (sh, ([], [m], [])) /\
     Message.is_tlv m = true /\ Message.fields m = [f] /\
     Field.optional f = true) /\
  (exists sh m f,
     parse_tlv_file false
       (files [("wire/gen_out_csv", [line "r,1"; line "r,0,inner+,u8"]);
               ("wire/gen_inner_csv", [line "s,1"; line "s,0,v,u8"])])
       2 "out" empty_shared = Ok (sh, ([], [m], [])) /\
     Message.is_tlv m = true /\ Message.fields m = [f] /\
     Field.is_tlv f = true) /\
  is_ok ('(rd, sh) ← read_csv false
                       (files [("wire/gen_ext_csv", [line "r,1"; line "r,0,v,?u32"])])
                       1 [line "m,1"; line "m,0,len,u16"; line "m,2,ext+,len*u8"];
         decls true (messages rd) sh) = true.
Proof.
  split; [|split].
  - do 3 eexists. split; [vm_compute; reflexivity|]. by vm_compute.
  - do 3 eexists. split; [vm_compute; reflexivity|]. by vm_compute.
  - vm_compute. reflexivity.
Qed.

(** ** Padding *)



(** ** Bytes *)

Lemma Z_of_byte_of_Z (z : Z) : Z_of_byte (byte_of_Z z) = z mod 256.
Proof.
  unfold Z_of_byte, byte_of_Z.
  assert (Hr : 0 <= z mod 256 < 256) by (apply Z.mod_pos_bound; lia).
  destruct (Byte.of_N (Z.to_N (z mod 256))) as [b|] eqn:E.
  - apply Byte.to_of_N in E. cbn. rewrite E. lia.
  - apply Byte.of_N_None_iff in E. lia.
Qed.

Lemma be_value_be_bytes_2 (v : Z) : be_value (be_bytes 2 v) = v mod 65536.
Proof.
  unfold be_value. cbn [be_bytes fold_left]. rewrite !Z_of_byte_of_Z.
  change (256 ^ Z.of_nat 1) with 256. change (256 ^ Z.of_nat 0) with 1.
  rewrite Z.div_1_r.
  change 65536 with (256 * 256).
  rewrite (Z.rem_mul_r v 256 256) by lia. lia.
Qed.

Lemma length_be_bytes (w : nat) (v : Z) : length (be_bytes w v) = w.
Proof. induction w as [|w IH]; cbn [be_bytes length]; [done | by rewrite IH]. Qed.

(** ** TLV containers: encoding *)

Lemma foldM_append {A} (entry : A -> option (list byte)) (l : list A)
    (p q : list byte) :
  foldM (fun p a => e ← entry a; Some (p ++ e)) (p ++ q) l
  = (fun r => p ++ r) <$> foldM (fun p a => e ← entry a; Some (p ++ e)) q l.
Proof.
  revert q. induction l as [|a l IH]; intros q; [reflexivity|].
  cbn [foldM]. destruct (entry a) as [e|]; [|reflexivity].
  cbn [mbind option_bind]. rewrite <- (assoc_L (++) p q e). apply IH.
Qed.

(** The container encoder appends the entries of its candidate records
    in order: nothing for an absent record, and for a present one the
    tag, then [sizeof] of the struct of the record, then the output of
    the record's encoder. *)
Lemma run_tlv_towire_cons (U : c_unit) (m : Message.t) (ms : list Message.t)
    (tlv : value) :
  run_tlv_towire U (m :: ms) tlv =
    entry ← tlv_towire_entry U m tlv;
    rest ← run_tlv_towire U ms tlv;
    Some (entry ++ rest).
Proof.
  unfold run_tlv_towire. cbn [foldM].
  destruct (tlv_towire_entry U m tlv) as [e|]; [|reflexivity].
  cbn [mbind option_bind]. rewrite app_nil_l, <- (app_nil_r e) at 1.
  rewrite (foldM_append (fun m => tlv_towire_entry U m tlv) ms e []).
  by destruct (foldM _ [] ms).
Qed.

(** C2, on two records with the same struct: the container [ext] has the
    record [a] (a u16) and the record [b] (a u16 and two bytes of
    padding, which the struct leaves out).  Both structs have the one
    member [u16 v]; the encoder of [a] writes 2 bytes and that of [b] 4;
    and the entries the container encoder emits for them carry the same
    length, [sizeof] of that struct, in every C translation unit, so the
    length cannot be the serialized size of both. *)
Theorem C2_record_length_is_sizeof (U : c_unit) :
  exists sh a b,
    parse_tlv_file false
      (files [("wire/gen_ext_csv",
               [line "a,1"; line "a,0,v,u16";
                line "b,2"; line "b,0,v,u16"; line "b,2,padding,2*u8"])])
      1 "ext" empty_shared = Ok (sh, ([], [a; b], [])) /\
    Message.struct_members a = [Member "u16" "v"] /\
    Message.struct_members b = [Member "u16" "v"] /\
    run_tlv_record_towire U a (VRec [("v", VInt 1)]) = Some [x00; x01] /\
    run_tlv_record_towire U b (VRec [("v", VInt 2)]) = Some [x00; x02; x00; x00] /\
    run_tlv_towire U [a; b]
      (VRec [("a", VPtr (VRec [("v", VInt 1)])); ("b", VPtr (VRec [("v", VInt 2)]))])
    = Some (be_bytes 2 (enum_value_of U "TLV_A")
              ++ be_bytes 2 (sizeof_struct U [Member "u16" "v"])
              ++ [x00; x01]
              ++ be_bytes 2 (enum_value_of U "TLV_B")
              ++ be_bytes 2 (sizeof_struct U [Member "u16" "v"])
              ++ [x00; x02; x00; x00]).
Proof.
  do 3 eexists. split; [vm_compute; reflexivity|].
  repeat split; vm_compute; reflexivity.
Qed.

(** ** TLV containers: decoding *)

Lemma be_value_nonneg (bs : list byte) : 0 <= be_value bs.
Proof.
  unfold be_value. assert (H : forall acc, 0 <= acc ->
    0 <= fold_left (fun acc b => acc * 256 + Z_of_byte b) bs acc); [|by apply H].
  induction bs as [|b bs IH]; intros acc Hacc; cbn [fold_left]; [done|].
  apply IH. unfold Z_of_byte. lia.
Qed.

(** A read either fails, leaving nothing, or moves the counter by the
    width read. *)
Lemma fromwire_int_plen (w : nat) (c c' : cur) (v : Z) :
  fromwire_int w c = Some (c', v) ->
  0 <= v /\
  (c' = fromwire_fail \/
   (plen c' = plen c - Z.of_nat w /\ Z.of_nat w <= plen c)).
Proof.
  unfold fromwire_int, fromwire. intros H.
  destruct (Z.ltb_spec (Z.of_nat w) 0) as [|_]; [lia|].
  destruct (Z.ltb_spec (plen c) (Z.of_nat w)) as [|Hle]; cbn [orb] in H.
  { injection H as <- <-. split; [done | by left]. }
  destruct (cursor c) as [bs|].
  - destruct (Z.of_nat (length bs) <? Z.of_nat w); [done|].
    injection H as <- <-. split; [apply be_value_nonneg | by right].
  - destruct (Z.eqb_spec (Z.of_nat w) 0) as [E|]; [|done]. injection H as <- <-.
    split; [done|]. right. lia.
Qed.

(** The loop never uses up a fuel above the remaining length. *)
Lemma tlv_loop_fuel (U : c_unit) (tlv_name : string) (messages : list Message.t)
    (fuel : nat) (c : cur) :
  0 <= plen c -> (Z.to_nat (plen c) < fuel)%nat ->
  tlv_loop U (S fuel) tlv_name messages c = tlv_loop U fuel tlv_name messages c.
Proof.
  revert c. induction fuel as [|fuel IH]; intros c Hpos Hfuel; [lia|].
  change (tlv_loop U (S (S fuel)) tlv_name messages c) with
    (if is_null c || (plen c =? 0) then Some (negb (is_null c), [])
     else
       '(c, msg_type) ← fromwire_int 2 c;
       '(c, msg_len) ← fromwire_int 2 c;
       if plen c <? msg_len then Some (false, [])
       else
         match list_find (fun m => enum_value_of U (enum_name (Message.enum m))
                                   = msg_type) messages with
         | Some (_, m) =>
             ok ← record_fromwire U tlv_name (Message.name m) (cursor c) msg_len;
             if ok : bool then
               '(r, ds) ← tlv_loop U (S fuel) tlv_name messages c;
               Some (r, (Message.name m, cursor c, msg_len) :: ds)
             else Some (false, [(Message.name m, cursor c, msg_len)])
         | None =>
             match cursor c with
             | Some bs =>
                 if Z.of_nat (length bs) <? msg_len then None
                 else tlv_loop U (S fuel) tlv_name messages
                        {| cursor := Some (drop (Z.to_nat msg_len) bs);
                           plen := plen c - msg_len |}
             | None => tlv_loop U (S fuel) tlv_name messages c
             end
         end).
  change (tlv_loop U (S fuel) tlv_name messages c) with
    (if is_null c || (plen c =? 0) then Some (negb (is_null c), [])
     else
       '(c, msg_type) ← fromwire_int 2 c;
       '(c, msg_len) ← fromwire_int 2 c;
       if plen c <? msg_len then Some (false, [])
       else
         match list_find (fun m => enum_value_of U (enum_name (Message.enum m))
                                   = msg_type) messages with
         | Some (_, m) =>
             ok ← record_fromwire U tlv_name (Message.name m) (cursor c) msg_len;
             if ok : bool then
               '(r, ds) ← tlv_loop U fuel tlv_name messages c;
               Some (r, (Message.name m, cursor c, msg_len) :: ds)
             else Some (false, [(Message.name m, cursor c, msg_len)])
         | None =>
             match cursor c with
             | Some bs =>
                 if Z.of_nat (length bs) <? msg_len then None
                 else tlv_loop U fuel tlv_name messages
                        {| cursor := Some (drop (Z.to_nat msg_len) bs);
                           plen := plen c - msg_len |}
             | None => tlv_loop U fuel tlv_name messages c
             end
         end).
  destruct (is_null c); [done|].
  destruct (Z.eqb_spec (plen c) 0) as [|Hnz]; [done|]. cbn [orb].
  destruct (fromwire_int 2 c) as [[c1 msg_type]|] eqn:E1; [|done].
  cbn [mbind option_bind].
  destruct (fromwire_int 2 c1) as [[c2 msg_len]|] eqn:E2; [|done].
  cbn [mbind option_bind].
  apply fromwire_int_plen in E1 as [_ H1], E2 as [Hlen H2].
  assert (Hc2 : 0 <= plen c2 /\ (Z.to_nat (plen c2) < fuel)%nat).
  { destruct H2 as [-> | [H2 H2']]; [cbn; lia|].
    destruct H1 as [-> | [H1 H1']]; [cbn in H2'|]; lia. }
  destruct (Z.ltb_spec (plen c2) msg_len) as [|Hge]; [done|].
  destruct (list_find _ messages) as [[i m]|].
  - destruct (record_fromwire U tlv_name (Message.name m) (cursor c2) msg_len)
      as [[]|]; [|done..]. cbn [mbind option_bind].
    rewrite (IH c2); [done | lia..].
  - destruct (cursor c2) as [bs|]; [|apply IH; lia].
    destruct (Z.of_nat (length bs) <? msg_len); [done|].
    apply IH; cbn [plen]; lia.
Qed.

(** Reading back a 16-bit value. *)
Lemma fromwire_int_2_be (v : Z) (rest : list byte) (remaining : Z) :
  0 <= v < 65536 -> 2 <= remaining ->
  fromwire_int 2 {| cursor := Some (be_bytes 2 v ++ rest); plen := remaining |}
  = Some ({| cursor := Some rest; plen := remaining - 2 |}, v).
Proof.
  intros Hv Hrem. unfold fromwire_int, fromwire. cbn [cursor plen].
  destruct (Z.ltb_spec remaining (Z.of_nat 2)) as [|_]; [lia|].
  rewrite length_app, length_be_bytes.
  destruct (Z.ltb_spec (Z.of_nat (2 + length rest)) (Z.of_nat 2)) as [|_]; [lia|].
  change (Z.of_nat 2 <? 0) with false. cbn [orb mbind option_bind].
  change (Z.to_nat (Z.of_nat 2)) with 2%nat.
  rewrite (take_app_length' (be_bytes 2 v)) by (symmetry; apply length_be_bytes).
  rewrite (drop_app_length' (be_bytes 2 v)) by (symmetry; apply length_be_bytes).
  cbn beta iota. rewrite be_value_be_bytes_2, (Z.mod_small v) by lia.
  do 3 f_equal.
Qed.

(** One turn of the loop on a tag that matches no record: the entry is
    skipped, cursor and remaining length move by the four bytes of tag
    and length and by exactly the declared length, and the loop goes on
    with what follows. *)
Lemma tlv_loop_skips_unknown (U : c_unit) (tlv_name : string)
    (messages : list Message.t) (fuel : nat) (tag len : Z)
    (payload rest : list byte) (remaining : Z) :
  0 <= tag < 65536 -> 0 <= len < 65536 ->
  (forall m, m ∈ messages -> enum_value_of U (enum_name (Message.enum m)) ≠ tag) ->
  Z.of_nat (length payload) = len ->
  4 + len <= remaining ->
  tlv_loop U (S fuel) tlv_name messages
    {| cursor := Some (be_bytes 2 tag ++ be_bytes 2 len ++ payload ++ rest);
       plen := remaining |}
  = tlv_loop U fuel tlv_name messages
      {| cursor := Some rest; plen := remaining - 4 - len |}.
Proof.
  intros Htag Hlen Hunknown Hpayload Hrem.
  cbn [tlv_loop is_null cursor plen orb].
  destruct (Z.eqb_spec remaining 0) as [|_]; [lia|].
  rewrite fromwire_int_2_be by lia. cbn [mbind option_bind].
  rewrite fromwire_int_2_be by lia. cbn [mbind option_bind plen cursor].
  destruct (Z.ltb_spec (remaining - 2 - 2) len) as [|_]; [lia|].
  assert (list_find (fun m => enum_value_of U (enum_name (Message.enum m)) = tag)
            messages = None) as ->.
  { apply list_find_None, Forall_forall. intros m Hm. by apply Hunknown. }
  rewrite length_app.
  destruct (Z.ltb_spec (Z.of_nat (length payload + length rest)) len) as [|_]; [lia|].
  rewrite (drop_app_length' payload) by lia.
  do 2 f_equal. lia.
Qed.

(** C7, on a container with a known record before the unknown one: the
    container [ext] knows the records [r1] (tag 1) and [r2] (tag 2).
    Decoding the entry of [r1] (eight bytes ff), then an entry of the
    unknown tag 3 and length 5, then the entry of [r2]: after [r1] was
    handed to its decoder the cursor stays on its payload, the next turn
    reads tag ffff and length ffff there, and the decoder fails: it never
    returns true, the unknown entry is never reached, and [r2] is never
    decoded.  Decoding the unknown entry followed by the entry of [r2]:
    the unknown entry is skipped and [r2] is handed to its decoder, but
    the next turn reads its payload as an entry and the decoder fails. *)
Theorem C7_known_record_is_not_skipped (U : c_unit) :
  exists sh r1 r2,
    parse_tlv_file false
      (files [("wire/gen_ext_csv",
               [line "r1,1"; line "r1,0,v,u64"; line "r2,2"; line "r2,0,v,u32"])])
      1 "ext" empty_shared = Ok (sh, ([], [r1; r2], [])) /\
    run_tlv_fromwire (with_enums [r1; r2] U) "ext" [r1; r2]
      (Some ([x00; x01; x00; x08; xff; xff; xff; xff; xff; xff; xff; xff]
             ++ [x00; x03; x00; x05; x01; x02; x03; x04; x05]
             ++ [x00; x02; x00; x04; x09; x09; x09; x09])) 29
    = (if tal_count_ref U =? 29 then
         match record_fromwire U "ext" "r1"
                 (Some ([xff; xff; xff; xff; xff; xff; xff; xff]
                        ++ [x00; x03; x00; x05; x01; x02; x03; x04; x05]
                        ++ [x00; x02; x00; x04; x09; x09; x09; x09])) 8 with
         | Some _ =>
             Some (false,
                   [("r1",
                     Some ([xff; xff; xff; xff; xff; xff; xff; xff]
                           ++ [x00; x03; x00; x05; x01; x02; x03; x04; x05]
                           ++ [x00; x02; x00; x04; x09; x09; x09; x09]), 8)])
         | None => None
         end
       else Some (false, [])) /\
    run_tlv_fromwire (with_enums [r1; r2] U) "ext" [r1; r2]
      (Some ([x00; x03; x00; x05; x01; x02; x03; x04; x05]
             ++ [x00; x02; x00; x04; x09; x09; x09; x09])) 17
    = (if tal_count_ref U =? 17 then
         match record_fromwire U "ext" "r2" (Some [x09; x09; x09; x09]) 4 with
         | Some _ => Some (false, [("r2", Some [x09; x09; x09; x09], 4)])
         | None => None
         end
       else Some (false, [])).
Proof.
  do 3 eexists. split; [vm_compute; reflexivity|].
  destruct U as [ev sp ss tal tw fw rf].
  unfold run_tlv_fromwire, with_enums. cbn [tal_count_ref record_fromwire].
  split.
  - destruct (Z.eqb_spec tal 29) as [->|]; [|reflexivity].
    vm_compute. by destruct (rf _ _ _ _) as [[]|].
  - destruct (Z.eqb_spec tal 17) as [->|]; [|reflexivity].
    vm_compute. by destruct (rf _ _ _ _) as [[]|].
Qed.

(** ** Messages with a TLV field *)

Lemma fromwire_int_short (w : nat) (c : cur) :
  plen c < Z.of_nat w -> fromwire_int w c = Some (fromwire_fail, 0).
Proof.
  intros H. unfold fromwire_int, fromwire.
  destruct (Z.ltb_spec (plen c) (Z.of_nat w)); [|lia].
  by rewrite orb_true_r.
Qed.

Lemma fromwire_int_outside (w : nat) (bs : list byte) (remaining : Z) :
  Z.of_nat w <= remaining -> (length bs < w)%nat ->
  fromwire_int w {| cursor := Some bs; plen := remaining |} = None.
Proof.
  intros H Hbs. unfold fromwire_int, fromwire. cbn [cursor plen].
  destruct (Z.ltb_spec (Z.of_nat w) 0); [lia|].
  destruct (Z.ltb_spec remaining (Z.of_nat w)); [lia|].
  destruct (Z.ltb_spec (Z.of_nat (length bs)) (Z.of_nat w)); [|lia].
  reflexivity.
Qed.

(** With nothing left to read, a container decoder that is told a
    positive length fails, or reads outside the buffer. *)
Lemma run_tlv_fromwire_nothing_left (U : c_unit) (tlv_name : string)
    (messages : list Message.t) (len : Z) :
  0 < len ->
  (forall m, m ∈ messages -> enum_value_of U (enum_name (Message.enum m)) ≠ 0) ->
  run_tlv_fromwire U tlv_name messages (Some []) len = None \/
  run_tlv_fromwire U tlv_name messages (Some []) len = Some (false, []).
Proof.
  intros Hlen Hno. unfold run_tlv_fromwire.
  destruct (Z.eqb_spec (tal_count_ref U) len) as [->|]; [|by right].
  cbn [negb tlv_loop is_null cursor plen orb].
  destruct (Z.eqb_spec len 0) as [|_]; [lia|].
  destruct (Z.le_gt_cases 2 len) as [Hbig|Hsmall].
  - left. by rewrite fromwire_int_outside by (cbn; lia).
  - right. rewrite fromwire_int_short by (cbn; lia). cbn [mbind option_bind].
    rewrite fromwire_int_short by (cbn; lia). cbn [mbind option_bind].
    assert (list_find (fun m => enum_value_of U (enum_name (Message.enum m)) = 0)
              messages = None) as ->.
    { apply list_find_None, Forall_forall. intros m Hm. by apply Hno. }
    assert (len = 1) as -> by lia. reflexivity.
Qed.

(** C8, on a message with a TLV field: the message [m] has the length
    field [len] and the TLV field [ext], whose container knows one record
    [r]; the instance has no record present.  The encoder sets [len] to
    [sizeof] of the pointer [ext], so it writes the type, then that
    nonzero length, then nothing; the decoder reads the type and the
    length and calls the container decoder with no byte left and a
    positive length, which returns false or reads outside the buffer:
    decoding the encoding does not succeed. *)
Theorem C8_tlv_message_round_trip_fails (U : c_unit) :
  0 < sizeof_ptr U < 65536 ->
  exists m r sh,
    read_csv false (files [("wire/gen_ext_csv", [line "r,1"; line "r,0,v,u32"])]) 1
      [line "m,1"; line "m,0,len,u16"; line "m,2,ext+,len*u8"]
    = Ok ({| includes := []; messages := [m]; comments := [];
             prevfield := Some "len" |}, sh) /\
    tlv_fields sh = [("ext", [r])] /\
    run_towire (with_enums [m; r] U) (tlv_fields sh) m
      {[ "ext" := VRec [("r", VNull)] ]}
    = Some ([x00; x01] ++ be_bytes 2 (sizeof_ptr U)) /\
    (run_fromwire (with_enums [m; r] U) (tlv_fields sh) m
       ([x00; x01] ++ be_bytes 2 (sizeof_ptr U)) = None \/
     run_fromwire (with_enums [m; r] U) (tlv_fields sh) m
       ([x00; x01] ++ be_bytes 2 (sizeof_ptr U)) = Some (false, ∅)).
Proof.
  intros Hptr. do 3 eexists.
  split; [vm_compute; reflexivity|].
  split; [reflexivity|].
  set (m := Message.mk "m" _ _ _ _ _).
  set (r := Message.mk "r" _ _ _ _ _).
  cbn [tlv_fields].
  split.
  - unfold run_towire.
    destruct (Message.towire_subcalls m) as [subcalls|e] eqn:E;
      vm_compute in E; [|discriminate E].
    injection E as <-. cbn [CCode.stmts].
    assert (Message.towire_decls m = [Local_sizeof "u16" "len" "ext"]) as ->
      by (vm_compute; reflexivity).
    cbn [foldM exec_decl mbind option_bind].
    unfold with_enums at 1. cbn [sizeof_ptr].
    unfold convert. cbn [int_width String.eqb Ascii.eqb Bool.eqb].
    change (256 ^ Z.of_nat 2) with 65536. rewrite (Z.mod_small (sizeof_ptr U)) by lia.
    cbn [mbind option_bind foldM exec_towire eval_expr].
    rewrite lookup_insert_eq. cbn [mbind option_bind].
    unfold towire_value at 1. cbn [int_width String.eqb Ascii.eqb Bool.eqb].
    cbn [mbind option_bind].
    rewrite lookup_insert_ne by done. rewrite lookup_singleton_eq.
    cbn [mbind option_bind].
    assert (list_find (fun kv : string * list Message.t => kv.1 = "ext")
              [("ext", [r])] = Some (0%nat, ("ext", [r]))) as -> by reflexivity.
    cbn [fmap option_fmap option_map mbind option_bind snd].
    assert (run_tlv_towire (with_enums [m; r] U) [r] (VRec [("r", VNull)]) = Some [])
      as -> by reflexivity.
    cbn [mbind option_bind].
    change (enum_value_of (with_enums [m; r] U) (enum_name (Message.enum m))) with 1.
    rewrite app_nil_r. reflexivity.
  - unfold run_fromwire.
    destruct (Message.fromwire_subcalls m) as [subcalls|e] eqn:E;
      vm_compute in E; [|discriminate E].
    injection E as <-. cbn [CCode.stmts].
    change [x00; x01] with (be_bytes 2 1).
    rewrite length_app, !length_be_bytes.
    rewrite (fromwire_int_2_be 1) by lia.
    cbn [mbind option_bind].
    change (enum_value_of (with_enums [m; r] U) (enum_name (Message.enum m))) with 1.
    change (negb (1 =? 1)) with false.
    cbn [exec_fromwires exec_fromwire].
    unfold fromwire_value. cbn [int_width String.eqb Ascii.eqb Bool.eqb].
    rewrite <- (app_nil_r (be_bytes 2 (sizeof_ptr U))).
    rewrite fromwire_int_2_be by (cbn; lia).
    cbn [mbind option_bind store eval_count].
    rewrite lookup_insert_eq.
    assert (list_find (fun kv : string * list Message.t => kv.1 = "ext")
              [("ext", [r])] = Some (0%nat, ("ext", [r]))) as -> by reflexivity.
    cbn [fmap option_fmap option_map mbind option_bind snd cursor].
    destruct (run_tlv_fromwire_nothing_left (with_enums [m; r] U) "ext" [r]
                (sizeof_ptr U)) as [-> | ->]; [lia | | by left | by right].
    intros m' ->%list_elem_of_singleton. vm_compute. discriminate.
Qed.

(** On a machine with pointers of 8 bytes. *)
Lemma C8_tlv_message_round_trip_fails_witness :
  exists m r sh,
    read_csv false (files [("wire/gen_ext_csv", [line "r,1"; line "r,0,v,u32"])]) 1
      [line "m,1"; line "m,0,len,u16"; line "m,2,ext+,len*u8"]
    = Ok ({| includes := []; messages := [m]; comments := [];
             prevfield := Some "len" |}, sh) /\
    tlv_fields sh = [("ext", [r])] /\
    run_towire (with_enums [m; r] (example_unit 8)) (tlv_fields sh) m
      {[ "ext" := VRec [("r", VNull)] ]}
    = Some ([x00; x01] ++ be_bytes 2 (sizeof_ptr (example_unit 8))) /\
    (run_fromwire (with_enums [m; r] (example_unit 8)) (tlv_fields sh) m
       ([x00; x01] ++ be_bytes 2 (sizeof_ptr (example_unit 8))) = None \/
     run_fromwire (with_enums [m; r] (example_unit 8)) (tlv_fields sh) m
       ([x00; x01] ++ be_bytes 2 (sizeof_ptr (example_unit 8))) = Some (false, ∅)).
Proof.
  apply (C8_tlv_message_round_trip_fails (example_unit 8)).
  split; reflexivity.
Defined.

(** ** The [ping] scenario *)

(** In bolt mode [ping] has a 2-byte [num_pong_bytes], the 2-byte length
    [byteslen] and the bytes [ignored] counted by it. *)
Example ping_fields :
  lenvars (read_csv true (files []) 0
             [line "ping,18"; line "ping,0,num_pong_bytes,2";
              line "ping,2,byteslen,2"; line "ping,4,ignored,byteslen"])
  = Some [[("num_pong_bytes", None); ("byteslen", None);
           ("ignored", Some "byteslen")]].
Proof. vm_compute. reflexivity. Qed.

(** Its encoder writes the type and [00 00 00 00] for an empty [ignored];
    its decoder recovers the values, tolerates trailing bytes, and fails
    on the first three bytes alone. *)
Example ping_round_trip :
  exists ping sh,
    read_csv true (files []) 0
      [line "ping,18"; line "ping,0,num_pong_bytes,2";
       line "ping,2,byteslen,2"; line "ping,4,ignored,byteslen"]
    = Ok ({| includes := []; messages := [ping]; comments := [];
             prevfield := Some "byteslen" |}, sh) /\
    run_towire (with_enums [ping] (example_unit 0)) [] ping
      {[ "num_pong_bytes" := VInt 0; "ignored" := VNull ]}
    = Some [x00; x12; x00; x00; x00; x00] /\
    run_fromwire (with_enums [ping] (example_unit 0)) [] ping
      [x00; x12; x00; x00; x00; x00]
    = Some (true, {[ "num_pong_bytes" := VInt 0; "byteslen" := VInt 0;
                     "ignored" := VNull ]}) /\
    run_fromwire (with_enums [ping] (example_unit 0)) [] ping
      [x00; x12; x00; x00; x00; x00; x2a]
    = Some (true, {[ "num_pong_bytes" := VInt 0; "byteslen" := VInt 0;
                     "ignored" := VNull ]}) /\
    fst <$> run_fromwire (with_enums [ping] (example_unit 0)) [] ping
              [x00; x12; x00]
    = Some false.
Proof.
  do 2 eexists. split; [vm_compute; reflexivity|].
  repeat split; vm_compute; reflexivity.
Qed.

(** With three bytes in [ignored] the length field is recomputed as 3. *)
Example ping_length_recomputed :
  exists ping sh,
    read_csv true (files []) 0
      [line "ping,18"; line "ping,0,num_pong_bytes,2";
       line "ping,2,byteslen,2"; line "ping,4,ignored,byteslen"]
    = Ok ({| includes := []; messages := [ping]; comments := [];
             prevfield := Some "byteslen" |}, sh) /\
    run_towire (with_enums [ping] (example_unit 0)) [] ping
      {[ "num_pong_bytes" := VInt 258; "ignored" := VArr [VInt 7; VInt 8; VInt 9] ]}
    = Some [x00; x12; x01; x02; x00; x03; x07; x08; x09] /\
    run_fromwire (with_enums [ping] (example_unit 0)) [] ping
      [x00; x12; x01; x02; x00; x03; x07; x08; x09]
    = Some (true, {[ "num_pong_bytes" := VInt 258; "byteslen" := VInt 3;
                     "ignored" := VArr [VInt 7; VInt 8; VInt 9] ]}).
Proof.
  do 2 eexists. split; [vm_compute; reflexivity|].
  repeat split; vm_compute; reflexivity.
Qed.

(** * Further properties of the generator *)

(** ** The field constructor *)

Lemma bind_Err {A B} (r : result A) (k : A -> result B) (e : exn) :
  r ≫= k = Err e <-> r = Err e \/ exists a, r = Ok a /\ k a = Err e.
Proof.
  destruct r as [a|e']; simpl.
  - split; [intros H; right; by exists a | by intros [[=] | (a' & [= ->] & H)]].
  - split; [intros [= ->]; by left | by intros [[= ->] | (a' & [=] & _)]].
Qed.

Lemma parse_size_Err (bolt : bool) (size : string) (prevname : option string)
    (e : exn) :
  Field.parse_size bolt size prevname = Err e ->
  e = ValueError Invalid_literal /\
  Py.startswith size "?" = false /\ Py.has_char "*" size = true /\
  prevname ≠ Some (default "" (Py.split "*" size !! 0%nat)) /\
  Py.int (default "" (Py.split "*" size !! 0%nat)) = None.
Proof.
  unfold Field.parse_size.
  destruct (Py.startswith size "?"); [discriminate 1|].
  destruct (Py.has_char "*" size).
  - case_bool_decide as Hprev; [discriminate 1|].
    destruct (Py.int _) eqn:Hint; [discriminate 1|].
    by intros [= <-].
  - destruct (bolt && _); discriminate 1.
Qed.

Lemma guess_type_Err (message fieldname : string) (base_size : Z) (e : exn) :
  _guess_type message fieldname base_size = Err e -> e = ValueError Unknown_size.
Proof.
  unfold _guess_type, guess_type_in.
  destruct (typemap !! (message, fieldname)); [discriminate 1|].
  destruct (first_partial partialtypemap fieldname); [discriminate 1|].
  destruct (sizetypemap !! base_size); [discriminate 1|].
  by intros [= <-].
Qed.

Lemma truediv_int_Err (a b : Z) (e : exn) :
  Py.truediv_int a b = Err e ->
  (b = 0 /\ e = ZeroDivisionError) \/ e = OverflowError.
Proof.
  unfold Py.truediv_int.
  destruct (Z.eqb_spec b 0) as [->|Hb]; [intros [= <-]; by left|].
  destruct (a =? 0); [discriminate 1|].
  cbv zeta. destruct (2 ^ 1024 <=? _); [|discriminate 1].
  intros [= <-]. by right.
Qed.

(** The exceptions of the body of [Field.__init__], after the tlv file
    was loaded. *)
Lemma init_body_Err (bolt : bool) (message name : string)
    (is_tlv : bool) (size : string) (comments : list string)
    (prevname : option string) (e : exn) :
  Field.init_body bolt message name is_tlv size comments prevname = Err e ->
  e = ValueError Invalid_literal \/
  bolt = true /\ (e = ValueError Unknown_size \/ e = ValueError Invalid_size \/
                  e = OverflowError).
Proof.
  unfold Field.init_body. intros H.
  apply bind_Err in H as [H | ([[[optional lenvar] n] size'] & Hparse & H)].
  { apply parse_size_Err in H as [-> H]. by left. }
  destruct bolt; [|discriminate H].
  apply bind_Err in H as [H | (base_size & Hint & H)].
  { destruct (Py.int size'); [discriminate H|]. injection H as <-. by left. }
  apply bind_Err in H as [H | (fieldtype & Hguess & H)].
  { apply guess_type_Err in H as ->. right. auto. }
  pose proof (guessed_type_has_width _ _ _ _ Hguess) as Hw. unfold has_width in Hw.
  apply bind_Err in H as [H | (tsize & Hsize & H)].
  { rewrite H in Hw. discriminate Hw. }
  rewrite Hsize in Hw. apply Z.ltb_lt in Hw.
  destruct (Z.eqb_spec tsize 0) as [|_]; [lia|].
  destruct (negb _); [injection H as <-; right; auto|].
  apply bind_Err in H as [H | (num_elems & _ & H)]; [|discriminate H].
  apply truediv_int_Err in H as [[-> _] | ->]; [lia|]. right. auto.
Qed.

(** Outside bolt mode the body fails exactly on an array count that is
    neither the remembered field name nor a number. *)
Lemma init_body_fails_outside_bolt (message name : string) (is_tlv : bool)
    (size : string) (comments : list string) (prevname : option string) :
  is_ok (Field.init_body false message name is_tlv size comments prevname) = false
  <-> Py.startswith size "?" = false /\ Py.has_char "*" size = true /\
      prevname ≠ Some (default "" (Py.split "*" size !! 0%nat)) /\
      Py.int (default "" (Py.split "*" size !! 0%nat)) = None.
Proof.
  unfold Field.init_body, Field.parse_size.
  destruct (Py.startswith size "?"); [cbn; split; [done | by intros [? _]]|].
  destruct (Py.has_char "*" size); cycle 1.
  { cbn. split; [done | by intros (_ & ? & _)]. }
  case_bool_decide as Hprev.
  { cbn. split; [done | by intros (_ & _ & ? & _)]. }
  destruct (Py.int _) as [n|]; cbn.
  - split; [done | by intros (_ & _ & _ & ?)].
  - split; [done | by intros _].
Qed.

(** The exceptions of [Field.__init__].  When the field names a TLV
    container ([name+]) that is not loaded yet, the tlv file is loaded
    first, and whatever that raises is raised.  Every other failure is
    one of: an array count or a byte size that is not a number, and in
    bolt mode a size no table knows, a size that is not a multiple of the
    width of the inferred type, and a quotient beyond the floats.  Every
    type the tables infer has a known width that is not zero, so the
    width lookup and the division by the width never fail.  Outside bolt
    mode, when no load fails, the constructor fails exactly when the size
    is an array size whose count is neither the remembered field name nor
    a number. *)
Theorem Field_init_exceptions (bolt : bool)
    (load : string -> shared -> result (shared * list Message.t))
    (message name size : string) (comments : list string)
    (prevname : option string) (sh : shared) :
  (forall e,
     Field_init bolt load message name size comments prevname sh = Err e ->
     (Py.endswith name "+" = true /\
      dict_has (tlv_fields sh) (Py.drop_last name) = false /\
      load (Py.drop_last name) sh = Err e) \/
     e = ValueError Invalid_literal \/
     bolt = true /\ (e = ValueError Unknown_size \/ e = ValueError Invalid_size \/
                     e = OverflowError)) /\
  (forall e,
     Py.endswith name "+" = true ->
     dict_has (tlv_fields sh) (Py.drop_last name) = false ->
     load (Py.drop_last name) sh = Err e ->
     Field_init bolt load message name size comments prevname sh = Err e) /\
  (bolt = false ->
   (Py.endswith name "+" = true ->
    dict_has (tlv_fields sh) (Py.drop_last name) = false ->
    is_ok (load (Py.drop_last name) sh) = true) ->
   (is_ok (Field_init bolt load message name size comments prevname sh) = false
    <-> Py.startswith size "?" = false /\ Py.has_char "*" size = true /\
        prevname ≠ Some (default "" (Py.split "*" size !! 0%nat)) /\
        Py.int (default "" (Py.split "*" size !! 0%nat)) = None)).
Proof.
  assert (Hbody : forall nm tlv (sh' : shared),
    is_ok (f ← Field.init_body false message nm tlv size comments prevname;
           Ok (sh', f)) = false
    <-> Py.startswith size "?" = false /\ Py.has_char "*" size = true /\
        prevname ≠ Some (default "" (Py.split "*" size !! 0%nat)) /\
        Py.int (default "" (Py.split "*" size !! 0%nat)) = None).
  { intros nm tlv sh'.
    rewrite <- (init_body_fails_outside_bolt message nm tlv size comments prevname).
    destruct (Field.init_body false message nm tlv size comments prevname);
      reflexivity. }
  unfold Field_init, Field.tlv_name.
  destruct (Py.endswith name "+") eqn:Hplus; cbn [andb].
  - destruct (dict_has (tlv_fields sh) (Py.drop_last name)) eqn:Hhas; cbn [negb].
    + split; [|split].
      * intros e H. cbn [mbind result_bind] in H.
        apply bind_Err in H as [H | (f & _ & H)]; [|discriminate H].
        right. by eapply init_body_Err.
      * intros e _ [=].
      * intros -> _. cbn [mbind result_bind].
        apply Hbody.
    + destruct (load (Py.drop_last name) sh) as [[sh1 tlv_messages]|e0] eqn:Hload.
      * split; [|split].
        -- intros e H. cbn [mbind result_bind] in H.
           apply bind_Err in H as [H | (f & _ & H)]; [|discriminate H].
           right. by eapply init_body_Err.
        -- intros e _ _ [=].
        -- intros -> _. cbn [mbind result_bind].
           apply Hbody.
      * split; [|split].
        -- intros e [= <-]. by left.
        -- by intros e _ _ [= <-].
        -- intros _ Hok. by specialize (Hok eq_refl eq_refl).
  - split; [|split].
    + intros e H. cbn [mbind result_bind] in H.
      apply bind_Err in H as [H | (f & _ & H)]; [|discriminate H].
      right. by eapply init_body_Err.
    + intros e [=].
    + intros -> _. cbn [mbind result_bind].
      apply Hbody.
Qed.

(** Outside bolt mode, with no container to load: the count [x] of
    [x*u8] after the field [len] is no number, so the constructor
    fails; and the container of [ext+] whose file cannot be opened makes
    the constructor fail with that error. *)
Lemma Field_init_exceptions_witness :
  is_ok (Field_init false (fun _ _ => Err (FileNotFoundError "wire/gen_ext_csv")) "ping" "data" "x*u8" []
           (Some "len") empty_shared) = false /\
  Field_init false (fun _ _ => Err (FileNotFoundError "wire/gen_ext_csv")) "ping" "ext+" "len*u8" []
    (Some "len") empty_shared = Err (FileNotFoundError "wire/gen_ext_csv").
Proof.
  pose proof (Field_init_exceptions false (fun _ _ => Err (FileNotFoundError "wire/gen_ext_csv"))
                "ping" "data" "x*u8" [] (Some "len") empty_shared)
    as (_ & _ & Hexact).
  pose proof (Field_init_exceptions false (fun _ _ => Err (FileNotFoundError "wire/gen_ext_csv"))
                "ping" "ext+" "len*u8" [] (Some "len") empty_shared)
    as (_ & Hload & _).
  split.
  - apply (Hexact eq_refl); [discriminate 1|].
    split; [reflexivity|]. split; [reflexivity|]. split; [discriminate 1 | reflexivity].
  - apply Hload; reflexivity.
Defined.

(** Outside bolt mode a literal array count of 1, 0 or below is accepted
    and gives a field that is not an array (padding apart): the count is
    kept, but the decoder takes a pointer to one object (or the tlv
    struct), the encoder one value or pointer, and the struct of a TLV
    record declares one member. *)
Theorem array_count_at_most_one (message name : string) (is_tlv : bool)
    (count ty : string) (comments : list string) (prevname : option string)
    (n : Z) :
  Py.startswith (count +:+ "*" +:+ ty) "?" = false ->
  Py.has_char "*" count = false -> Py.has_char "*" ty = false ->
  prevname ≠ Some count ->
  Py.int count = Some n -> n <= 1 ->
  Py.startswith name "pad" = false ->
  exists f,
    Field.init_body false message name is_tlv (count +:+ "*" +:+ ty) comments prevname
    = Ok f /\
    Field.num_elems f = n /\
    Field.is_array f = false /\
    Message.fromwire_arg f =
      (if is_tlv then [Arg_tlv false name]
       else [Arg_ptr false ty
               (if in_list (FieldType.base (FieldType ty)) varlen_structs
                then 2 else 1) name]) /\
    Message.towire_arg f =
      (if is_tlv then [Arg_tlv true name]
       else if FieldType.is_assignable (FieldType ty) then [Arg_value ty name]
       else [Arg_ptr true ty 1 name]) /\
    Message.struct_member f = [Member ty name].
Proof.
  intros Hq Hcount Hty Hprev Hint Hn Hpad.
  pose proof (parse_size_array false count ty prevname Hq Hcount Hty) as Hparse.
  rewrite (bool_decide_eq_false_2 _ Hprev), Hint in Hparse.
  eexists. split.
  { apply init_body_Ok. exists false, None, n, ty. split; [exact Hparse | reflexivity]. }
  assert (Harr : Field.is_array
            (Field.mk message comments name false None n false is_tlv (FieldType ty) None)
          = false).
  { unfold Field.is_array, Field.is_padding. cbn [Field.num_elems Field.name].
    rewrite Hpad, orb_false_r. apply Z.ltb_ge. exact Hn. }
  split; [reflexivity|]. split; [exact Harr|].
  unfold Message.fromwire_arg, Message.towire_arg, Message.struct_member,
    Field.is_assignable, Field.needs_ptr_to_ptr, Field.is_variable_size.
  rewrite Harr. unfold Field.is_padding.
  cbn [Field.is_len_var Field.name Field.is_tlv Field.lenvar Field.optional
       Field.fieldtype Field.num_elems FieldType.name orb andb].
  rewrite Hpad. rewrite bool_decide_eq_false_2 by (intros H; by apply H).
  cbn [orb andb]. split; [|split].
  - destruct is_tlv; [reflexivity|]. by destruct (in_list _ varlen_structs).
  - destruct is_tlv; [reflexivity|]. by destruct (FieldType.is_assignable _).
  - reflexivity.
Qed.

(** [0*u32] declares a scalar. *)
Lemma array_count_at_most_one_witness :
  exists f,
    Field.init_body false "m" "v" false "0*u32" [] (Some "len") = Ok f /\
    Field.is_array f = false /\
    Message.towire_arg f = [Arg_value "u32" "v"].
Proof.
  destruct (array_count_at_most_one "m" "v" false "0" "u32" [] (Some "len") 0)
    as (f & Hf & _ & Harr & _ & Hto & _); try reflexivity; [discriminate 1 | lia |].
  exists f. repeat split; assumption.
Defined.

(** ** Adding a field *)

(** What a successful [checkLenField] loop has found and done. *)
Lemma check_fields_Ok (bolt : bool) (field : Field.t) (fs fs' : list Field.t) :
  Message.check_fields bolt field fs = Ok fs' ->
  exists before g after,
    fs = before ++ g :: after /\
    (forall h, h ∈ before -> Some (Field.name h) ≠ Field.lenvar field) /\
    Some (Field.name g) = Field.lenvar field /\
    (bolt = true -> FieldType.name (Field.fieldtype g) = "u16") /\
    Field.is_array g = false /\ Field.needs_ptr_to_ptr g = false /\
    fs' = before ++ Field.mark_len_var g field :: after.
Proof.
  revert fs'. induction fs as [|f fs IH]; intros fs'; cbn [Message.check_fields].
  { discriminate 1. }
  case_bool_decide as Hname.
  - destruct (String.eqb_spec (FieldType.name (Field.fieldtype f)) "u16") as [Hty|Hty];
      cbn [negb andb].
    + destruct (Field.is_array f) eqn:Harr; [discriminate 1|].
      destruct (Field.needs_ptr_to_ptr f) eqn:Hptr; [discriminate 1|].
      intros [= <-]. exists [], f, fs. repeat split; try done.
      intros h Hh. by apply elem_of_nil in Hh.
    + destruct bolt; [discriminate 1|].
      destruct (Field.is_array f) eqn:Harr; [discriminate 1|].
      destruct (Field.needs_ptr_to_ptr f) eqn:Hptr; [discriminate 1|].
      intros [= <-]. exists [], f, fs. repeat split; try done.
      intros h Hh. by apply elem_of_nil in Hh.
  - intros H. apply bind_Ok in H as (fs'' & Hrec & [= <-]).
    destruct (IH _ Hrec) as (before & g & after & -> & Hbefore & Hg & Hty & Harr & Hptr & ->).
    exists (f :: before), g, after. repeat split; try done.
    intros h [->|Hh]%elem_of_cons; [done | by apply Hbefore].
Qed.

(** [addField] on success, as the invariants of the reading loop use
    it: every earlier field is kept or marked. *)
Lemma addField_kept (bolt : bool) (self self' : Message.t) (field : Field.t) :
  Message.addField bolt self field = Ok self' ->
  Message.name self' = Message.name self /\
  Message.enum self' = Message.enum self /\
  Message.comments self' = Message.comments self /\
  Message.is_tlv self' = Message.is_tlv self /\
  (exists fs, Message.fields self' = fs ++ [field] /\
              Forall2 (kept_or_marked field) (Message.fields self) fs) /\
  Field.name <$> Message.fields self'
    = (Field.name <$> Message.fields self) ++ [Field.name field] /\
  Message.has_variable_fields self'
    = Message.has_variable_fields self || needs_context field.
Proof.
  unfold Message.addField. intros H. apply bind_Ok in H as (m & Hm & [= <-]).
  cbn [Message.name Message.enum Message.comments Message.is_tlv Message.fields
       Message.has_variable_fields Message.set_fields].
  assert (Hkept : forall fs : list Field.t, Forall2 (kept_or_marked field) fs fs).
  { intros fs. apply Forall_Forall2_diag, Forall_forall. intros g _. by left. }
  assert (Hframe :
    Message.name m = Message.name self /\ Message.enum m = Message.enum self /\
    Message.comments m = Message.comments self /\
    Message.is_tlv m = Message.is_tlv self /\
    Forall2 (kept_or_marked field) (Message.fields self) (Message.fields m) /\
    Message.has_variable_fields m
      = Message.has_variable_fields self || needs_context field).
  { unfold needs_context. destruct (Field.is_variable_size field) eqn:Hvar.
    - apply bind_Ok in Hm as (m1 & Hcheck & [= <-]).
      cbn. rewrite orb_true_r. repeat split; try reflexivity.
      all: unfold Message.checkLenField in Hcheck;
        destruct (Field.optional field);
        [ injection Hcheck as <-; try reflexivity; apply Hkept
        | apply bind_Ok in Hcheck as (fs & Hfs & [= <-]); try reflexivity ].
      apply check_fields_Ok in Hfs
        as (before & g & after & -> & _ & _ & _ & _ & _ & ->).
      apply Forall2_app; [apply Hkept|].
      constructor; [by right | apply Hkept].
    - cbn [orb]. destruct (in_list _ varlen_structs || Field.optional field) eqn:Hctx;
        injection Hm as <-; cbn; rewrite ?orb_true_r, ?orb_false_r;
        repeat split; try reflexivity; apply Hkept. }
  destruct Hframe as (Hn & He & Hc & Ht & Hfs & Hv).
  repeat split; try assumption.
  - by exists (Message.fields m).
  - rewrite fmap_app. f_equal.
    clear -Hfs. induction Hfs as [|g g' fs fs' [->| ->] _ IH]; cbn; by f_equal.
Qed.




(** ** The variants of a message *)

Lemma find_message_Some (messages : list Message.t) (name : string) (i : nat)
    (m : Message.t) :
  find_message messages name = Some (i, m) <->
  messages !! i = Some m /\ Message.name m = name /\
  forall j h, messages !! j = Some h -> (j < i)%nat -> Message.name h ≠ name.
Proof.
  unfold find_message.
  exact (list_find_Some (fun m => Message.name m = name) messages i m).
Qed.

Lemma find_message_None (messages : list Message.t) (name : string) :
  find_message messages name = None <->
  forall m, m ∈ messages -> Message.name m ≠ name.
Proof.
  unfold find_message. rewrite list_find_None, Forall_forall. reflexivity.
Qed.

(** What a successful [find_message_with_option] has done. *)
Lemma find_message_with_option_Ok (messages optional_messages opts : list Message.t)
    (name option : string) (i : nat) :
  find_message_with_option messages optional_messages name option = Ok (opts, i) ->
  exists j base,
    find_message messages name = Some (j, base) /\
    ((exists m, find_message optional_messages
                  (name +:+ "_" +:+ Py.replace "-" "_" option) = Some (i, m) /\
                opts = optional_messages) \/
     (find_message optional_messages
        (name +:+ "_" +:+ Py.replace "-" "_" option) = None /\
      opts = optional_messages
             ++ [Message.set_name base (name +:+ "_" +:+ Py.replace "-" "_" option)] /\
      i = length optional_messages)).
Proof.
  unfold find_message_with_option. cbv zeta.
  destruct (find_message messages name) as [[j base]|] eqn:Hbase; [|discriminate 1].
  intros H. exists j, base. split; [reflexivity|].
  destruct (find_message optional_messages _) as [[i' m]|] eqn:Hm.
  - injection H as <- <-. left. by exists m.
  - injection H as <- <-. by right.
Qed.

(** [find_message_with_option] creates the variant of a message once: on
    success the variant is in the list under the name
    [<name>_<option>] (with [-] replaced by [_]) at the position
    returned, the variants that were there are all kept in place, at most
    one is added (a copy of the base message as it is then, renamed), and
    asking again gives the same position and adds nothing. *)
Theorem find_message_with_option_once (messages optional_messages opts : list Message.t)
    (name option : string) (i : nat) :
  find_message_with_option messages optional_messages name option = Ok (opts, i) ->
  (exists m, find_message opts (name +:+ "_" +:+ Py.replace "-" "_" option)
             = Some (i, m) /\
             (m ∈ optional_messages \/
              exists j base, find_message messages name = Some (j, base) /\
                             m = Message.set_name base (Message.name m))) /\
  (exists added, opts = optional_messages ++ added /\ (length added <= 1)%nat) /\
  find_message_with_option messages opts name option = Ok (opts, i).
Proof.
  intros H. apply find_message_with_option_Ok in H
    as (j & base & Hbase & [(m & Hm & ->) | (Hnone & -> & ->)]).
  - split; [|split].
    + exists m. split; [exact Hm|]. left.
      apply find_message_Some in Hm as (Hm & _). by eapply list_elem_of_lookup_2.
    + exists []. split; [by rewrite app_nil_r | cbn; lia].
    + unfold find_message_with_option. by rewrite Hbase, Hm.
  - set (fullname := name +:+ "_" +:+ Py.replace "-" "_" option) in *.
    assert (Hnew : find_message (optional_messages ++ [Message.set_name base fullname])
                     fullname
                   = Some (length optional_messages, Message.set_name base fullname)).
    { apply find_message_Some. split; [|split].
      - by rewrite lookup_app_r, Nat.sub_diag.
      - reflexivity.
      - intros k h Hk Hlt. rewrite lookup_app_l in Hk by exact Hlt.
        apply (proj1 (find_message_None _ _) Hnone). by eapply list_elem_of_lookup_2. }
    split; [|split].
    + eexists. split; [exact Hnew|]. right. by exists j, base.
    + eexists. split; [reflexivity | cbn; lia].
    + unfold find_message_with_option. fold fullname. by rewrite Hbase, Hnew.
Qed.

(** The first record of [channel_reestablish] with [option209]. *)
Lemma find_message_with_option_once_witness :
  let base := Message.init "channel_reestablish"
                (Build_Enumtype "WIRE_CHANNEL_REESTABLISH" "136") [] false in
  let variant := Message.set_name base "channel_reestablish_option209" in
  find_message_with_option [base] [] "channel_reestablish" "option209"
  = Ok ([variant], 0%nat) /\
  find_message_with_option [base] [variant] "channel_reestablish" "option209"
  = Ok ([variant], 0%nat).
Proof.
  intros base variant. split; [reflexivity|].
  exact (proj2 (proj2 (find_message_with_option_once [base] [] [variant]
                         "channel_reestablish" "option209" 0%nat eq_refl))).
Defined.

(** ** What every message of a run satisfies *)

Lemma dict_set_values {V} (d : list (string * V)) (k : string) (v : V) (x : V) :
  x ∈ (dict_set d k v).*2 -> x = v \/ x ∈ d.*2.
Proof.
  induction d as [|[k' v'] d IH]; cbn [dict_set].
  - intros Hx. apply list_elem_of_singleton in Hx. by left.
  - destruct (String.eqb k' k); cbn [fmap list_fmap snd];
      rewrite !elem_of_cons; intros [-> | Hx]; auto.
    destruct (IH Hx); auto.
Qed.

Section ReaderInvariant.

Variable bolt : bool.

(** A property of messages that holds of a new message, and is kept
    when a field built by [Field.__init__] is added and when a message
    is copied under another name. *)
Variable P : Message.t -> Prop.
Hypothesis P_init : forall name enum comments is_tlv,
  P (Message.init name enum comments is_tlv).
Hypothesis P_addField :
  forall m m' f message name is_tlv size comments prevname,
    P m ->
    Field.init_body bolt message name is_tlv size comments prevname = Ok f ->
    Message.addField bolt m f = Ok m' -> P m'.
Hypothesis P_set_name : forall m n, P m -> P (Message.set_name m n).

Lemma Field_init_keeps load message name size comments prevname sh sh' f :
  load_keeps P load -> all_shared P sh ->
  Field_init bolt load message name size comments prevname sh = Ok (sh', f) ->
  all_shared P sh' /\
  exists name' is_tlv,
    Field.init_body bolt message name' is_tlv size comments prevname = Ok f.
Proof.
  intros Hload Hsh. unfold Field_init.
  destruct (Field.tlv_name name) as [is_tlv name'].
  intros H. apply bind_Ok in H as (sh1 & Hsh1 & H).
  apply bind_Ok in H as (f' & Hf & [= <- <-]).
  split; [|by exists name', is_tlv].
  destruct (is_tlv && negb (dict_has (tlv_fields sh) name')); cycle 1.
  { by injection Hsh1 as <-. }
  apply bind_Ok in Hsh1 as ([sh2 ms] & Hl & [= <-]).
  destruct (Hload _ _ _ _ Hsh Hl) as [[Hopt Htlv] Hms].
  split; [exact Hopt|]. cbn [tlv_fields].
  apply Forall_forall. intros x Hx.
  apply dict_set_values in Hx as [-> | Hx]; [exact Hms|].
  by apply (proj1 (Forall_forall _ _) Htlv).
Qed.

Lemma read_field_keeps load parts rd rd' sh sh' :
  load_keeps P load -> Forall P (messages rd) -> all_shared P sh ->
  read_field bolt load parts rd sh = Ok (rd', sh') ->
  Forall P (messages rd') /\ all_shared P sh'.
Proof.
  intros Hload Hrd Hsh. unfold read_field. intros H.
  apply bind_Ok in H as ([sh1 l] & Hl & H).
  assert (Hsh1 : all_shared P sh1).
  { destruct (length parts =? 4)%nat.
    { destruct (find_message _ _) as [[i m]|]; [|discriminate Hl].
      by injection Hl as <- <-. }
    destruct (length parts =? 5)%nat; [|discriminate Hl].
    apply bind_Ok in Hl as ([opts i] & Hopt & [= <- <-]).
    destruct Hsh as [Hsh Htlv]. split; [|exact Htlv]. cbn [messages_with_option].
    apply find_message_with_option_Ok in Hopt
      as (j & base & Hbase & [(m & _ & ->) | (_ & -> & _)]); [exact Hsh|].
    apply Forall_app. split; [exact Hsh|]. apply Forall_singleton, P_set_name.
    apply find_message_Some in Hbase as (Hbase & _).
    eapply (proj1 (Forall_forall _ _) Hrd), list_elem_of_lookup_2, Hbase. }
  destruct (get_message rd sh1 l) as [m0|]; [|discriminate H].
  apply bind_Ok in H as ([sh2 f] & Hf & H).
  destruct (Field_init_keeps _ _ _ _ _ _ _ _ _ Hload Hsh1 Hf)
    as (Hsh2 & name' & is_tlv & Hinit).
  destruct (get_message rd sh2 l) as [m|] eqn:Hm; [|discriminate H].
  apply bind_Ok in H as (m' & Hadd & H).
  assert (Pm : P m).
  { destruct l as [i|i]; cbn [get_message] in Hm.
    - eapply (proj1 (Forall_forall _ _) Hrd), list_elem_of_lookup_2, Hm.
    - eapply (proj1 (Forall_forall _ _) (proj1 Hsh2)), list_elem_of_lookup_2, Hm. }
  pose proof (P_addField _ _ _ _ _ _ _ _ _ Pm Hinit Hadd) as Pm'.
  destruct l as [i|i]; cbv beta iota delta [put_message] in H;
    revert H; intros [= <- <-];
    cbn [messages].
  - split; [|exact Hsh2]. by apply Forall_insert.
  - split; [exact Hrd|]. destruct Hsh2 as [Hopt Htlv]. split; [|exact Htlv].
    cbn [messages_with_option]. by apply Forall_insert.
Qed.

Lemma read_line_keeps load prefix is_tlv line rd rd' sh sh' :
  load_keeps P load -> Forall P (messages rd) -> all_shared P sh ->
  read_line bolt load prefix is_tlv line (rd, sh) = Ok (rd', sh') ->
  Forall P (messages rd') /\ all_shared P sh'.
Proof.
  intros Hload Hrd Hsh. unfold read_line.
  destruct (Py.startswith line "#include "); [by intros [= <- <-]|].
  set (rd1 := {| includes := includes rd; messages := messages rd;
                 comments := _; prevfield := prevfield rd |}).
  assert (Hfield : forall parts,
            read_field bolt load parts rd1 sh = Ok (rd', sh') ->
            Forall P (messages rd') /\ all_shared P sh').
  { intros parts. by apply read_field_keeps. }
  destruct (Py.split "," _) as [|p0 [|p1 [|p2 parts]]] eqn:Hparts.
  - apply Hfield.
  - destruct p0 as [|c p0]; [by intros [= <- <-] | apply Hfield].
  - destruct p0 as [|c p0]; intros [= <- <-]; cbn [messages];
      (split; [|exact Hsh]);
      (apply Forall_app; split; [exact Hrd|]); apply Forall_singleton, P_init.
  - destruct p0 as [|c p0]; apply Hfield.
Qed.

Lemma read_lines_keeps load prefix is_tlv lines rd rd' sh sh' :
  load_keeps P load -> Forall P (messages rd) -> all_shared P sh ->
  read_lines bolt load prefix is_tlv lines (rd, sh) = Ok (rd', sh') ->
  Forall P (messages rd') /\ all_shared P sh'.
Proof.
  intros Hload. revert rd sh.
  induction lines as [|line lines IH]; intros rd sh Hrd Hsh; cbn [read_lines].
  { by intros [= <- <-]. }
  intros H. apply bind_Ok in H as ([rd1 sh1] & Hline & H).
  destruct (read_line_keeps _ _ _ _ _ _ _ _ Hload Hrd Hsh Hline) as [Hrd1 Hsh1].
  by apply (IH rd1 sh1).
Qed.

Lemma parse_tlv_file_keeps fs depth name sh sh' incs ms cs :
  all_shared P sh ->
  parse_tlv_file bolt fs depth name sh = Ok (sh', (incs, ms, cs)) ->
  all_shared P sh' /\ Forall P ms.
Proof.
  revert name sh sh' incs ms cs.
  induction depth as [|depth IH]; intros name sh sh' incs ms cs Hsh;
    cbn [parse_tlv_file]; [discriminate 1|].
  destruct (fs _) as [lines|]; [|discriminate 1].
  intros H. apply bind_Ok in H as ([rd sh1] & Hread & [= <- <- <- <-]).
  apply read_lines_keeps in Hread as [Hrd Hsh1]; try done.
  intros name' sh2 sh3 ms' Hsh2 Hl.
  apply bind_Ok in Hl as ([sh4 [[incs' ms''] cs']] & Hp & [= <- <-]).
  by apply (IH _ _ _ _ _ _ Hsh2 Hp).
Qed.

Lemma read_csv_keeps fs depth lines rd sh :
  read_csv bolt fs depth lines = Ok (rd, sh) ->
  Forall P (all_messages rd sh).
Proof.
  unfold read_csv. intros H.
  apply read_lines_keeps in H as [Hrd [Hopt Htlv]].
  - unfold all_messages. rewrite !Forall_app. repeat split; try done.
    apply Forall_forall. intros m Hm.
    apply list_elem_of_bind in Hm as ([k ms] & Hm & Hk).
    assert (Hms : ms ∈ (tlv_fields sh).*2).
    { apply list_elem_of_fmap. by exists (k, ms). }
    by apply (proj1 (Forall_forall _ _) (proj1 (Forall_forall _ _) Htlv _ Hms)).
  - intros name sh2 sh3 ms Hsh2 Hl. unfold load_tlv in Hl.
    apply bind_Ok in Hl as ([sh4 [[incs' ms''] cs']] & Hp & [= <- <-]).
    by apply (parse_tlv_file_keeps _ _ _ _ _ _ _ _ Hsh2 Hp).
  - constructor.
  - split; constructor.
Qed.

End ReaderInvariant.

(** ** Length variables and the context flag, in every message of a run *)

Lemma kept_or_marked_same (field g g' : Field.t) :
  kept_or_marked field g g' ->
  Field.name g' = Field.name g /\ Field.is_array g' = Field.is_array g /\
  Field.needs_ptr_to_ptr g' = Field.needs_ptr_to_ptr g /\
  Field.fieldtype g' = Field.fieldtype g /\ Field.lenvar g' = Field.lenvar g /\
  needs_context g' = needs_context g /\
  (Field.is_len_var g = true -> Field.is_len_var g' = true).
Proof. intros [-> | ->]; repeat split; done. Qed.

(** The length source [addField] has found for a length-prefixed field. *)
Lemma addField_length_source (bolt : bool) (m m' : Message.t) (f : Field.t)
    (lv : string) :
  Message.addField bolt m f = Ok m' ->
  Field.lenvar f = Some lv -> Field.optional f = false ->
  exists before g after,
    Message.fields m = before ++ g :: after /\
    (forall h, h ∈ before -> Field.name h ≠ lv) /\ Field.name g = lv /\
    (bolt = true -> FieldType.name (Field.fieldtype g) = "u16") /\
    Field.is_array g = false /\ Field.needs_ptr_to_ptr g = false /\
    Message.fields m' = (before ++ Field.mark_len_var g f :: after) ++ [f].
Proof.
  intros H Hlv Hopt. unfold Message.addField in H.
  apply bind_Ok in H as (m1 & Hm1 & [= <-]).
  unfold Field.is_variable_size in Hm1. rewrite Hlv in Hm1.
  rewrite bool_decide_eq_true_2 in Hm1 by discriminate.
  apply bind_Ok in Hm1 as (m2 & Hm2 & [= <-]).
  unfold Message.checkLenField in Hm2. rewrite Hopt in Hm2.
  apply bind_Ok in Hm2 as (fs & Hfs & [= <-]).
  apply check_fields_Ok in Hfs
    as (before & g & after & -> & Hbefore & Hg & Hty & Harr & Hptr & ->).
  rewrite Hlv in Hg. injection Hg as Hg.
  exists before, g, after. repeat split; try done.
  intros h Hh E. apply (Hbefore h Hh). by rewrite Hlv, E.
Qed.

Lemma addField_keeps_length_sources (bolt : bool) (m m' : Message.t) (f : Field.t)
    (message name : string) (is_tlv : bool) (size : string)
    (comments : list string) (prevname : option string) :
  length_sources_declared bolt m ->
  Field.init_body bolt message name is_tlv size comments prevname = Ok f ->
  Message.addField bolt m f = Ok m' ->
  length_sources_declared bolt m'.
Proof.
  intros Hm Hf Hadd.
  pose proof (addField_kept _ _ _ _ Hadd)
    as (_ & _ & _ & _ & (fs & Hfs & Hrel) & _ & _).
  pose proof (Forall2_length _ _ _ Hrel) as Hlen.
  intros i f0 lv Hi Hlv. rewrite Hfs in Hi.
  destruct (decide (i < length fs)%nat) as [Hlt|Hge].
  - rewrite lookup_app_l in Hi by exact Hlt.
    destruct (Forall2_lookup_r _ _ _ _ _ Hrel Hi) as (g0 & Hg0 & Hk0).
    apply kept_or_marked_same in Hk0 as (_ & _ & _ & _ & Hlv0 & _).
    rewrite Hlv in Hlv0.
    destruct (Hm i g0 lv Hg0 (eq_sym Hlv0))
      as (j & g & Hj & Hg & Hname & Hfirst & Hmark & Harr & Hptr & Hty).
    destruct (Forall2_lookup_l _ _ _ _ _ Hrel Hg) as (g' & Hg' & Hk).
    apply kept_or_marked_same in Hk as (Hn & Ha & Hp & Ht & _ & _ & Hl).
    exists j, g'. rewrite Hfs, lookup_app_l by lia.
    rewrite Hn, Ha, Hp, Ht. repeat split; auto.
    intros k h Hkj Hh. rewrite lookup_app_l in Hh by lia.
    destruct (Forall2_lookup_r _ _ _ _ _ Hrel Hh) as (h0 & Hh0 & Hk).
    apply kept_or_marked_same in Hk as (-> & _). by eapply Hfirst.
  - apply lookup_lt_Some in Hi as Hi'. rewrite length_app in Hi'. cbn in Hi'.
    assert (i = length fs) as -> by lia.
    rewrite lookup_app_r, Nat.sub_diag in Hi by lia. injection Hi as <-.
    destruct (init_body_lenvar _ _ _ _ _ _ _ _ _ Hf Hlv) as [Hopt _].
    destruct (addField_length_source _ _ _ _ _ Hadd Hlv Hopt)
      as (before & g & after & Hold & Hbefore & Hname & Hty & Harr & Hptr & Hnew).
    rewrite Hnew. exists (length before), (Field.mark_len_var g f).
    assert (Hlb : (length before < length fs)%nat).
    { rewrite <- Hlen, Hold, length_app. cbn. lia. }
    repeat split; try done.
    + rewrite lookup_app_l by (rewrite length_app; cbn; lia).
      by rewrite lookup_app_r, Nat.sub_diag.
    + intros k h Hk Hh. rewrite <- app_assoc, lookup_app_l in Hh by exact Hk.
      apply Hbefore. by eapply list_elem_of_lookup_2.
Qed.

(** Every message a run has built (top-level, variant with an option,
    TLV record) has its length variables declared: a length-prefixed
    field is preceded by the first field of the name it gives as its
    length, and that field is marked as a length variable, is neither an
    array nor variable-size nor optional, and in bolt mode is a [u16]. *)
Theorem read_csv_length_sources (bolt : bool)
    (fs : string -> option (list string)) (depth : nat) (lines : list string)
    (rd : reader) (sh : shared) :
  read_csv bolt fs depth lines = Ok (rd, sh) ->
  Forall (length_sources_declared bolt) (all_messages rd sh).
Proof.
  apply read_csv_keeps.
  - intros name enum comments is_tlv i f lv Hi. cbn in Hi.
    by rewrite lookup_nil in Hi.
  - intros m m' f message name is_tlv size comments prevname.
    apply addField_keeps_length_sources.
  - intros m n Hm. exact Hm.
Qed.

(** A message with a TLV container whose record has a length-prefixed
    field. *)
Lemma read_csv_length_sources_witness :
  exists rd sh,
    read_csv false
      (files [("wire/gen_ext_csv", [line "r,1"; line "r,0,n,u16"; line "r,2,d,n*u8"])])
      1 [line "m,1"; line "m,0,len,u16"; line "m,2,ext+,len*u8"] = Ok (rd, sh) /\
    length (all_messages rd sh) = 2%nat /\
    Forall (length_sources_declared false) (all_messages rd sh).
Proof.
  eexists _, _. split; [vm_compute; reflexivity|]. split; [reflexivity|].
  apply (read_csv_length_sources false
           (files [("wire/gen_ext_csv",
                    [line "r,1"; line "r,0,n,u16"; line "r,2,d,n*u8"])])
           1 [line "m,1"; line "m,0,len,u16"; line "m,2,ext+,len*u8"]).
  vm_compute. reflexivity.
Defined.

Lemma addField_keeps_context_flag (bolt : bool) (m m' : Message.t) (f : Field.t) :
  context_flag_exact m -> Message.addField bolt m f = Ok m' ->
  context_flag_exact m'.
Proof.
  unfold context_flag_exact. intros Hm Hadd.
  pose proof (addField_kept _ _ _ _ Hadd)
    as (_ & _ & _ & _ & (fs & -> & Hrel) & _ & ->).
  rewrite Hm, existsb_app. cbn [existsb]. rewrite orb_false_r. f_equal.
  clear -Hrel. induction Hrel as [|g g' l l' Hk _ IH]; cbn [existsb]; [done|].
  apply kept_or_marked_same in Hk as (_ & _ & _ & _ & _ & -> & _). by rewrite IH.
Qed.

(** In every message a run has built, the flag that gives the decoder
    its allocation context is set exactly when some field of the message
    is length-prefixed, optional, or of a varlen struct type. *)
Theorem read_csv_context_flag (bolt : bool)
    (fs : string -> option (list string)) (depth : nat) (lines : list string)
    (rd : reader) (sh : shared) :
  read_csv bolt fs depth lines = Ok (rd, sh) ->
  Forall context_flag_exact (all_messages rd sh).
Proof.
  apply read_csv_keeps.
  - reflexivity.
  - intros m m' f message name is_tlv size comments prevname Hm _.
    by apply addField_keeps_context_flag.
  - intros m n Hm. exact Hm.
Qed.

(** A message with an optional field, and one with fixed fields only. *)
Lemma read_csv_context_flag_witness :
  exists rd sh,
    read_csv false (files []) 0
      [line "a,1"; line "a,0,v,?u32"; line "b,2"; line "b,0,v,u32"] = Ok (rd, sh) /\
    Message.has_variable_fields <$> messages rd = [true; false] /\
    Forall context_flag_exact (all_messages rd sh).
Proof.
  eexists _, _. split; [vm_compute; reflexivity|]. split; [reflexivity|].
  apply (read_csv_context_flag false (files []) 0
           [line "a,1"; line "a,0,v,?u32"; line "b,2"; line "b,0,v,u32"]).
  vm_compute. reflexivity.
Defined.

(** ** The records of the reading loop *)

Section ReadingRecords.

Variable bolt : bool.
Variable load : string -> shared -> result (shared * list Message.t).


(** The ill-formed records, found before any file is opened: a record
    that is not blank and has neither two, four nor five parts is
    malformed; a field record for a message that no earlier record has
    started names an unknown message. *)
Theorem read_line_rejects (prefix : string) (is_tlv : bool) (l : string)
    (parts : list string) (rd : reader) (sh : shared) :
  Py.startswith l "#include " = false ->
  Py.split "," (default "" (head (Py.split "#" (Py.rstrip l)))) = parts ->
  (parts ≠ [""] -> length parts ≠ 2%nat -> length parts ≠ 4%nat ->
   length parts ≠ 5%nat ->
   read_line bolt load prefix is_tlv l (rd, sh) = Err (ValueError Line_malformed)) /\
  (length parts = 4%nat \/ length parts = 5%nat ->
   find_message (messages rd) (default "" (parts !! 0%nat)) = None ->
   read_line bolt load prefix is_tlv l (rd, sh) = Err (ValueError Unknown_message)).
Proof.
  intros Hinc Hparts. unfold read_line. rewrite Hinc, Hparts.
  assert (Hmal : forall rd1,
            length parts ≠ 4%nat -> length parts ≠ 5%nat ->
            read_field bolt load parts rd1 sh = Err (ValueError Line_malformed)).
  { intros rd1 H4 H5. unfold read_field.
    apply Nat.eqb_neq in H4, H5. by rewrite H4, H5. }
  assert (Hunk : forall rd1,
            messages rd1 = messages rd ->
            length parts = 4%nat \/ length parts = 5%nat ->
            find_message (messages rd) (default "" (parts !! 0%nat)) = None ->
            read_field bolt load parts rd1 sh = Err (ValueError Unknown_message)).
  { intros rd1 Hrd1 Hlen Hfind. unfold read_field. rewrite Hrd1.
    destruct Hlen as [Hlen | Hlen]; rewrite Hlen; cbn [Nat.eqb].
    - by rewrite Hfind.
    - unfold find_message_with_option. by rewrite Hfind. }
  split.
  - intros Hblank H2 H4 H5.
    destruct parts as [|p0 [|p1 [|p2 parts']]]; try (by apply Hmal).
    + destruct p0; [done | by apply Hmal].
    + done.
    + destruct p0; by apply Hmal.
  - intros Hlen Hfind.
    destruct parts as [|p0 [|p1 [|p2 parts']]];
      try (cbn in Hlen; lia).
    destruct p0; by apply Hunk.
Qed.

End ReadingRecords.

(** Three parts, and a field of a message that was never started. *)
Lemma read_line_rejects_witness :
  read_line false (fun _ _ => Err RecursionError) "WIRE_" false (line "m,1,2")
    (empty_reader, empty_shared) = Err (ValueError Line_malformed) /\
  read_line false (fun _ _ => Err RecursionError) "WIRE_" false (line "m,0,v,u8")
    (empty_reader, empty_shared) = Err (ValueError Unknown_message).
Proof.
  split.
  - apply (proj1 (read_line_rejects false (fun _ _ => Err RecursionError) "WIRE_"
                    false (line "m,1,2") ["m"; "1"; "2"] empty_reader empty_shared
                    eq_refl eq_refl)); [discriminate 1 | cbn; lia ..].
  - apply (proj2 (read_line_rejects false (fun _ _ => Err RecursionError) "WIRE_"
                    false (line "m,0,v,u8") ["m"; "0"; "v"; "u8"] empty_reader
                    empty_shared eq_refl eq_refl)); [by left | reflexivity].
Defined.


(** ** Loading the TLV containers *)

Lemma dict_has_set {V} (d : list (string * V)) (k : string) (v : V) :
  dict_has (dict_set d k v) k = true.
Proof.
  unfold dict_has. induction d as [|[k' v'] d IH]; cbn [dict_set].
  - cbn. by rewrite String.eqb_refl.
  - destruct (String.eqb k' k) eqn:E; cbn [existsb fst]; rewrite E; [done|].
    exact IH.
Qed.

Lemma dict_has_set_other {V} (d : list (string * V)) (k k' : string) (v : V) :
  dict_has d k' = true -> dict_has (dict_set d k v) k' = true.
Proof.
  unfold dict_has. induction d as [|[k0 v0] d IH]; cbn [dict_set]; [done|].
  destruct (String.eqb k0 k) eqn:E; cbn [existsb fst];
    destruct (String.eqb k0 k'); cbn [orb]; auto.
Qed.

(** A field whose name ends in [+] names a TLV container, which is
    loaded once: when the container is already among the loaded ones the
    field is built without loading anything, and the globals stay as
    they are; otherwise a field can only be built after the load has
    succeeded, and the records it gave are then stored under the name of
    the container, together with the containers that were there. *)
Theorem tlv_container_loaded_once (bolt : bool)
    (load : string -> shared -> result (shared * list Message.t))
    (message raw name size : string) (comments : list string)
    (prevname : option string) (sh : shared) :
  Field.tlv_name raw = (true, name) ->
  (dict_has (tlv_fields sh) name = true ->
   Field_init bolt load message raw size comments prevname sh
   = f ← Field.init_body bolt message name true size comments prevname; Ok (sh, f)) /\
  (forall sh' f,
     dict_has (tlv_fields sh) name = false ->
     Field_init bolt load message raw size comments prevname sh = Ok (sh', f) ->
     exists sh1 records,
       load name sh = Ok (sh1, records) /\
       tlv_fields sh' = dict_set (tlv_fields sh1) name records /\
       messages_with_option sh' = messages_with_option sh1 /\
       dict_has (tlv_fields sh') name = true /\
       Field.init_body bolt message name true size comments prevname = Ok f).
Proof.
  intros Hraw. unfold Field_init. rewrite Hraw. cbn [andb]. split.
  - intros ->. reflexivity.
  - intros sh' f ->. cbn [negb]. intros H.
    apply bind_Ok in H as (sh2 & Hload & H).
    apply bind_Ok in Hload as ([sh1 records] & Hload & [= <-]).
    apply bind_Ok in H as (f' & Hf & [= <- <-]).
    exists sh1, records. cbn [tlv_fields messages_with_option].
    repeat split; try done. apply dict_has_set.
Qed.

(** With the container [ext] loaded, the field [ext+] is built by a run
    that cannot load anything. *)
Lemma tlv_container_loaded_once_witness :
  let sh := {| tlv_fields := [("ext", [])]; messages_with_option := [] |} in
  Field_init false (fun _ _ => Err RecursionError) "m" "ext+" "len*u8" []
    (Some "len") sh
  = Ok (sh, Field.mk "m" [] "ext" false (Some "len") 1 false true (FieldType "u8") None).
Proof.
  intros sh.
  rewrite (proj1 (tlv_container_loaded_once false (fun _ _ => Err RecursionError)
                    "m" "ext+" "ext" "len*u8" [] (Some "len") sh eq_refl) eq_refl).
  reflexivity.
Defined.

(** The file of a container is looked for under [wire/], as
    [gen_<name>_csv], wherever the input is: when that file cannot be
    opened, loading the container fails with the error of [open], and so
    does the first field that names the container, before its size is
    looked at. *)
Theorem tlv_file_not_found (bolt : bool) (fs : string -> option (list string))
    (depth : nat) (message raw name size : string) (comments : list string)
    (prevname : option string) (sh : shared) :
  fs ("wire/gen_" +:+ name +:+ "_csv") = None ->
  parse_tlv_file bolt fs (S depth) name sh
  = Err (FileNotFoundError ("wire/gen_" +:+ name +:+ "_csv")) /\
  (Field.tlv_name raw = (true, name) ->
   dict_has (tlv_fields sh) name = false ->
   Field_init bolt (load_tlv bolt fs (S depth)) message raw size comments prevname sh
   = Err (FileNotFoundError ("wire/gen_" +:+ name +:+ "_csv"))).
Proof.
  intros Hfs.
  assert (Hparse : parse_tlv_file bolt fs (S depth) name sh
                   = Err (FileNotFoundError ("wire/gen_" +:+ name +:+ "_csv"))).
  { cbn [parse_tlv_file].
    change (get_directory_prefix +:+ get_tlv_filename name)
      with ("wire/gen_" +:+ name +:+ "_csv").
    by rewrite Hfs. }
  split; [exact Hparse|].
  intros Hraw Hnew. unfold Field_init, load_tlv. rewrite Hraw, Hnew, Hparse.
  reflexivity.
Qed.

(** No file at all: the size [oops] is never looked at. *)
Lemma tlv_file_not_found_witness :
  Field_init false (load_tlv false (files []) 1) "m" "ext+" "oops" [] None
    empty_shared
  = Err (FileNotFoundError "wire/gen_ext_csv").
Proof.
  exact (proj2 (tlv_file_not_found false (files []) 0 "m" "ext+" "ext" "oops" []
                  None empty_shared eq_refl) eq_refl eq_refl).
Defined.

(** ** The parameters of the entry points *)

Lemma fromwire_arg_passed (f : Field.t) :
  arg_name <$> Message.fromwire_arg f
  = if is_passed f then [Field.name f] else [].
Proof.
  unfold Message.fromwire_arg, is_passed.
  destruct (Field.is_len_var f || Field.is_padding f); [done|].
  destruct (Field.is_array f); [done|]. by destruct (Field.is_tlv f).
Qed.

Lemma towire_arg_passed (f : Field.t) :
  arg_name <$> Message.towire_arg f
  = if is_passed f then [Field.name f] else [].
Proof.
  unfold Message.towire_arg, is_passed.
  rewrite (orb_comm (Field.is_padding f)).
  destruct (Field.is_len_var f || Field.is_padding f); [done|].
  destruct (Field.is_array f); [done|]. destruct (Field.is_tlv f); [done|].
  destruct (Field.is_assignable f); [done|]. by destruct (_ && _).
Qed.

Lemma struct_member_passed (f : Field.t) :
  omap member_name (Message.struct_member f)
  = if is_passed f then [Field.name f] else [].
Proof.
  unfold Message.struct_member, is_passed.
  destruct (Field.is_len_var f || Field.is_padding f); [done|].
  destruct (Field.is_variable_size f); [done|]. by destruct (Field.is_array f).
Qed.

(** The decoder and the encoder of a message take the same fields, in
    the order of the message: every field but the length variables and
    the padding, once each; and the struct of a TLV record declares
    exactly these members, only these, in that order. *)
Theorem entry_points_take_the_same_fields (m : Message.t) :
  arg_name <$> Message.fromwire_args m
    = Field.name <$> List.filter is_passed (Message.fields m) /\
  arg_name <$> Message.towire_args m
    = Field.name <$> List.filter is_passed (Message.fields m) /\
  omap member_name (Message.struct_members m)
    = Field.name <$> List.filter is_passed (Message.fields m) /\
  length (Message.struct_members m)
    = length (List.filter is_passed (Message.fields m)).
Proof.
  unfold Message.fromwire_args, Message.towire_args, Message.struct_members.
  induction (Message.fields m) as [|f fs (IH1 & IH2 & IH3 & IH4)]; [done|].
  cbn [mbind list_bind List.filter].
  rewrite !fmap_app, omap_app, length_app, IH1, IH2, IH3, IH4,
    fromwire_arg_passed, towire_arg_passed, struct_member_passed.
  assert (Hlen : length (Message.struct_member f)
                 = if is_passed f then 1%nat else 0%nat).
  { unfold Message.struct_member, is_passed.
    destruct (Field.is_len_var f || Field.is_padding f); [done|].
    destruct (Field.is_variable_size f); [done|]. by destruct (Field.is_array f). }
  rewrite Hlen. by destruct (is_passed f).
Qed.

(** ** Lines of emitted code *)

Lemma str_app_nil_l (s : string) : "" +:+ s = s.
Proof. reflexivity. Qed.

Lemma str_app_nil_r (s : string) : s +:+ "" = s.
Proof. induction s as [|c s IH]; [done|]. by rewrite append_cons, IH. Qed.

Lemma str_app_assoc (a b c : string) : (a +:+ b) +:+ c = a +:+ b +:+ c.
Proof. induction a as [|x a IH]; [done|]. by rewrite !append_cons, IH. Qed.

Lemma str_app_nonempty_r (a b : string) : b ≠ "" -> a +:+ b ≠ "".
Proof. destruct a; [done|]. by rewrite append_cons. Qed.

Lemma has_char_app (c : ascii) (a b : string) :
  Py.has_char c (a +:+ b) = Py.has_char c a || Py.has_char c b.
Proof.
  induction a as [|d a IH]; [done|]. rewrite append_cons. cbn [Py.has_char].
  by destruct (Ascii.eqb c d).
Qed.

Lemma contains_char (c : ascii) (s : string) :
  Py.contains (String c "") s = Py.has_char c s.
Proof.
  induction s as [|d s IH]; [done|]. cbn [Py.contains Py.has_char String.prefix].
  rewrite IH. destruct (Ascii.eqb_spec c d) as [->|Hne].
  - destruct (ascii_dec d d); [by destruct s | done].
  - by destruct (ascii_dec c d).
Qed.

Lemma rev_app_app (a b acc : string) :
  String.rev_app (a +:+ b) acc = String.rev_app b (String.rev_app a acc).
Proof.
  revert acc. induction a as [|c a IH]; intros acc; [done|].
  rewrite append_cons. cbn [String.rev_app]. apply IH.
Qed.

Lemma rev_app_acc (s acc : string) :
  String.rev_app s acc = String.rev_app s "" +:+ acc.
Proof.
  revert acc. induction s as [|c s IH]; intros acc; [done|].
  cbn [String.rev_app]. rewrite (IH (String c acc)), (IH (String c "")).
  by rewrite str_app_assoc.
Qed.

Lemma rev_app_nonempty (s acc : string) : s ≠ "" -> String.rev_app s acc ≠ "".
Proof.
  destruct s as [|c s]; [done|]. intros _. cbn [String.rev_app].
  rewrite rev_app_acc. by apply str_app_nonempty_r.
Qed.

Lemma prefix_nil (s : string) : String.prefix "" s = true.
Proof. by destruct s. Qed.

(** The last character decides [endswith] for a one-character suffix. *)
Lemma endswith_app (a b : string) (d : ascii) :
  b ≠ "" -> Py.endswith (a +:+ b) (String d "") = Py.endswith b (String d "").
Proof.
  intros Hb. unfold Py.endswith, String.rev.
  rewrite rev_app_app, (rev_app_acc b (String.rev_app a "")).
  pose proof (rev_app_nonempty b "" Hb) as Hne.
  destruct (String.rev_app b "") as [|c r]; [done|].
  rewrite append_cons. cbn [String.prefix String.rev_app].
  destruct (ascii_dec d c); [|done]. by rewrite !prefix_nil.
Qed.

Lemma endswith_cons (c : ascii) (s : string) (d : ascii) :
  s ≠ "" -> Py.endswith (String c s) (String d "") = Py.endswith s (String d "").
Proof. apply (endswith_app (String c "") s d). Qed.

(** Decimal numerals have digits and a sign only. *)
Lemma has_char_str (c : ascii) (n : Z) :
  (N_of_ascii c < 45)%N -> Py.has_char c (Py.str n) = false.
Proof.
  intros Hc. unfold Py.str.
  assert (Hu : forall u, Py.has_char c (NilEmpty.string_of_uint u) = false).
  { induction u; cbn [NilEmpty.string_of_uint Py.has_char]; try done;
      rewrite IHu;
      match goal with
      | |- (if Ascii.eqb c ?d then _ else _) = _ =>
          destruct (Ascii.eqb_spec c d) as [->|_]; [by vm_compute in Hc | done]
      end. }
  assert (Hz : forall u, Py.has_char c (NilZero.string_of_uint u) = false).
  { intros u. destruct u; try apply Hu. cbn.
    destruct (Ascii.eqb_spec c "0") as [->|_]; [by vm_compute in Hc | done]. }
  destruct (Z.to_int n) as [u|u]; cbn [NilZero.string_of_int Py.has_char].
  - apply Hz.
  - rewrite Hz. destruct (Ascii.eqb_spec c "-") as [->|_]; [by vm_compute in Hc | done].
Qed.

(** ** Indentation *)

Lemma clean_spec (s : string) :
  clean s = true <-> Py.has_char "009" s = false /\ Py.has_char "010" s = false.
Proof.
  unfold clean. destruct (Py.has_char "009" s), (Py.has_char "010" s); cbn;
    intuition discriminate.
Qed.

Lemma clean_app (a b : string) : clean (a +:+ b) = clean a && clean b.
Proof.
  unfold clean. rewrite !has_char_app.
  by destruct (Py.has_char "009" a), (Py.has_char "010" a), (Py.has_char "009" b).
Qed.

Lemma clean_str (n : Z) : clean (Py.str n) = true.
Proof. unfold clean. by rewrite !has_char_str. Qed.

Lemma clean_drop (n : nat) (s : string) : clean s = true -> clean (Py.drop n s) = true.
Proof.
  revert s. induction n as [|n IH]; intros [|c s]; cbn [Py.drop]; try done.
  intros H. apply IH. change (String c s) with (String c "" +:+ s) in H.
  rewrite clean_app in H. by apply andb_true_iff in H as [_ H].
Qed.

Lemma clean_base (t : FieldType.t) :
  clean (FieldType.name t) = true -> clean (FieldType.base t) = true.
Proof.
  intros H. unfold FieldType.base.
  destruct (Py.startswith _ "struct "); [by apply clean_drop|].
  destruct (Py.startswith _ "enum "); [by apply clean_drop | done].
Qed.

(** [append] on a line by itself. *)
Lemma append_line_ordinary (self : CCode.t) (line : string) :
  ordinary line = true ->
  CCode.append_line self line
  = Ok (CCode.mk (if CCode.single_indent self then CCode.indent self - 1
                  else CCode.indent self) false
          (CCode.code self ++ [CCode.tabs (CCode.indent self) +:+ line])
          (CCode.stmts self)).
Proof.
  unfold ordinary, no_keyword. rewrite !andb_true_iff, !negb_true_iff, clean_spec.
  intros (((((Htab & _) & Hclose) & Hopen) & Hend) & Hfor & Hif).
  unfold CCode.append_line.
  change (Py.contains tab line) with (Py.contains (String "009" "") line).
  by rewrite contains_char, Htab, Hclose, Hopen, Hend, Hfor, Hif.
Qed.

Lemma split_line (line rest : string) :
  Py.has_char "010" line = false ->
  Py.split (ascii_of_N 10) (line +:+ nl +:+ rest) = line :: Py.split (ascii_of_N 10) rest.
Proof. apply (split_at_first "010" line rest). Qed.

Lemma split_last (line : string) :
  Py.has_char "010" line = false -> Py.split (ascii_of_N 10) line = [line].
Proof. apply (split_without "010" line). Qed.

(** A statement of one ordinary line keeps the indentation. *)
Lemma append_ordinary (self : CCode.t) (s : cstmt) :
  ordinary (render s) = true -> CCode.single_indent self = false ->
  CCode.append self s
  = Ok (CCode.mk (CCode.indent self) false
          (CCode.code self ++ [CCode.tabs (CCode.indent self) +:+ render s])
          (CCode.stmts self ++ [s])).
Proof.
  intros Hord Hsingle. unfold CCode.append.
  assert (Hnl : Py.has_char "010" (render s) = false).
  { unfold ordinary in Hord. rewrite !andb_true_iff, clean_spec in Hord. tauto. }
  rewrite (split_last _ Hnl). cbn [CCode.append_lines].
  rewrite (append_line_ordinary _ _ Hord), Hsingle. reflexivity.
Qed.

Lemma ordinary_intro (line : string) :
  clean line = true -> String.eqb line "}" = false ->
  Py.endswith line "{" = false -> Py.endswith line "}" = false ->
  Py.startswith line "for" = false -> Py.startswith line "if" = false ->
  ordinary line = true.
Proof. unfold ordinary, no_keyword. by intros -> -> -> -> -> ->. Qed.

Ltac nonempty := repeat apply str_app_nonempty_r; discriminate.

Ltac clean_line :=
  rewrite ?clean_app, ?clean_str;
  repeat match goal with
         | H : clean ?v = true |- context [clean ?v] => rewrite H
         end;
  reflexivity.

Ltac line_end := rewrite ?endswith_app by nonempty; reflexivity.

Ltac ordinary_line :=
  apply ordinary_intro;
  [clean_line | reflexivity | line_end | line_end | reflexivity | reflexivity].

Lemma clean_expr_var (n : string) : clean n = true -> clean (render_expr (EVar n)) = true.
Proof. done. Qed.

Lemma clean_count (n : count) :
  (forall l, n = Len l -> clean l = true) -> clean (render_count n) = true.
Proof. destruct n as [k|l]; cbn; [intros _; apply clean_str | intros H; by apply H]. Qed.

Lemma ordinary_comment (c : string) : clean c = true -> ordinary (render (Comment c)) = true.
Proof. intros Hc. cbn [render]. ordinary_line. Qed.

Lemma ordinary_fromwire_pad (n : Z) : ordinary (render (Fromwire_pad n)) = true.
Proof. cbn [render]. ordinary_line. Qed.

Lemma append_line_keyword (self : CCode.t) (line : string) :
  clean line = true -> String.eqb line "}" = false ->
  Py.endswith line "{" = false -> Py.endswith line "}" = false ->
  Py.startswith line "for" || Py.startswith line "if" = true ->
  CCode.single_indent self = false ->
  CCode.append_line self line
  = Ok (CCode.mk (CCode.indent self + 1) true
          (CCode.code self ++ [CCode.tabs (CCode.indent self) +:+ line])
          (CCode.stmts self)).
Proof.
  intros [Htab _]%clean_spec Hclose Hopen Hend Hkey Hsingle.
  unfold CCode.append_line.
  change (Py.contains tab line) with (Py.contains (String "009" "") line).
  by rewrite contains_char, Htab, Hclose, Hopen, Hend, Hkey, Hsingle.
Qed.

Lemma append_line_open (self : CCode.t) (line : string) :
  clean line = true -> String.eqb line "}" = false ->
  Py.endswith line "{" = true ->
  CCode.append_line self line
  = Ok (CCode.mk ((if CCode.single_indent self then CCode.indent self - 1
                   else CCode.indent self) + 1) false
          (CCode.code self ++ [CCode.tabs (CCode.indent self) +:+ line])
          (CCode.stmts self)).
Proof.
  intros [Htab _]%clean_spec Hclose Hopen. unfold CCode.append_line.
  change (Py.contains tab line) with (Py.contains (String "009" "") line).
  by rewrite contains_char, Htab, Hclose, Hopen.
Qed.

Lemma append_line_close (self : CCode.t) :
  CCode.append_line self "}"
  = Ok (CCode.mk (CCode.indent self - 1) (CCode.single_indent self)
          (CCode.code self ++ [CCode.tabs (CCode.indent self - 1) +:+ "}"])
          (CCode.stmts self)).
Proof. reflexivity. Qed.

Lemma keeps_ordinary (s : cstmt) : ordinary (render s) = true -> keeps_indentation s.
Proof. intros Hord self Hsingle. eexists. by apply append_ordinary. Qed.

Lemma append_all_keeps (ss : list cstmt) :
  Forall keeps_indentation ss ->
  step_keeps_indentation (fun self => CCode.append_all self ss).
Proof.
  induction 1 as [|s ss Hs _ IH]; intros self Hsingle; cbn [CCode.append_all].
  - exists (CCode.code self), []. rewrite app_nil_r. by destruct self; cbn in *; subst.
  - destruct (Hs self Hsingle) as (code1 & ->). cbn [mbind result_bind].
    destruct (IH (CCode.mk (CCode.indent self) false code1 (CCode.stmts self ++ [s]))
                eq_refl) as (code2 & ss' & ->).
    cbn [CCode.indent CCode.stmts]. exists code2, (s :: ss').
    by rewrite <- app_assoc.
Qed.

Lemma keeps_step (s : cstmt) :
  keeps_indentation s -> step_keeps_indentation (fun self => CCode.append self s).
Proof. intros Hs self Hsingle. destruct (Hs self Hsingle) as (code & ->). by eexists _, _. Qed.

Lemma step_keeps_bind (step1 : CCode.t -> result CCode.t)
    (step2 : CCode.t -> result CCode.t) :
  step_keeps_indentation step1 -> step_keeps_indentation step2 ->
  step_keeps_indentation (fun self => self ← step1 self; step2 self).
Proof.
  intros H1 H2 self Hsingle. destruct (H1 self Hsingle) as (code1 & ss1 & ->).
  cbn [mbind result_bind].
  destruct (H2 (CCode.mk (CCode.indent self) false code1 (CCode.stmts self ++ ss1))
              eq_refl) as (code2 & ss2 & ->).
  cbn [CCode.indent CCode.stmts]. exists code2, (ss1 ++ ss2). by rewrite <- app_assoc.
Qed.

Lemma fold_fields_keeps (step : CCode.t -> Field.t -> result CCode.t)
    (fs : list Field.t) :
  Forall (fun f => step_keeps_indentation (fun self => step self f)) fs ->
  step_keeps_indentation (fun self => Message.fold_fields step self fs).
Proof.
  induction 1 as [|f fs Hf _ IH]; cbn [Message.fold_fields].
  - intros self Hsingle. exists (CCode.code self), []. rewrite app_nil_r.
    by destruct self; cbn in *; subst.
  - by apply (step_keeps_bind (fun self => step self f)).
Qed.

(** A loop of one statement: the [for] line indents the line after it
    only. *)
Lemma keeps_for (n : count) (body : cstmt) :
  clean (render_count n) = true -> ordinary (render body) = true ->
  keeps_indentation (For n body).
Proof.
  intros Hn Hbody self Hsingle. unfold CCode.append.
  assert (Hnl : Py.has_char "010" (render body) = false).
  { unfold ordinary in Hbody. rewrite !andb_true_iff, clean_spec in Hbody. tauto. }
  assert (Hhead : clean ("for (size_t i = 0; i < " +:+ render_count n +:+ "; i++)") = true)
    by clean_line.
  assert (render (For n body)
          = ("for (size_t i = 0; i < " +:+ render_count n +:+ "; i++)")
            +:+ nl +:+ render body) as ->
    by (cbn [render]; rewrite ?str_app_assoc; reflexivity).
  rewrite split_line by (apply clean_spec in Hhead; tauto).
  rewrite (split_last _ Hnl). cbn [CCode.append_lines].
  rewrite append_line_keyword; [|exact Hhead | reflexivity | line_end | line_end
                                | reflexivity | exact Hsingle].
  cbn [mbind result_bind]. rewrite (append_line_ordinary _ _ Hbody).
  cbn [mbind result_bind CCode.single_indent CCode.indent CCode.code CCode.stmts].
  eexists. do 2 f_equal. lia.
Qed.

Lemma ordinary_clean (line : string) : ordinary line = true -> clean line = true.
Proof. unfold ordinary. rewrite !andb_true_iff. tauto. Qed.

Lemma clean_nl (line : string) : clean line = true -> Py.has_char "010" line = false.
Proof. rewrite clean_spec. tauto. Qed.

(** The call of the decoder of a TLV container: an [if] and its
    [return]. *)
Lemma keeps_fromwire_tlv (tlv_name tlv_len : string) :
  clean tlv_name = true -> clean tlv_len = true ->
  keeps_indentation (Fromwire_tlv tlv_name tlv_len).
Proof.
  intros Hname Hlen self Hsingle. unfold CCode.append.
  set (l1 := "if (!fromwire__" +:+ tlv_name +:+ "(ctx, &cursor, &" +:+ tlv_len +:+ ", "
             +:+ tlv_name +:+ "))").
  assert (H1 : clean l1 = true) by (unfold l1; clean_line).
  assert (render (Fromwire_tlv tlv_name tlv_len) = l1 +:+ nl +:+ "return false;") as ->
    by (unfold l1; cbn [render]; rewrite ?str_app_assoc; reflexivity).
  rewrite split_line by by apply clean_nl.
  rewrite split_last by reflexivity. cbn [CCode.append_lines].
  rewrite append_line_keyword;
    [|exact H1 | reflexivity | unfold l1; line_end | unfold l1; line_end
     | reflexivity | exact Hsingle].
  cbn [mbind result_bind]. rewrite append_line_ordinary by reflexivity.
  cbn [mbind result_bind CCode.single_indent CCode.indent CCode.code CCode.stmts].
  eexists. do 2 f_equal. lia.
Qed.

(** An optional field in a decoder: [if], [else] and a block. *)
Lemma keeps_fromwire_optional (name typename : string) (s : cstmt) :
  clean name = true -> clean typename = true -> ordinary (render s) = true ->
  keeps_indentation (Fromwire_optional name typename s).
Proof.
  intros Hname Htype Hs self Hsingle. unfold CCode.append.
  set (l2 := "*" +:+ name +:+ " = NULL;").
  set (l4 := "*" +:+ name +:+ " = tal(ctx, " +:+ typename +:+ ");").
  assert (H2 : ordinary l2 = true) by (unfold l2; ordinary_line).
  assert (H4 : ordinary l4 = true) by (unfold l4; ordinary_line).
  assert (render (Fromwire_optional name typename s)
          = "if (!fromwire_bool(&cursor, &plen))" +:+ nl +:+ l2 +:+ nl +:+ "else {"
            +:+ nl +:+ l4 +:+ nl +:+ render s +:+ nl +:+ "}") as ->
    by (unfold l2, l4; cbn [render]; rewrite ?str_app_assoc; reflexivity).
  rewrite split_line by reflexivity.
  rewrite split_line by by apply clean_nl, ordinary_clean.
  rewrite split_line by reflexivity.
  rewrite split_line by by apply clean_nl, ordinary_clean.
  rewrite split_line by by apply clean_nl, ordinary_clean.
  rewrite split_last by reflexivity. cbn [CCode.append_lines].
  rewrite append_line_keyword by (try reflexivity; exact Hsingle).
  cbn [mbind result_bind]. rewrite (append_line_ordinary _ _ H2).
  cbn [mbind result_bind]. rewrite append_line_open by reflexivity.
  cbn [mbind result_bind]. rewrite (append_line_ordinary _ _ H4).
  cbn [mbind result_bind]. rewrite (append_line_ordinary _ _ Hs).
  cbn [mbind result_bind]. rewrite append_line_close.
  cbn [mbind result_bind CCode.single_indent CCode.indent CCode.code CCode.stmts].
  eexists. do 2 f_equal. lia.
Qed.

(** An optional field in an encoder. *)
Lemma keeps_towire_optional (name basetype : string) (deref : bool) :
  clean name = true -> clean basetype = true ->
  keeps_indentation (Towire_optional name basetype deref).
Proof.
  intros Hname Htype self Hsingle. unfold CCode.append.
  set (l1 := "if (!" +:+ name +:+ ")").
  set (l5 := "towire_" +:+ basetype +:+ "(&p, " +:+ (if deref then "*" else "") +:+ name
             +:+ ");").
  assert (H1 : clean l1 = true) by (unfold l1; clean_line).
  assert (H5 : ordinary l5 = true) by (unfold l5; destruct deref; ordinary_line).
  assert (render (Towire_optional name basetype deref)
          = l1 +:+ nl +:+ "towire_bool(&p, false);" +:+ nl +:+ "else {" +:+ nl
            +:+ "towire_bool(&p, true);" +:+ nl +:+ l5 +:+ nl +:+ "}") as ->
    by (unfold l1, l5; cbn [render]; rewrite ?str_app_assoc; reflexivity).
  rewrite split_line by by apply clean_nl.
  rewrite !split_line by reflexivity.
  rewrite split_line by by apply clean_nl, ordinary_clean.
  rewrite split_last by reflexivity. cbn [CCode.append_lines].
  rewrite append_line_keyword;
    [|exact H1 | reflexivity | unfold l1; line_end | unfold l1; line_end
     | reflexivity | exact Hsingle].
  cbn [mbind result_bind]. rewrite append_line_ordinary by reflexivity.
  cbn [mbind result_bind]. rewrite append_line_open by reflexivity.
  cbn [mbind result_bind]. rewrite append_line_ordinary by reflexivity.
  cbn [mbind result_bind]. rewrite (append_line_ordinary _ _ H5).
  cbn [mbind result_bind]. rewrite append_line_close.
  cbn [mbind result_bind CCode.single_indent CCode.indent CCode.code CCode.stmts].
  eexists. do 2 f_equal. lia.
Qed.

Lemma endswith_app_any (a b : string) (d : ascii) :
  Py.endswith a (String d "") = false -> Py.endswith b (String d "") = false ->
  Py.endswith (a +:+ b) (String d "") = false.
Proof.
  intros Ha Hb. destruct b as [|c b]; [by rewrite str_app_nil_r|].
  by rewrite endswith_app.
Qed.

(** A line that begins with a name which is no keyword, followed by a
    character that continues no keyword either. *)
Lemma ordinary_var_headed (v : string) (d : ascii) (r : string) :
  clean v = true -> no_keyword v = true -> (N_of_ascii d < 100)%N ->
  clean (String d r) = true ->
  Py.endswith (String d r) "{" = false -> Py.endswith (String d r) "}" = false ->
  ordinary (v +:+ String d r) = true.
Proof.
  intros Hv Hkey Hd Hr Hopen Hclose. apply ordinary_intro.
  - by rewrite clean_app, Hv, Hr.
  - destruct v as [|c [|c' v]]; rewrite ?append_cons, ?str_app_nil_l;
      cbn [String.eqb].
    + destruct (Ascii.eqb_spec d "}") as [->|_]; [by vm_compute in Hd | done].
    + by destruct (Ascii.eqb c "}").
    + by destruct (Ascii.eqb c "}").
  - by rewrite endswith_app.
  - by rewrite endswith_app.
  - unfold no_keyword in Hkey. apply andb_true_iff in Hkey as [Hfor _].
    apply negb_true_iff in Hfor. unfold Py.startswith in *.
    destruct v as [|c1 [|c2 [|c3 v]]]; rewrite ?append_cons, ?str_app_nil_l;
      cbn [String.prefix String.append] in *;
      repeat match goal with
             | |- context [ascii_dec ?a d] =>
                 destruct (ascii_dec a d) as [<-|_]; [by vm_compute in Hd|]
             | |- context [ascii_dec ?a ?b] => destruct (ascii_dec a b) as [<-|_]
             end; try done.
    all: by rewrite prefix_nil in Hfor.
  - unfold no_keyword in Hkey. apply andb_true_iff in Hkey as [_ Hif].
    apply negb_true_iff in Hif. unfold Py.startswith in *.
    destruct v as [|c1 [|c2 v]]; rewrite ?append_cons, ?str_app_nil_l;
      cbn [String.prefix String.append] in *;
      repeat match goal with
             | |- context [ascii_dec ?a d] =>
                 destruct (ascii_dec a d) as [<-|_]; [by vm_compute in Hd|]
             | |- context [ascii_dec ?a ?b] => destruct (ascii_dec a b) as [<-|_]
             end; try done.
    all: by rewrite prefix_nil in Hif.
Qed.

(** ** The statements of the entry points *)

Lemma clean_field_facts (f : Field.t) :
  clean_field f = true ->
  clean (Field.name f) = true /\
  Py.endswith (Field.name f) "{" = false /\ Py.endswith (Field.name f) "}" = false /\
  clean (FieldType.name (Field.fieldtype f)) = true /\
  clean (FieldType.base (Field.fieldtype f)) = true /\
  Forall keeps_indentation (Comment <$> Field.comments f) /\
  clean (default "None" (Field.lenvar f)) = true /\
  clean (Message.array_typename f) = true.
Proof.
  unfold clean_field, clean_name.
  rewrite !andb_true_iff, !negb_true_iff.
  intros (((((Hname & Hopen) & Hclose) & Htype) & Hcomments) & Hlen).
  repeat split; try done.
  - by apply clean_base.
  - apply Forall_fmap, Forall_forall. intros c Hc. apply keeps_ordinary.
    assert (clean c = true) by by eapply forallb_elem_of.
    cbn [render]. ordinary_line.
  - by destruct (Field.lenvar f).
  - unfold Message.array_typename. destruct (in_list _ varlen_structs); [|done].
    clean_line.
Qed.

Ltac render_line := cbn [render render_expr render_count]; ordinary_line.

Ltac stmt_keeps :=
  try apply keeps_step;
  first
    [ apply keeps_ordinary; render_line
    | apply keeps_for; [cbn [render_count]; clean_line | render_line] ].

Lemma print_fromwire_array_keeps (ctx : cexpr) (basetype : string) (f : Field.t)
    (name : cexpr) (num_elems : count) :
  clean basetype = true -> clean (render_expr name) = true ->
  clean (render_expr ctx) = true -> clean (render_count num_elems) = true ->
  step_keeps_indentation
    (fun subcalls => Message.print_fromwire_array ctx subcalls basetype f name num_elems).
Proof.
  intros Hbase Hname Hctx Hn. unfold Message.print_fromwire_array.
  destruct (Field.has_array_helper f).
  { apply keeps_step, keeps_ordinary. cbn [render]. ordinary_line. }
  apply keeps_step, keeps_for; [exact Hn|].
  destruct (FieldType.is_assignable _); [cbn [render]; ordinary_line|].
  destruct (in_list basetype varlen_structs); cbn [render]; ordinary_line.
Qed.

Lemma ordinary_assign_var (name basetype : string) :
  clean name = true -> no_keyword name = true -> clean basetype = true ->
  ordinary (render (Fromwire_assign (EVar name) basetype)) = true.
Proof.
  intros Hname Hkey Hbase.
  apply (ordinary_var_headed name " " ("= fromwire_" +:+ basetype +:+ "(&cursor, &plen);"));
    try done.
  - change (clean (" " +:+ "= fromwire_" +:+ basetype +:+ "(&cursor, &plen);") = true).
    clean_line.
  - change (Py.endswith (" " +:+ "= fromwire_" +:+ basetype +:+ "(&cursor, &plen);")
              "{" = false). line_end.
  - change (Py.endswith (" " +:+ "= fromwire_" +:+ basetype +:+ "(&cursor, &plen);")
              "}" = false). line_end.
Qed.

Lemma fromwire_field_keeps (f : Field.t) :
  clean_field f = true -> length_name_plain f = true -> tlv_field_sized f = true ->
  step_keeps_indentation (fun subcalls => Message.fromwire_field subcalls f).
Proof.
  intros Hclean Hplain Hsized.
  destruct (clean_field_facts f Hclean)
    as (Hname & Hopen & Hclose & Htype & Hbase & Hcomments & Hlen & Harr).
  unfold Message.fromwire_field.
  apply (step_keeps_bind (fun c => CCode.append_all c (Comment <$> Field.comments f)));
    [by apply append_all_keeps|].
  unfold tlv_field_sized in Hsized.
  destruct (Field.is_padding f); [stmt_keeps|].
  destruct (Field.is_array f).
  { apply print_fromwire_array_keeps; try done. apply clean_str. }
  destruct (Field.is_tlv f).
  { cbn in Hsized. rewrite Hsized. cbn [negb].
    apply keeps_step, keeps_fromwire_tlv; done. }
  destruct (Field.is_variable_size f).
  { apply (step_keeps_bind (fun c => CCode.append c (Second_case false (Field.name f)))).
    { apply keeps_step, keeps_ordinary. cbn [render]. apply ordinary_intro;
        [clean_line | reflexivity | by apply endswith_app_any
        | by apply endswith_app_any | reflexivity | reflexivity]. }
    apply (step_keeps_bind
             (fun c => CCode.append c (Tal_arr (EDeref (EVar (Field.name f)))
                                         (default "None" (Field.lenvar f))
                                         (Message.array_typename f)))).
    { stmt_keeps. }
    apply print_fromwire_array_keeps; try done; cbn [render_expr]; clean_line. }
  assert (Hs : ordinary (render
    (if if Field.optional f then FieldType.is_assignable (Field.fieldtype f)
        else Field.is_assignable f
     then
       if Field.is_len_var f
       then Fromwire_assign (EVar (Field.name f)) (FieldType.base (Field.fieldtype f))
       else Fromwire_assign
              (EDeref (if Field.optional f then EDeref (EVar (Field.name f))
                       else EVar (Field.name f)))
              (FieldType.base (Field.fieldtype f))
     else if in_list (FieldType.base (Field.fieldtype f)) varlen_structs
          then Fromwire_assign_alloc
                 (EDeref (if Field.optional f then EDeref (EVar (Field.name f))
                          else EVar (Field.name f)))
                 (FieldType.base (Field.fieldtype f))
          else Fromwire_into (FieldType.base (Field.fieldtype f))
                 (if Field.optional f then EDeref (EVar (Field.name f))
                  else EVar (Field.name f)))) = true).
  { unfold length_name_plain in Hplain.
    destruct (if Field.optional f then _ else _).
    - destruct (Field.is_len_var f).
      + by apply ordinary_assign_var.
      + destruct (Field.optional f); render_line.
    - destruct (in_list _ varlen_structs), (Field.optional f); render_line. }
  cbv zeta. destruct (Field.optional f) eqn:Hopt.
  - by apply keeps_step, keeps_fromwire_optional.
  - by apply keeps_step, keeps_ordinary.
Qed.

Lemma print_towire_array_keeps (self : Message.t) (basetype : string) (f : Field.t)
    (num_elems : count) (is_tlv : bool) :
  clean basetype = true -> clean (Field.name f) = true ->
  (is_tlv = true -> clean (Message.name self) = true) ->
  clean (render_count num_elems) = true ->
  step_keeps_indentation
    (fun subcalls => Message.print_towire_array self subcalls basetype f num_elems is_tlv).
Proof.
  intros Hbase Hname Hself Hn. unfold Message.print_towire_array.
  destruct (Field.has_array_helper f).
  { apply keeps_step, keeps_ordinary.
    destruct is_tlv; [specialize (Hself eq_refl)|]; render_line. }
  apply keeps_step, keeps_for; [exact Hn|].
  destruct (_ || _), is_tlv; try specialize (Hself eq_refl); render_line.
Qed.

Lemma towire_field_keeps (self : Message.t) (f : Field.t) :
  clean_field f = true -> tlv_field_sized f = true ->
  step_keeps_indentation (fun subcalls => Message.towire_field self subcalls f).
Proof.
  intros Hclean Hsized.
  destruct (clean_field_facts f Hclean)
    as (Hname & Hopen & Hclose & Htype & Hbase & Hcomments & Hlen & Harr).
  unfold Message.towire_field.
  apply (step_keeps_bind (fun c => CCode.append_all c (Comment <$> Field.comments f)));
    [by apply append_all_keeps|].
  unfold tlv_field_sized in Hsized.
  destruct (Field.is_padding f); [stmt_keeps|].
  destruct (Field.is_array f).
  { apply print_towire_array_keeps; try done. apply clean_str. }
  destruct (Field.is_tlv f).
  { cbn in Hsized. rewrite Hsized. cbn [negb]. stmt_keeps. }
  destruct (Field.is_variable_size f).
  { apply print_towire_array_keeps; done. }
  destruct (Field.optional f).
  { by apply keeps_step, keeps_towire_optional. }
  stmt_keeps.
Qed.

Lemma str_keeps (step : CCode.t -> result CCode.t) :
  step_keeps_indentation step ->
  exists c text, step CCode.init = Ok c /\ CCode.str c = Ok text.
Proof.
  intros H. destruct (H CCode.init eq_refl) as (code & ss & ->).
  by eexists _, _.
Qed.

(** *** The records of a TLV container *)

Lemma ordinary_arrow_headed (msg name : string) (rest : string) :
  clean msg = true -> no_keyword msg = true -> clean name = true ->
  clean rest = true -> rest ≠ "" ->
  Py.endswith rest "{" = false -> Py.endswith rest "}" = false ->
  ordinary (msg +:+ "->" +:+ name +:+ rest) = true.
Proof.
  intros Hmsg Hkey Hname Hrest Hne Hopen Hclose.
  apply (ordinary_var_headed msg "-" (">" +:+ name +:+ rest)); try done.
  - change (clean ("-" +:+ ">" +:+ name +:+ rest) = true). clean_line.
  - change (Py.endswith ("->" +:+ name +:+ rest) "{" = false).
    by rewrite !endswith_app by (repeat apply str_app_nonempty_r; exact Hne).
  - change (Py.endswith ("->" +:+ name +:+ rest) "}" = false).
    by rewrite !endswith_app by (repeat apply str_app_nonempty_r; exact Hne).
Qed.

Lemma tlv_fromwire_field_keeps (self : Message.t) (f : Field.t) :
  clean (Message.name self) = true -> no_keyword (Message.name self) = true ->
  clean_field f = true -> length_name_plain f = true -> record_field f = true ->
  step_keeps_indentation (fun subcalls => Message.tlv_fromwire_field self subcalls f).
Proof.
  intros Hself Hkey Hclean Hplain Hrec.
  destruct (clean_field_facts f Hclean)
    as (Hname & Hopen & Hclose & Htype & Hbase & Hcomments & Hlen & Harr).
  unfold record_field in Hrec. rewrite !andb_true_iff, !negb_true_iff in Hrec.
  destruct Hrec as [[Htlv Hopt] _].
  unfold Message.tlv_fromwire_field. rewrite Htlv, Hopt.
  apply (step_keeps_bind (fun c => CCode.append_all c (Comment <$> Field.comments f)));
    [by apply append_all_keeps|].
  destruct (Field.is_padding f); [stmt_keeps|].
  destruct (Field.is_array f).
  { apply print_fromwire_array_keeps; try done; [|apply clean_str].
    cbn [render_expr]. clean_line. }
  destruct (Field.is_variable_size f).
  { apply (step_keeps_bind (fun c => CCode.append c (Second_case true (Field.name f)))).
    { apply keeps_step, keeps_ordinary. cbn [render]. apply ordinary_intro;
        [clean_line | reflexivity | by apply endswith_app_any
        | by apply endswith_app_any | reflexivity | reflexivity]. }
    apply (step_keeps_bind
             (fun c => CCode.append c (Tal_arr (EArrow (Message.name self) (Field.name f))
                                         (default "None" (Field.lenvar f))
                                         (Message.array_typename f)))).
    { apply keeps_step, keeps_ordinary. cbn [render render_expr].
      rewrite !str_app_assoc.
      apply (ordinary_arrow_headed _ _ _ Hself Hkey Hname);
        [clean_line | nonempty | line_end | line_end]. }
    apply print_fromwire_array_keeps; try done; cbn [render_expr]; clean_line. }
  apply keeps_step, keeps_ordinary.
  unfold length_name_plain in Hplain.
  destruct (Field.is_assignable f); [|render_line].
  destruct (Field.is_len_var f); [by apply ordinary_assign_var|].
  cbn [render render_expr]. rewrite !str_app_assoc.
  apply (ordinary_arrow_headed _ _ _ Hself Hkey Hname);
    [clean_line | nonempty | line_end | line_end].
Qed.

Lemma tlv_towire_field_keeps (self : Message.t) (f : Field.t) :
  clean (Message.name self) = true -> clean_field f = true ->
  step_keeps_indentation (fun subcalls => Message.tlv_towire_field self subcalls f).
Proof.
  intros Hself Hclean.
  destruct (clean_field_facts f Hclean)
    as (Hname & Hopen & Hclose & Htype & Hbase & Hcomments & Hlen & Harr).
  unfold Message.tlv_towire_field.
  apply (step_keeps_bind (fun c => CCode.append_all c (Comment <$> Field.comments f)));
    [by apply append_all_keeps|].
  destruct (Field.is_padding f); [stmt_keeps|].
  destruct (Field.is_array f).
  { apply print_towire_array_keeps; try done. apply clean_str. }
  destruct (Field.is_variable_size f).
  { apply print_towire_array_keeps; done. }
  destruct (Field.is_len_var f); stmt_keeps.
Qed.

Lemma tlv_towire_decls_accepts (self : Message.t) (fs : list Field.t) :
  forallb record_field fs = true ->
  exists ds, Message.tlv_towire_decls self fs = Ok ds.
Proof.
  induction fs as [|f fs IH]; cbn [forallb Message.tlv_towire_decls]; [by eexists|].
  intros [Hf Hfs]%andb_true_iff. unfold record_field in Hf.
  rewrite !andb_true_iff, !negb_true_iff in Hf. destruct Hf as [[-> ->] _].
  destruct (IH Hfs) as (ds & ->). by eexists.
Qed.

Lemma struct_member_keeps (f : Field.t) :
  clean_field f = true -> record_field f = true ->
  Forall keeps_indentation (Message.struct_member f).
Proof.
  intros Hclean Hrec.
  destruct (clean_field_facts f Hclean)
    as (Hname & Hopen & Hclose & Htype & Hbase & Hcomments & Hlen & Harr).
  unfold record_field in Hrec. rewrite !andb_true_iff in Hrec.
  destruct Hrec as [_ Hkey].
  unfold Message.struct_member.
  destruct (_ || _); [constructor|].
  destruct (Field.is_variable_size f); [|destruct (Field.is_array f)];
    apply Forall_singleton, keeps_ordinary; cbn [render].
  - apply (ordinary_var_headed _ " " ("*" +:+ Field.name f +:+ ";")); try done.
    + change (clean (" " +:+ "*" +:+ Field.name f +:+ ";") = true). clean_line.
    + change (Py.endswith (" *" +:+ Field.name f +:+ ";") "{" = false). line_end.
    + change (Py.endswith (" *" +:+ Field.name f +:+ ";") "}" = false). line_end.
  - apply (ordinary_var_headed _ " "
             (Field.name f +:+ "[" +:+ Py.str (Field.num_elems f) +:+ "];")); try done.
    + change (clean (" " +:+ Field.name f +:+ "[" +:+ Py.str (Field.num_elems f)
                     +:+ "];") = true). clean_line.
    + change (Py.endswith (" " +:+ Field.name f +:+ "[" +:+ Py.str (Field.num_elems f)
                           +:+ "];") "{" = false). line_end.
    + change (Py.endswith (" " +:+ Field.name f +:+ "[" +:+ Py.str (Field.num_elems f)
                           +:+ "];") "}" = false). line_end.
  - apply (ordinary_var_headed _ " " (Field.name f +:+ ";")); try done.
    + change (clean (" " +:+ Field.name f +:+ ";") = true). clean_line.
    + change (Py.endswith (" " +:+ Field.name f +:+ ";") "{" = false). line_end.
    + change (Py.endswith (" " +:+ Field.name f +:+ ";") "}" = false). line_end.
Qed.

(** ** Printing never fails on clean messages *)

Lemma printable_field_facts (f : Field.t) :
  printable_field f = true ->
  clean_field f = true /\ length_name_plain f = true /\ tlv_field_sized f = true.
Proof. unfold printable_field. rewrite !andb_true_iff. tauto. Qed.

Lemma forallb_Forall {A} (p : A -> bool) (l : list A) :
  forallb p l = true -> Forall (fun x => p x = true) l.
Proof. intros H. apply Forall_forall. intros x Hx. by eapply forallb_elem_of. Qed.

Lemma traverse_accepts {A B} (f : A -> result B) (l : list A) :
  Forall (fun a => is_ok (f a) = true) l -> is_ok (traverse f l) = true.
Proof.
  induction 1 as [|a l Ha _ IH]; cbn [traverse]; [done|].
  destruct (f a); [|done]. cbn [mbind result_bind].
  by destruct (traverse f l).
Qed.

(** The decoder and the encoder of a printable message are printed
    without an exception. *)
Lemma printable_entry_points (m : Message.t) (is_header : bool)
    (tlv_name : string) :
  printable_message m = true ->
  is_ok (Message.print_fromwire m is_header tlv_name) = true /\
  is_ok (Message.print_towire m is_header tlv_name) = true.
Proof.
  unfold printable_message. intros [Hfields Hkind]%andb_true_iff.
  apply forallb_Forall in Hfields.
  destruct (Message.is_tlv m) eqn:Htlv.
  - cbn [negb orb] in Hkind. apply andb_true_iff in Hkind as [Hname Hrec].
    apply andb_true_iff in Hname as [Hname Hkey].
    pose proof (forallb_Forall _ _ Hrec) as Hrec'.
    assert (Hfrom : is_ok (Message.print_tlv_fromwire m tlv_name) = true).
    { unfold Message.print_tlv_fromwire, Message.tlv_fromwire_subcalls.
      destruct (str_keeps (fun c => Message.fold_fields (Message.tlv_fromwire_field m) c
                                      (Message.fields m)))
        as (c & text & -> & Hstr).
      - apply fold_fields_keeps, Forall_forall. intros f Hf.
        destruct (printable_field_facts f (proj1 (Forall_forall _ _) Hfields f Hf))
          as (Hc & Hp & _).
        apply tlv_fromwire_field_keeps; try done.
        by apply (proj1 (Forall_forall _ _) Hrec').
      - cbn [mbind result_bind]. by rewrite Hstr. }
    assert (Hto : is_ok (Message.print_tlv_towire m tlv_name) = true).
    { unfold Message.print_tlv_towire, Message.tlv_towire_subcalls.
      destruct (tlv_towire_decls_accepts m _ Hrec) as (ds & ->).
      cbn [mbind result_bind].
      destruct (str_keeps (fun c => Message.fold_fields (Message.tlv_towire_field m) c
                                      (Message.fields m)))
        as (c & text & -> & Hstr).
      - apply fold_fields_keeps, Forall_forall. intros f Hf.
        destruct (printable_field_facts f (proj1 (Forall_forall _ _) Hfields f Hf))
          as (Hc & _).
        by apply tlv_towire_field_keeps.
      - cbn [mbind result_bind]. by rewrite Hstr. }
    unfold Message.print_fromwire, Message.print_towire.
    rewrite Htlv. split; by destruct is_header.
  - split.
    + unfold Message.print_fromwire, Message.fromwire_subcalls. rewrite Htlv.
      destruct (str_keeps (fun c => Message.fold_fields Message.fromwire_field c
                                      (Message.fields m)))
        as (c & text & -> & Hstr).
      * apply fold_fields_keeps, Forall_forall. intros f Hf.
        destruct (printable_field_facts f (proj1 (Forall_forall _ _) Hfields f Hf))
          as (Hc & Hp & Hs).
        by apply fromwire_field_keeps.
      * cbn [mbind result_bind]. by rewrite Hstr.
    + unfold Message.print_towire, Message.towire_subcalls. rewrite Htlv.
      destruct (str_keeps (fun c => Message.fold_fields (Message.towire_field m) c
                                      (Message.fields m)))
        as (c & text & -> & Hstr).
      * apply fold_fields_keeps, Forall_forall. intros f Hf.
        destruct (printable_field_facts f (proj1 (Forall_forall _ _) Hfields f Hf))
          as (Hc & Hp & Hs).
        by apply towire_field_keeps.
      * cbn [mbind result_bind]. by rewrite Hstr.
Qed.

(** The decoder, the encoder and (for a TLV record) the struct of a
    message are printed without an exception, as declarations and as
    definitions, when the message is printable.  That is: the name, the
    type, the comments and the length variable of every field have no
    tab and no newline; no field name ends in a brace; the name of a
    length variable does not begin with [for] or [if]; a field that
    holds a TLV container is length-prefixed, an array or padding; and
    for a TLV record, besides, the name of the record has no tab and no
    newline and does not begin with [for] or [if], no field is optional
    or a TLV container, and no type of a field begins with [for] or
    [if].  Every statement the passes append then keeps the indentation
    of [CCode] balanced, so neither of its assertions fails. *)
Theorem printable_message_is_printed (m : Message.t) (is_header : bool)
    (tlv_name : string) :
  forallb (fun f =>
             clean_name (Field.name f) && clean (FieldType.name (Field.fieldtype f))
             && forallb clean (Field.comments f)
             && clean (default "" (Field.lenvar f))
             && (negb (Field.is_len_var f) || no_keyword (Field.name f))
             && (negb (Field.is_tlv f) || Field.is_padding f || Field.is_array f
                 || Field.is_variable_size f))
    (Message.fields m) = true ->
  (Message.is_tlv m = true ->
   clean (Message.name m) = true /\ no_keyword (Message.name m) = true /\
   forallb (fun f =>
              negb (Field.is_tlv f) && negb (Field.optional f)
              && no_keyword (FieldType.name (Field.fieldtype f)))
     (Message.fields m) = true) ->
  is_ok (Message.print_fromwire m is_header tlv_name) = true /\
  is_ok (Message.print_towire m is_header tlv_name) = true /\
  (Message.is_tlv m = true -> is_ok (Message.print_struct m) = true).
Proof.
  intros Hfields Hkind.
  assert (Hprintable : printable_message m = true).
  { unfold printable_message. apply andb_true_iff. split; [exact Hfields|].
    destruct (Message.is_tlv m); [|reflexivity].
    destruct (Hkind eq_refl) as (-> & -> & Hrec). exact Hrec. }
  destruct (printable_entry_points m is_header tlv_name Hprintable) as [Hfrom Hto].
  split; [exact Hfrom|]. split; [exact Hto|]. intros Htlv.
  destruct (Hkind Htlv) as (_ & _ & Hrec).
  apply forallb_Forall in Hfields. pose proof (forallb_Forall _ _ Hrec) as Hrec'.
  unfold Message.print_struct. rewrite Htlv. cbn [negb].
  destruct (str_keeps (fun c => CCode.append_all c (Message.struct_members m)))
    as (c & text & -> & Hstr).
  - apply append_all_keeps. unfold Message.struct_members.
    apply Forall_forall. intros s Hs.
    apply list_elem_of_bind in Hs as (f & Hs & Hf).
    destruct (printable_field_facts f (proj1 (Forall_forall _ _) Hfields f Hf))
      as (Hc & _).
    pose proof (struct_member_keeps f Hc (proj1 (Forall_forall _ _) Hrec' f Hf)) as Hk.
    by apply (proj1 (Forall_forall _ _) Hk).
  - cbn [mbind result_bind]. by rewrite Hstr.
Qed.

(** The message [ping] of the specification: a length, an array of that
    length, and padding. *)
Lemma printable_message_is_printed_witness :
  exists rd sh ping,
    read_csv false (files []) 0
      [line "ping,18"; line "ping,0,num_pong_bytes,u16"; line "ping,2,len,u16";
       line "ping,4,ignored,len*u8"; line "ping,4,pad,2*u8"] = Ok (rd, sh) /\
    messages rd = [ping] /\
    is_ok (Message.print_fromwire ping false "") = true /\
    is_ok (Message.print_towire ping false "") = true.
Proof.
  eexists _, _, _. split; [vm_compute; reflexivity|]. split; [reflexivity|].
  match goal with
  | |- is_ok (Message.print_fromwire ?m _ _) = true /\ _ =>
      destruct (printable_message_is_printed m false "") as (Hfrom & Hto & _)
  end; [vm_compute; reflexivity | discriminate 1 |].
  split; [exact Hfrom | exact Hto].
Defined.

(** A run without [--printwire] over printable messages prints all its
    declarations, or all its definitions, without an exception. *)
Theorem printable_run_is_printed (header : bool) (rd : reader) (sh : shared) :
  Forall (fun m => printable_message m = true) (all_messages rd sh) ->
  is_ok (decls header (messages rd) sh) = true.
Proof.
  unfold all_messages. rewrite !Forall_app. intros (Hrd & Hopt & Htlv).
  unfold decls.
  assert (Hall : forall t, Forall
            (fun m => is_ok (Message.print_towire m header t) = true /\
                      is_ok (Message.print_fromwire m header t) = true)
            (messages rd ++ messages_with_option sh)).
  { intros t. apply Forall_app. split; eapply Forall_impl; try eassumption;
      intros m Hm; destruct (printable_entry_points m header t Hm) as (? & ?);
      done. }
  destruct (traverse _ (tlv_fields sh ≫= _)) as [tlv_decls|] eqn:E; cycle 1.
  { assert (is_ok (traverse
        (fun '(tlv_field, m) =>
           t ← Message.print_towire m header tlv_field;
           f ← Message.print_fromwire m header tlv_field; Ok (t, f))
        (tlv_fields sh ≫= (fun '(tlv_field, tlv_messages) =>
                              (fun m => (tlv_field, m)) <$> tlv_messages))) = true)
      as Hok; [|by rewrite E in Hok].
    apply traverse_accepts, Forall_forall. intros [t m] Hm.
    apply list_elem_of_bind in Hm as ([t' ms] & Hm & Hms).
    apply list_elem_of_fmap in Hm as (m' & [= -> ->] & Hm').
    assert (Hp : printable_message m' = true).
    { apply (proj1 (Forall_forall _ _) Htlv).
      apply list_elem_of_bind. by exists (t', ms). }
    destruct (printable_entry_points m' header t' Hp) as (Hf & Ht).
    destruct (Message.print_towire m' header t'); [|done].
    cbn [mbind result_bind]. by destruct (Message.print_fromwire m' header t'). }
  cbn [mbind result_bind].
  destruct (traverse (fun m => Message.print_towire m header "") _) eqn:Et; cycle 1.
  { assert (is_ok (traverse (fun m => Message.print_towire m header "")
                     (messages rd ++ messages_with_option sh)) = true) as Hok;
      [|by rewrite Et in Hok].
    apply traverse_accepts. eapply Forall_impl; [apply (Hall "")|]. by intros m [? ?]. }
  cbn [mbind result_bind].
  destruct (traverse (fun m => Message.print_fromwire m header "") _) eqn:Ef; [done|].
  assert (is_ok (traverse (fun m => Message.print_fromwire m header "")
                   (messages rd ++ messages_with_option sh)) = true) as Hok;
    [|by rewrite Ef in Hok].
  apply traverse_accepts. eapply Forall_impl; [apply (Hall "")|]. by intros m [? ?].
Qed.

(** A message with a TLV container of one record. *)
Lemma printable_run_is_printed_witness :
  exists rd sh,
    read_csv false (files [("wire/gen_ext_csv", [line "r,1"; line "r,0,v,u32"])]) 1
      [line "m,1"; line "m,0,len,u16"; line "m,2,ext+,len*u8"] = Ok (rd, sh) /\
    is_ok (decls false (messages rd) sh) = true /\
    is_ok (decls true (messages rd) sh) = true.
Proof.
  eexists _, _. split; [vm_compute; reflexivity|].
  split; apply printable_run_is_printed, forallb_Forall; vm_compute; reflexivity.
Defined.

(** ** The print routines *)

Lemma shifts_bind (k1 k2 : Z) (step1 step2 : CCode.t -> result CCode.t) :
  shifts_indentation k1 step1 -> shifts_indentation k2 step2 ->
  shifts_indentation (k1 + k2) (fun self => self ← step1 self; step2 self).
Proof.
  intros H1 H2 self Hsingle. destruct (H1 self Hsingle) as (code1 & ss1 & ->).
  cbn [mbind result_bind].
  destruct (H2 (CCode.mk (CCode.indent self + k1) false code1 ss1) eq_refl)
    as (code2 & ss2 & ->).
  cbn [CCode.indent]. exists code2, ss2. do 2 f_equal. lia.
Qed.

Lemma shifts_ret : shifts_indentation 0 Ok.
Proof.
  intros self Hsingle. exists (CCode.code self), (CCode.stmts self).
  destruct self; cbn in *; subst. do 2 f_equal. lia.
Qed.

Lemma text_ordinary (line : string) :
  ordinary line = true -> shifts_indentation 0 (fun self => append_text self line).
Proof.
  intros Hord self Hsingle. unfold append_text.
  rewrite split_last by by apply clean_nl, ordinary_clean.
  cbn [CCode.append_lines]. rewrite (append_line_ordinary _ _ Hord), Hsingle.
  cbn [mbind result_bind]. eexists _, _. do 2 f_equal. lia.
Qed.

Lemma text_open (line : string) :
  clean line = true -> String.eqb line "}" = false -> Py.endswith line "{" = true ->
  shifts_indentation 1 (fun self => append_text self line).
Proof.
  intros Hclean Hne Hopen self Hsingle. unfold append_text.
  rewrite split_last by by apply clean_nl.
  cbn [CCode.append_lines]. rewrite (append_line_open _ _ Hclean Hne Hopen), Hsingle.
  cbn [mbind result_bind]. by eexists _, _.
Qed.

Lemma text_close : shifts_indentation (-1) (fun self => append_text self "}").
Proof.
  intros self Hsingle. unfold append_text. rewrite split_last by reflexivity.
  cbn [CCode.append_lines]. rewrite append_line_close, Hsingle.
  cbn [mbind result_bind]. eexists _, _. do 2 f_equal.
Qed.

Lemma truncate_check_shifts : shifts_indentation 0 add_truncate_check.
Proof.
  intros self Hsingle. unfold add_truncate_check, append_text.
  match goal with
  | |- context [Py.split ?c ?t] =>
      let r := eval vm_compute in (Py.split c t) in change (Py.split c t) with r
  end.
  cbn [CCode.append_lines].
  rewrite append_line_open by reflexivity. cbn [mbind result_bind].
  rewrite append_line_ordinary by reflexivity. cbn [mbind result_bind].
  rewrite append_line_ordinary by reflexivity. cbn [mbind result_bind].
  rewrite append_line_close. cbn [mbind result_bind CCode.single_indent CCode.indent].
  rewrite Hsingle. eexists _, _. do 2 f_equal. lia.
Qed.

Lemma append_texts_shifts (texts : list string) :
  Forall (fun t => ordinary t = true) texts ->
  shifts_indentation 0 (fun self => append_texts self texts).
Proof.
  induction 1 as [|t texts Ht _ IH]; cbn [append_texts]; [apply shifts_ret|].
  apply (shifts_bind 0 0 (fun self => append_text self t)); [by apply text_ordinary|].
  exact IH.
Qed.

Lemma shifts_cast (k k' : Z) (step : CCode.t -> result CCode.t) :
  shifts_indentation k step -> k = k' -> shifts_indentation k' step.
Proof. by intros H <-. Qed.

Lemma shifts_fails (k : Z) (step1 step2 : CCode.t -> result CCode.t) :
  shifts_indentation k step1 ->
  (forall self, CCode.single_indent self = false -> step2 self = Err AssertionError) ->
  forall self, CCode.single_indent self = false ->
    (self ← step1 self; step2 self) = Err AssertionError.
Proof.
  intros H1 H2 self Hsingle. destruct (H1 self Hsingle) as (code & ss & ->).
  by apply H2.
Qed.

Ltac text_line :=
  first
    [ apply shifts_ret
    | apply text_ordinary; assumption
    | apply truncate_check_shifts
    | apply text_close
    | apply text_ordinary; unfold tal_fmt_field; ordinary_line
    | apply text_open; unfold tal_fmt_field; [clean_line | reflexivity | line_end] ].

Ltac shifts_seq :=
  lazymatch goal with
  | |- shifts_indentation _ (fun self => mbind _ _) =>
      eapply shifts_bind; [shifts_seq | shifts_seq]
  | _ => text_line
  end.

Lemma ordinary_type_headed (typename rest : string) :
  clean typename = true -> no_keyword typename = true ->
  clean rest = true -> Py.endswith (" " +:+ rest) "{" = false ->
  Py.endswith (" " +:+ rest) "}" = false ->
  ordinary (typename +:+ " " +:+ rest) = true.
Proof.
  intros Htype Hkey Hrest Hopen Hclose.
  by apply (ordinary_var_headed typename " " rest).
Qed.

(** The loop over the elements of an array in a print routine: it is
    printed unless the elements are varlen structs. *)
Lemma print_printwire_array_step (basetype : string) (f : Field.t) (n : count) :
  clean basetype = true -> clean (Field.name f) = true ->
  clean (FieldType.name (Field.fieldtype f)) = true ->
  no_keyword (FieldType.name (Field.fieldtype f)) = true ->
  clean (render_count n) = true ->
  if negb (Field.has_array_helper f)
     && negb (FieldType.is_assignable (Field.fieldtype f))
     && in_list basetype varlen_structs
  then forall self, CCode.single_indent self = false ->
         print_printwire_array self basetype f n = Err AssertionError
  else shifts_indentation 0 (fun self => print_printwire_array self basetype f n).
Proof.
  intros Hbase Hname Htype Hkey Hn. unfold print_printwire_array.
  assert (Hv : ordinary (FieldType.name (Field.fieldtype f) +:+ " v;") = true).
  { apply ordinary_type_headed; try done. }
  destruct (Field.has_array_helper f); cbn [negb andb]; [text_line|].
  destruct (FieldType.is_assignable (Field.fieldtype f)); cbn [negb andb].
  { eapply shifts_cast.
    - eapply shifts_bind; [text_line|].
      eapply shifts_bind; [text_line|].
      eapply shifts_bind; [by apply text_ordinary|].
      shifts_seq.
    - reflexivity. }
  destruct (in_list basetype varlen_structs).
  - eapply shifts_fails; [text_line|].
    eapply shifts_fails; [text_line|].
    eapply shifts_fails; [by apply text_ordinary|].
    reflexivity.
  - eapply shifts_cast.
    + eapply shifts_bind; [text_line|].
      eapply shifts_bind; [text_line|].
      eapply shifts_bind; [by apply text_ordinary|].
      shifts_seq.
    + reflexivity.
Qed.

Lemma outcome_of_shifts (u : bool) (step : CCode.t -> result CCode.t) :
  shifts_indentation (if u then 1 else 0) step -> printwire_outcome u step.
Proof. intros H self Hsingle. right. by apply H. Qed.

Lemma outcome_of_failure (step : CCode.t -> result CCode.t) :
  (forall self, CCode.single_indent self = false -> step self = Err AssertionError) ->
  printwire_outcome true step.
Proof. intros H self Hsingle. left. split; [by apply H | done]. Qed.

Lemma outcome_bind (u : bool) (step1 step2 : CCode.t -> result CCode.t) :
  shifts_indentation 0 step1 -> printwire_outcome u step2 ->
  printwire_outcome u (fun self => self ← step1 self; step2 self).
Proof.
  intros H1 H2 self Hsingle. destruct (H1 self Hsingle) as (code & ss & ->).
  cbn [mbind result_bind].
  destruct (H2 (CCode.mk (CCode.indent self + 0) false code ss) eq_refl)
    as [[-> ->] | (code2 & ss2 & ->)]; [by left|].
  right. cbn [CCode.indent]. exists code2, ss2. do 2 f_equal. lia.
Qed.

Lemma printwire_field_step (f : Field.t) :
  printwire_clean f = true ->
  printwire_outcome (printwire_unsupported f) (fun self => printwire_field self f).
Proof.
  unfold printwire_clean. intros [Hclean Hkey]%andb_true_iff.
  destruct (clean_field_facts f Hclean)
    as (Hname & Hopen & Hclose & Htype & Hbase & _ & Hlen & _).
  assert (Hcomments : Forall (fun t => ordinary t = true)
                        ((fun c => "/*" +:+ c +:+ " */") <$> Field.comments f)).
  { apply Forall_fmap, Forall_forall. intros c Hc.
    assert (clean c = true).
    { unfold clean_field in Hclean. rewrite !andb_true_iff in Hclean.
      destruct Hclean as [[_ Hcs] _]. by eapply forallb_elem_of. }
    ordinary_line. }
  assert (Hdecl : ordinary (FieldType.name (Field.fieldtype f) +:+ " " +:+ Field.name f
                            +:+ " = fromwire_" +:+ FieldType.base (Field.fieldtype f)
                            +:+ "(&cursor, &plen);") = true).
  { apply ordinary_type_headed; try done; [clean_line | line_end | line_end]. }
  assert (Hvar : ordinary (FieldType.name (Field.fieldtype f) +:+ " " +:+ Field.name f
                           +:+ ";") = true).
  { apply ordinary_type_headed; try done; [clean_line | line_end | line_end]. }
  unfold printwire_field, printwire_unsupported. cbv zeta.
  apply outcome_bind; [by apply append_texts_shifts|].
  destruct (Field.is_len_var f); cbn [negb andb].
  { apply (outcome_of_shifts false). eapply shifts_cast.
    - eapply shifts_bind; [by apply text_ordinary | text_line].
    - reflexivity. }
  apply outcome_bind; [unfold dq; text_line|].
  destruct (Field.is_padding f); cbn [negb andb].
  { apply (outcome_of_shifts false). eapply shifts_cast; [shifts_seq | reflexivity]. }
  destruct (Field.is_array f); cbn [orb].
  { pose proof (print_printwire_array_step (FieldType.base (Field.fieldtype f)) f
                  (Num (Field.num_elems f)) Hbase Hname Htype Hkey (clean_str _)) as Harr.
    destruct (negb (Field.has_array_helper f) && _ && _).
    - apply outcome_of_failure. intros self Hsingle. by rewrite Harr.
    - apply (outcome_of_shifts false). eapply shifts_cast.
      + eapply shifts_bind; [exact Harr | text_line].
      + reflexivity. }
  destruct (Field.is_variable_size f).
  { pose proof (print_printwire_array_step (FieldType.base (Field.fieldtype f)) f
                  (Len (default "None" (Field.lenvar f))) Hbase Hname Htype Hkey Hlen)
      as Harr.
    destruct (negb (Field.has_array_helper f) && _ && _).
    - apply outcome_of_failure. intros self Hsingle. by rewrite Harr.
    - apply (outcome_of_shifts false). eapply shifts_cast.
      + eapply shifts_bind; [exact Harr | text_line].
      + reflexivity. }
  destruct (Field.optional f), (Field.is_assignable f); cbn [negb andb orb].
  - apply (outcome_of_shifts true). eapply shifts_cast; [shifts_seq | reflexivity].
  - destruct (in_list _ varlen_structs); cbn [orb].
    + apply outcome_of_failure.
      eapply shifts_fails; [text_line|]. reflexivity.
    + apply (outcome_of_shifts true). eapply shifts_cast; [shifts_seq | reflexivity].
  - apply (outcome_of_shifts false). eapply shifts_cast; [shifts_seq | reflexivity].
  - destruct (in_list _ varlen_structs); cbn [orb].
    + apply outcome_of_failure. reflexivity.
    + apply (outcome_of_shifts false). eapply shifts_cast; [shifts_seq | reflexivity].
Qed.

(** *** The exceptions of the print routines *)

Lemma append_line_Err (self : CCode.t) (line : string) (e : exn) :
  CCode.append_line self line = Err e -> e = AssertionError.
Proof.
  unfold CCode.append_line.
  destruct (Py.contains tab line); [by intros [= <-]|].
  destruct (String.eqb line "}"); [discriminate 1|].
  destruct (Py.endswith line "{"); [discriminate 1|].
  destruct (Py.endswith line "}"); [discriminate 1|].
  destruct (_ || _); discriminate 1.
Qed.

Lemma append_lines_Err (lines : list string) (self : CCode.t) (e : exn) :
  CCode.append_lines self lines = Err e -> e = AssertionError.
Proof.
  revert self. induction lines as [|l lines IH]; intros self; cbn [CCode.append_lines].
  { discriminate 1. }
  intros [H | (self' & _ & H)]%bind_Err; [by eapply append_line_Err | by eapply IH].
Qed.

Lemma append_text_Err (self : CCode.t) (text : string) (e : exn) :
  append_text self text = Err e -> e = AssertionError.
Proof. apply append_lines_Err. Qed.

Lemma append_texts_Err (texts : list string) (self : CCode.t) (e : exn) :
  append_texts self texts = Err e -> e = AssertionError.
Proof.
  revert self. induction texts as [|t texts IH]; intros self; cbn [append_texts].
  { discriminate 1. }
  intros [H | (self' & _ & H)]%bind_Err; [by eapply append_text_Err | by eapply IH].
Qed.

Ltac only_assertion H :=
  repeat
    match type of H with
    | mbind _ _ = Err _ => apply bind_Err in H as [H | (? & _ & H)]
    | (if ?b then _ else _) = Err _ => destruct b
    | append_text _ _ = Err _ => exact (append_text_Err _ _ _ H)
    | append_texts _ _ = Err _ => exact (append_texts_Err _ _ _ H)
    | add_truncate_check _ = Err _ => exact (append_text_Err _ _ _ H)
    | Err _ = Err _ => by injection H as <-
    | Ok _ = Err _ => discriminate H
    end.

Lemma print_printwire_array_Err (self : CCode.t) (basetype : string) (f : Field.t)
    (n : count) (e : exn) :
  print_printwire_array self basetype f n = Err e -> e = AssertionError.
Proof. unfold print_printwire_array. intros H. only_assertion H. Qed.

Lemma printwire_field_Err (self : CCode.t) (f : Field.t) (e : exn) :
  printwire_field self f = Err e -> e = AssertionError.
Proof.
  unfold printwire_field. cbv zeta. intros H.
  repeat
    match type of H with
    | print_printwire_array _ _ _ _ = Err _ =>
        exact (print_printwire_array_Err _ _ _ _ _ H)
    | _ => progress only_assertion H
    end.
Qed.

Lemma printwire_fold_Err (fs : list Field.t) (self : CCode.t) (e : exn) :
  Message.fold_fields printwire_field self fs = Err e -> e = AssertionError.
Proof.
  revert self. induction fs as [|f fs IH]; intros self; cbn [Message.fold_fields].
  { discriminate 1. }
  intros [H | (self' & _ & H)]%bind_Err; [by eapply printwire_field_Err | by eapply IH].
Qed.

Lemma printwire_fold (fs : list Field.t) :
  forallb printwire_clean fs = true ->
  forall self, CCode.single_indent self = false ->
    Message.fold_fields printwire_field self fs = Err AssertionError /\
    existsb printwire_unsupported fs = true \/
    exists code ss k,
      Message.fold_fields printwire_field self fs
      = Ok (CCode.mk (CCode.indent self + k) false code ss) /\
      0 <= k /\ (k = 0 <-> existsb printwire_unsupported fs = false).
Proof.
  induction fs as [|f fs IH]; cbn [forallb existsb Message.fold_fields].
  - intros _ self Hsingle. right. exists (CCode.code self), (CCode.stmts self), 0.
    split; [|done]. destruct self; cbn in *; subst. do 2 f_equal. lia.
  - intros [Hf Hfs]%andb_true_iff self Hsingle.
    destruct (printwire_field_step f Hf self Hsingle)
      as [[-> Hu] | (code1 & ss1 & ->)]; [left; by rewrite Hu|].
    cbn [mbind result_bind].
    destruct (IH Hfs (CCode.mk (CCode.indent self + (if printwire_unsupported f
                                                     then 1 else 0)) false code1 ss1)
                eq_refl) as [[-> Hu] | (code2 & ss2 & k & -> & Hk & Hiff)].
    + left. by rewrite Hu, orb_true_r.
    + right. cbn [CCode.indent].
      exists code2, ss2, ((if printwire_unsupported f then 1 else 0) + k).
      split; [do 2 f_equal; lia|].
      destruct (printwire_unsupported f); cbn [orb]; [|by rewrite Z.add_0_l].
      split; [lia|]. split; [lia | discriminate 1].
Qed.

(** A print routine raises nothing but [AssertionError].  For a message
    whose fields are clean and whose types do not begin with [for] or
    [if], it is printed exactly when the message has no unsupported
    field.  Length variables and padding are always supported.  A field
    that is printed as an array (an array, or a length-prefixed field)
    is unsupported when its elements would be read into a variable of a
    varlen struct type: no array helper, not assignable, base type among
    the varlen structs.  Any other field is unsupported when it is
    optional, or when it is not assignable and of a varlen struct type.
    The varlen struct types are refused by the assertion of the routine
    itself; for an optional field outside the array branches the [else]
    branch the routine prints leaves the indentation of [CCode] one
    level too deep, which the assertion of [__str__] rejects.  An
    optional field that is printed as an array (in bolt mode the byte
    size can give a count above one) is supported like any array. *)
Theorem print_printwire_supports (m : Message.t) (is_header : bool) :
  (forall e, print_printwire m is_header = Err e -> e = AssertionError) /\
  (forallb printwire_clean (Message.fields m) = true ->
   is_ok (print_printwire m is_header)
   = negb (existsb printwire_unsupported (Message.fields m))).
Proof.
  unfold print_printwire. split.
  - intros e [H | (c & _ & H)]%bind_Err; [by eapply printwire_fold_Err|].
    apply bind_Err in H as [H | (text & _ & H)]; [|discriminate H].
    unfold CCode.str in H. destruct (negb _); [by injection H as <-|].
    destruct (CCode.single_indent c); [by injection H as <- | discriminate H].
  - intros Hclean.
    destruct (printwire_fold _ Hclean CCode.init eq_refl)
      as [[-> ->] | (code & ss & k & -> & Hk & Hiff)]; [done|].
    cbn [mbind result_bind]. unfold CCode.str.
    cbn [CCode.indent CCode.single_indent CCode.init].
    destruct (existsb printwire_unsupported (Message.fields m)).
    + destruct (Z.eqb_spec (1 + k) 1) as [E|_]; [|done].
      assert (k = 0) as Hk0 by lia. by apply Hiff in Hk0.
    + rewrite (proj2 Hiff eq_refl). reflexivity.
Qed.

(** An optional field that is no array. *)
Lemma print_printwire_supports_witness :
  exists rd sh m,
    read_csv false (files []) 0 [line "m,1"; line "m,0,v,?u32"] = Ok (rd, sh) /\
    messages rd = [m] /\
    is_ok (Message.print_fromwire m false "") = true /\
    print_printwire m false = Err AssertionError.
Proof.
  eexists _, _, _. split; [vm_compute; reflexivity|]. split; [reflexivity|].
  split; [vm_compute; reflexivity|].
  match goal with
  | |- print_printwire ?m ?h = _ =>
      pose proof (print_printwire_supports m h) as [Herr Hok];
      specialize (Hok eq_refl); destruct (print_printwire m h) as [text|e];
      [discriminate Hok | by rewrite (Herr e eq_refl)]
  end.
Defined.

(** ** Messages of integers and padding: the round trip *)





(** *** The statements of an integer message *)











(** *** Running the encoder and the decoder *)


Section IntegerMessages.

Variable U : c_unit.
Variable tlvs : list (string * list Message.t).
Variable args : gmap string value.











End IntegerMessages.









(** *** Input that is too short *)




Section ShortInput.

Variable U : c_unit.
Variable tlvs : list (string * list Message.t).
Variable args : gmap string value.




End ShortInput.


